(** * Usage tracker: the session and time-accounting engine

    A shallow embedding of the background service worker of the usage
    tracker (class [UsageTracker], the [pageEvent] message handler, the
    [pomodoro-end] alarm handler, the [pomodoro:*] and [tasks:*] message
    handlers), of the messages of the content script and of the pure
    helpers of the popup, followed by the properties of the engine.

    Conventions of the embedding.
    - JavaScript numbers that hold millisecond counts, timestamps and tab
      ids are integers in the program; they are modelled as [Z].
    - A reading of [Date.now()] that the program keeps is an explicit
      argument of the function that takes it, one argument per reading.
    - A JavaScript object read from storage may lack any of its fields; a
      field that may be absent is an [option], [None] standing for
      [undefined].
    - Calls that leave the tracker (saving a visit, the badge, alarms,
      [sendResponse]) are recorded in the order in which they are made.
    - [chrome.storage.local.get] and [set] are taken to succeed, so the
      [catch] clauses around them are not entered on their account.
    - A plain object used as a map (the day's object, a record's [urls],
      the statistics' [domains]) is a finite map of its own properties;
      a read with a computed key also finds the names that every object
      inherits, which is modelled where the program makes such a read. *)

From Stdlib Require Import ZArith Bool Ascii String.
From stdpp Require Import gmap strings list fin_maps pretty.

Local Open Scope string_scope.
Local Open Scope list_scope.
Local Open Scope Z_scope.

(** ** JavaScript primitives used by the tracker *)

Module JsString.

(** [s.startsWith(p)] *)
Definition startsWith (s p : string) : bool := String.prefix p s.

(** [s.includes(p)] *)
Fixpoint includes (s p : string) : bool :=
  String.prefix p s ||
  match s with
  | EmptyString => false
  | String _ s' => includes s' p
  end.

(** [s.slice(n)] for [0 <= n] *)
Fixpoint slice (n : nat) (s : string) : string :=
  match n, s with
  | O, _ => s
  | S n', String _ s' => slice n' s'
  | S _, EmptyString => EmptyString
  end.

(** [s.replace(pat, rep)] with a string pattern: only the first
    occurrence of [pat] is replaced.  ([rep] is inserted literally; the
    tracker only ever passes the empty string.) *)
Fixpoint replace (s pat rep : string) : string :=
  if String.prefix pat s then rep +:+ slice (String.length pat) s
  else match s with
       | EmptyString => EmptyString
       | String c s' => String c (replace s' pat rep)
       end.

(** [s.substring(0, n)] *)
Fixpoint substring0 (n : nat) (s : string) : string :=
  match n, s with
  | S n', String c s' => String c (substring0 n' s')
  | _, _ => EmptyString
  end.

Definition upper (c : ascii) : ascii :=
  let n := nat_of_ascii c in
  if (97 <=? n)%nat && (n <=? 122)%nat then ascii_of_nat (n - 32) else c.

(** [s.toUpperCase()] on ASCII text *)
Fixpoint toUpperCase (s : string) : string :=
  match s with
  | EmptyString => EmptyString
  | String c s' => String (upper c) (toUpperCase s')
  end.

(** [!s] for a value that is a string or [undefined] *)
Definition falsy (s : option string) : bool :=
  match s with
  | Some s => String.eqb s ""
  | None => true
  end.

End JsString.

Module JsNumber.

(** [!n] for a value that is an integer or [undefined] *)
Definition falsy (n : option Z) : bool :=
  match n with
  | Some n => Z.eqb n 0
  | None => true
  end.

(** [n || d] for a value that is an integer or [undefined] *)
Definition or (n : option Z) (d : Z) : Z :=
  match n with
  | Some n => if Z.eqb n 0 then d else n
  | None => d
  end.

End JsNumber.

(** ** DomainClassifier: [extractDomain] and [isDomainExcluded] *)

Section Classifier.

(** The platform's [new URL(url).hostname]: [None] when the constructor
    throws.  The parser belongs to the host platform, so the tracker is
    verified for every parser. *)
Context (URL_hostname : string → option string).

(** [UsageTracker.extractDomain] (the test suite carries an identical
    copy).  [hostname_or_unknown] is the last statement of the [try]
    block together with the [catch] clause, which turns a failing
    [new URL] into ['unknown']. *)
Definition hostname_or_unknown (url : string) : string :=
  match URL_hostname url with
  | Some hostname => JsString.replace hostname "www." ""
  | None => "unknown"
  end.

Definition extractDomain (url : string) : string :=
  if JsString.startsWith url "chrome://"
     || JsString.startsWith url "chrome-extension://"
     || JsString.startsWith url "about:"
     || JsString.startsWith url "file://"
  then
    if JsString.startsWith url "chrome://" then "chrome://"
    else if JsString.startsWith url "chrome-extension://" then "chrome-extension://"
    else if JsString.startsWith url "about:" then "about:"
    else if JsString.startsWith url "file://" then "file://"
    else hostname_or_unknown url
  else hostname_or_unknown url.

End Classifier.

Definition excludedDomains : list string :=
  ["chrome://"; "chrome-extension://"; "about:"; "file://"].

(** [UsageTracker.isDomainExcluded] *)
Definition isDomainExcluded (domain : string) : bool :=
  existsb (fun excluded => JsString.includes domain excluded || String.eqb domain "")
          excludedDomains.

(** A concrete hostname parser for plain [http://] and [https://]
    addresses: the host is the text between the scheme and the first of
    [/], [?], [#] and [:]; everything else is rejected, as is an empty
    host.  It agrees with the platform's parser on the lower-case ASCII
    addresses used in the examples of this file and serves only to run
    them. *)
Module SimpleURL.

Definition is_delim (c : ascii) : bool :=
  (Ascii.eqb c "/" || Ascii.eqb c "?" || Ascii.eqb c "#" || Ascii.eqb c ":")%char.

Fixpoint host_part (s : string) : string :=
  match s with
  | EmptyString => EmptyString
  | String c s' => if is_delim c then EmptyString else String c (host_part s')
  end.

Definition after_scheme (url : string) : option string :=
  if JsString.startsWith url "https://" then Some (JsString.slice 8 url)
  else if JsString.startsWith url "http://" then Some (JsString.slice 7 url)
  else None.

Definition hostname (url : string) : option string :=
  match after_scheme url with
  | Some rest =>
      let h := host_part rest in
      if String.eqb h "" then None else Some h
  | None => None
  end.

End SimpleURL.

(** ** The JavaScript [Map]: an association list in insertion order

    [activeTabs] is iterated by [stopTrackingAllTabs], and a [Map]
    iterates in insertion order, so the order of the entries is kept. *)

Module JsMap.
Section Ops.
Context {V : Type}.

Definition get (k : Z) (m : list (Z * V)) : option V :=
  snd <$> List.find (fun kv => Z.eqb kv.1 k) m.

Definition has (k : Z) (m : list (Z * V)) : bool :=
  existsb (fun kv => Z.eqb kv.1 k) m.

(** [m.set(k, v)]: an existing key keeps its place, a new key goes last *)
Definition set (k : Z) (v : V) (m : list (Z * V)) : list (Z * V) :=
  if has k m
  then List.map (fun kv => if Z.eqb kv.1 k then (k, v) else kv) m
  else m ++ [(k, v)].

Definition delete (k : Z) (m : list (Z * V)) : list (Z * V) :=
  List.filter (fun kv => negb (Z.eqb kv.1 k)) m.

Definition keys (m : list (Z * V)) : list Z := List.map fst m.

Definition size (m : list (Z * V)) : nat := length m.

End Ops.
End JsMap.

(** ** TabFocusTracker and HeartbeatDedupEngine: the data *)

Module TrackingData.
Record t := mk {
  tabId : Z;
  url : string;
  domain : string;
  startTime : Z;
  lastUpdate : Z
}.
End TrackingData.

Module HeartbeatSession.
Record t := mk {
  lastTimestamp : Z;
  url : string
}.
End HeartbeatSession.

(** A tab as the platform reports it: [tab.url] may be [undefined]. *)
Module Tab.
Record t := mk {
  id : Z;
  url : option string;
  active : bool
}.
End Tab.

(** The fields of [UsageTracker] that the engine reads and writes. *)
Record UsageTracker := {
  activeTabs : list (Z * TrackingData.t);
  sessionData : gmap Z HeartbeatSession.t;
  isTrackingEnabled : bool
}.

(** The tracker as the constructor leaves it. *)
Definition new_UsageTracker : UsageTracker :=
  {| activeTabs := []; sessionData := ∅; isTrackingEnabled := true |}.

(** Calls made by the handlers, in program order. *)
Inductive Call :=
| Call_saveVisitData (domain : string) (duration : Z) (url : string)
| Call_setBadgeText (text : string)
| Call_setBadgeBackgroundColor (color : string)
| Call_tabs_get (tabId : Z)
| Call_tabs_query (windowId : Z)
| Call_sendResponse_ok (ok : bool)
| Call_sendResponse_success.

(** A handler body: the tracker it leaves and the calls it made. *)
Definition Action := UsageTracker → UsageTracker * list Call.

Definition skip : Action := fun t => (t, []).

Definition call (c : Call) : Action := fun t => (t, [c]).

Definition seq (a b : Action) : Action :=
  fun t =>
    let '(t1, c1) := a t in
    let '(t2, c2) := b t1 in
    (t2, c1 ++ c2).

Notation "a >> b" := (seq a b) (at level 62, right associativity).

Definition set_activeTabs (f : list (Z * TrackingData.t) → list (Z * TrackingData.t)) : Action :=
  fun t => ({| activeTabs := f (activeTabs t);
               sessionData := sessionData t;
               isTrackingEnabled := isTrackingEnabled t |}, []).

Definition set_sessionData (f : gmap Z HeartbeatSession.t → gmap Z HeartbeatSession.t) : Action :=
  fun t => ({| activeTabs := activeTabs t;
               sessionData := f (sessionData t);
               isTrackingEnabled := isTrackingEnabled t |}, []).

Definition set_isTrackingEnabled (b : bool) : Action :=
  fun t => ({| activeTabs := activeTabs t;
               sessionData := sessionData t;
               isTrackingEnabled := b |}, []).

(** The visits committed by a run: its calls of [saveVisitData]. *)
Definition commits (cs : list Call) : list (string * Z * string) :=
  omap (fun c => match c with
                 | Call_saveVisitData d t u => Some (d, t, u)
                 | _ => None
                 end) cs.

(** [UsageTracker.updateBadge] *)
Definition updateBadge (domain : string) : Action :=
  if String.eqb domain "" then call (Call_setBadgeText "")
  else
    let shortDomain := JsString.toUpperCase (JsString.substring0 4 domain) in
    call (Call_setBadgeText shortDomain) >>
    call (Call_setBadgeBackgroundColor "#303b39").

(** [UsageTracker.stopTrackingTab]; [endTime] is its reading of the clock. *)
Definition stopTrackingTab (endTime : Z) (tabId : Z) : Action :=
  fun t =>
    match JsMap.get tabId (activeTabs t) with
    | None => (t, [])
    | Some trackingData =>
        let duration := endTime - TrackingData.startTime trackingData in
        ((if duration >? 1000
          then call (Call_saveVisitData (TrackingData.domain trackingData) duration
                                        (TrackingData.url trackingData))
          else skip) >>
         set_activeTabs (JsMap.delete tabId) >>
         updateBadge "") t
    end.

(** [UsageTracker.stopTrackingAllTabs]: one [stopTrackingTab] per key, in
    insertion order.  Stopping a tab deletes only the key just visited,
    so the live iteration visits exactly the keys present at the start.
    [endTime k] is the reading of the clock taken when tab [k] is
    stopped. *)
Definition stopTrackingAllTabs (endTime : Z → Z) : Action :=
  fun t =>
    foldl (fun a k => a >> stopTrackingTab (endTime k) k) skip
          (JsMap.keys (activeTabs t)) t.

Section Tracker.
Context (URL_hostname : string → option string).

(** [UsageTracker.startTrackingTab]; [now1] and [now2] are the readings
    stored as [startTime] and [lastUpdate]. *)
Definition startTrackingTab (now1 now2 : Z) (tabId : Z) (url : option string) : Action :=
  fun t =>
    match url with
    | None => (t, [])
    | Some url =>
        if negb (isTrackingEnabled t) || String.eqb url "" then (t, [])
        else
          let domain := extractDomain URL_hostname url in
          if isDomainExcluded domain then (t, [])
          else
            let trackingData := TrackingData.mk tabId url domain now1 now2 in
            (set_activeTabs (JsMap.set tabId trackingData) >>
             updateBadge domain) t
    end.

(** The callback of [chrome.tabs.query({})] in [initializeExistingTabs] *)
Definition initializeExistingTabs_queried (now1 now2 : Z) (tabs : list Tab.t) : Action :=
  match List.find Tab.active tabs with
  | Some activeTab =>
      if JsString.falsy (Tab.url activeTab) then skip
      else startTrackingTab now1 now2 (Tab.id activeTab) (Tab.url activeTab)
  | None => skip
  end.

(** [UsageTracker.handleTabActivated], up to the request for the tab *)
Definition handleTabActivated (endTime : Z → Z) (tabId : Z) : Action :=
  stopTrackingAllTabs endTime >> call (Call_tabs_get tabId).

(** The callback that [handleTabActivated] passes to [chrome.tabs.get] *)
Definition handleTabActivated_got (now1 now2 : Z) (tabId : Z) (tab : option Tab.t) : Action :=
  match tab with
  | Some tab =>
      if JsString.falsy (Tab.url tab) then skip
      else startTrackingTab now1 now2 tabId (Tab.url tab)
  | None => skip
  end.

(** [status === 'complete'] *)
Definition is_complete (status : option string) : bool :=
  match status with
  | Some s => String.eqb s "complete"
  | None => false
  end.

(** [UsageTracker.handleTabUpdated]; [status] is [changeInfo.status] *)
Definition handleTabUpdated (endTime now1 now2 : Z) (tabId : Z)
    (status : option string) (tab : Tab.t) : Action :=
  if is_complete status && negb (JsString.falsy (Tab.url tab))
  then stopTrackingTab endTime tabId >> startTrackingTab now1 now2 tabId (Tab.url tab)
  else skip.

(** [UsageTracker.handleTabRemoved] *)
Definition handleTabRemoved (endTime : Z) (tabId : Z) : Action :=
  stopTrackingTab endTime tabId.

(** [chrome.windows.WINDOW_ID_NONE] *)
Definition WINDOW_ID_NONE : Z := -1.

(** [UsageTracker.handleWindowFocusChanged], up to the query *)
Definition handleWindowFocusChanged (endTime : Z → Z) (windowId : Z) : Action :=
  if windowId =? WINDOW_ID_NONE then stopTrackingAllTabs endTime
  else call (Call_tabs_query windowId).

(** The callback that [handleWindowFocusChanged] passes to
    [chrome.tabs.query] *)
Definition handleWindowFocusChanged_queried (endTime : Z → Z) (now1 now2 : Z)
    (tabs : list Tab.t) : Action :=
  match tabs with
  | tab0 :: _ =>
      stopTrackingAllTabs endTime >>
      startTrackingTab now1 now2 (Tab.id tab0) (Tab.url tab0)
  | [] => skip
  end.

(** The [toggleTracking] message *)
Definition toggleTracking (endTime : Z → Z) (enabled : bool) : Action :=
  set_isTrackingEnabled enabled >>
  (if negb enabled then stopTrackingAllTabs endTime else skip) >>
  call Call_sendResponse_success.

(** The [pageEvent] message handler.  [senderTabId] is
    [sender.tab.id], or [None] when the sender has no tab; the test
    [!tabId] also holds of the id [0].  Nothing in the [try] block can
    throw ([extractDomain] catches its own exception), so its [catch]
    clause is not entered. *)
Definition pageEvent (senderTabId : option Z) (url : string) (ts : Z) : Action :=
  fun t =>
    let domain := extractDomain URL_hostname url in
    match senderTabId with
    | None => call (Call_sendResponse_ok false) t
    | Some tabId =>
        if (tabId =? 0) || isDomainExcluded domain
        then call (Call_sendResponse_ok false) t
        else
          let store := set_sessionData (insert tabId (HeartbeatSession.mk ts url)) in
          match sessionData t !! tabId with
          | Some prev =>
              if String.eqb (HeartbeatSession.url prev) url
              then
                let delta := Z.max 0 (Z.min (ts - HeartbeatSession.lastTimestamp prev) 60000) in
                ((if delta >=? 5000
                  then call (Call_saveVisitData domain delta url)
                  else skip) >>
                 store >>
                 call (Call_sendResponse_ok true)) t
              else (store >> call (Call_sendResponse_ok true)) t
          | None => (store >> call (Call_sendResponse_ok true)) t
          end
    end.

(** The events that drive the tracker, each with the clock readings its
    handler takes.  [SettingsApplied] is the assignment to
    [isTrackingEnabled] made by [loadStoredData] and by the
    [saveSettings] message. *)
Inductive Event :=
| ExistingTabsQueried (now1 now2 : Z) (tabs : list Tab.t)
| TabActivated (endTime : Z → Z) (tabId : Z)
| TabActivatedGot (now1 now2 : Z) (tabId : Z) (tab : option Tab.t)
| TabUpdated (endTime now1 now2 : Z) (tabId : Z) (status : option string) (tab : Tab.t)
| TabRemoved (endTime : Z) (tabId : Z)
| WindowFocusChanged (endTime : Z → Z) (windowId : Z)
| WindowFocusQueried (endTime : Z → Z) (now1 now2 : Z) (tabs : list Tab.t)
| ToggleTracking (endTime : Z → Z) (enabled : bool)
| SettingsApplied (trackingEnabled : bool)
| PageEvent (senderTabId : option Z) (url : string) (ts : Z).

Definition handle (e : Event) : Action :=
  match e with
  | ExistingTabsQueried now1 now2 tabs => initializeExistingTabs_queried now1 now2 tabs
  | TabActivated endTime tabId => handleTabActivated endTime tabId
  | TabActivatedGot now1 now2 tabId tab => handleTabActivated_got now1 now2 tabId tab
  | TabUpdated endTime now1 now2 tabId status tab =>
      handleTabUpdated endTime now1 now2 tabId status tab
  | TabRemoved endTime tabId => handleTabRemoved endTime tabId
  | WindowFocusChanged endTime windowId => handleWindowFocusChanged endTime windowId
  | WindowFocusQueried endTime now1 now2 tabs =>
      handleWindowFocusChanged_queried endTime now1 now2 tabs
  | ToggleTracking endTime enabled => toggleTracking endTime enabled
  | SettingsApplied trackingEnabled => set_isTrackingEnabled trackingEnabled
  | PageEvent senderTabId url ts => pageEvent senderTabId url ts
  end.

(** The tracker after a sequence of events, and all the calls made. *)
Definition run (es : list Event) : Action :=
  foldl (fun a e => a >> handle e) skip es.

(** The states the tracker can be in: those that some sequence of events
    produces from the constructor's state. *)
Definition reachable (t : UsageTracker) : Prop :=
  ∃ es, (run es new_UsageTracker).1 = t.

End Tracker.

(** ** VisitAggregator: the persisted records *)

(** The day's object, a record's [urls] and the statistics' [domains]
    are plain objects read with a computed key, [visits[domain]].  Such
    a read finds the object's own properties and, when there is none of
    that name, the properties of [Object.prototype]: every one of these
    names yields a function or an object, which is truthy. *)
Definition inherited_names : list string :=
  ["constructor"; "__proto__"; "hasOwnProperty"; "isPrototypeOf";
   "propertyIsEnumerable"; "toLocaleString"; "toString"; "valueOf";
   "__defineGetter__"; "__defineSetter__"; "__lookupGetter__"; "__lookupSetter__"].

Definition inherited (name : string) : bool :=
  existsb (String.eqb name) inherited_names.

(** A per-url value of a day's record: a number, or the string that
    [+=] yields when its left operand is an inherited function (the text
    of the function followed by the digits of the durations added since;
    the characters depend on the engine and are not kept). *)
Inductive UrlTotal :=
| Num (n : Z)
| Text.

Module Daily.
Record t := mk {
  totalTime : Z;
  visitCount : Z;
  urls : gmap string UrlTotal
}.
End Daily.

Module DomainStat.
Record t := mk {
  totalTime : Z;
  visitCount : Z
}.
End DomainStat.

Module Statistics.
Record t := mk {
  totalTime : Z;
  totalVisits : Z;
  domains : gmap string DomainStat.t;
  lastUpdated : Z
}.
End Statistics.

(** The part of [chrome.storage.local] that the aggregator uses: one
    entry per key [visits_<date>], and the entry [statistics]. *)
Record Storage := {
  visits : gmap string (gmap string Daily.t);
  statistics : option Statistics.t
}.

Definition set_visits (key : string) (v : gmap string Daily.t) (st : Storage) : Storage :=
  {| visits := <[key := v]> (visits st); statistics := statistics st |}.

Definition set_statistics (s : Statistics.t) (st : Storage) : Storage :=
  {| visits := visits st; statistics := Some s |}.

(** [!v] and [v += duration] for a per-url value: the text of a
    function is not empty, and a number appended to a string is a
    string. *)
Definition UrlTotal_falsy (v : UrlTotal) : bool :=
  match v with
  | Num n => Z.eqb n 0
  | Text => false
  end.

Definition UrlTotal_add (v : UrlTotal) (duration : Z) : UrlTotal :=
  match v with
  | Num n => Num (n + duration)
  | Text => Text
  end.

(** [if (!urls[url]) urls[url] = 0; urls[url] += duration].  Under an
    inherited name that the object does not own, the read yields a
    function, nothing is initialised, and the sum is a string, stored as
    an own property; the assignment to [__proto__] of a string changes
    nothing. *)
Definition add_url (url : string) (duration : Z) (urls : gmap string UrlTotal)
    : gmap string UrlTotal :=
  match urls !! url with
  | Some v =>
      let v0 := if UrlTotal_falsy v then Num 0 else v in
      <[url := UrlTotal_add v0 duration]> urls
  | None =>
      if inherited url then
        if String.eqb url "__proto__" then urls else <[url := Text]> urls
      else <[url := UrlTotal_add (Num 0) duration]> urls
  end.

(** The three updates of a domain's record in [saveVisitData] *)
Definition add_to_record (duration : Z) (url : string) (rec : Daily.t) : Daily.t :=
  Daily.mk (Daily.totalTime rec + duration) (Daily.visitCount rec + 1)
           (add_url url duration (Daily.urls rec)).

(** The synchronous stretch of [saveVisitData] between the two [await]s:
    the update of the object that [get] returned.  Under an inherited
    name that the day's object does not own, [visits[domain]] is truthy
    and no record is created; the two counters are raised on the
    inherited object, whose [urls] is [undefined], and
    [visits[domain].urls[url]] throws a [TypeError]: the result is
    [None]. *)
Definition add_visit (domain : string) (duration : Z) (url : string)
    (visits : gmap string Daily.t) : option (gmap string Daily.t) :=
  match visits !! domain with
  | Some rec => Some (<[domain := add_to_record duration url rec]> visits)
  | None =>
      if inherited domain then None
      else Some (<[domain := add_to_record duration url (Daily.mk 0 0 ∅)]> visits)
  end.

(** The synchronous stretch of [updateStatistics] between its two
    [await]s.  The reading of the clock in the initial object is
    overwritten at once by [stats.lastUpdated = Date.now()], whose
    reading is [now].  Under an inherited name that [stats.domains] does
    not own, no record is created and the two counters are raised on the
    inherited object: [stats.domains] keeps its own properties. *)
Definition add_statistics (now : Z) (domain : string) (duration : Z)
    (result : option Statistics.t) : Statistics.t :=
  let stats := default (Statistics.mk 0 0 ∅ now) result in
  let bump d := DomainStat.mk (DomainStat.totalTime d + duration)
                              (DomainStat.visitCount d + 1) in
  let domains :=
    match Statistics.domains stats !! domain with
    | Some d => <[domain := bump d]> (Statistics.domains stats)
    | None =>
        if inherited domain then Statistics.domains stats
        else <[domain := bump (DomainStat.mk 0 0)]> (Statistics.domains stats)
    end in
  Statistics.mk
    (Statistics.totalTime stats + duration)
    (Statistics.totalVisits stats + 1)
    domains
    now.

(** The program points of one call of [saveVisitData], which ends by
    calling [updateStatistics]: the function is suspended at each
    [await], and other handlers run in between. *)
Inductive SaveVisit :=
| AwaitGetVisits (key domain : string) (duration : Z) (url : string)
| AwaitSetVisits (key : string) (visits : gmap string Daily.t) (domain : string) (duration : Z)
| AwaitGetStatistics (domain : string) (duration : Z)
| AwaitSetStatistics (stats : Statistics.t)
| Finished.

(** [UsageTracker.saveVisitData] up to its first [await]; [today] is
    [new Date().toISOString().split('T')[0]]. *)
Definition saveVisitData (today domain : string) (duration : Z) (url : string) : SaveVisit :=
  AwaitGetVisits ("visits_" +:+ today) domain duration url.

(** One storage operation completes and the function runs to its next
    [await].  A [get] returns a copy of what the storage holds at that
    moment; a [set] replaces the entry.  When the update of the day's
    object throws, the [catch] of [saveVisitData] logs the error and the
    call is over: nothing is written and [updateStatistics] is not
    called. *)
Definition resume (now : Z) (task : SaveVisit) (st : Storage) : SaveVisit * Storage :=
  match task with
  | AwaitGetVisits key domain duration url =>
      match add_visit domain duration url (default ∅ (visits st !! key)) with
      | Some visits' => (AwaitSetVisits key visits' domain duration, st)
      | None => (Finished, st)
      end
  | AwaitSetVisits key visits domain duration =>
      (AwaitGetStatistics domain duration, set_visits key visits st)
  | AwaitGetStatistics domain duration =>
      (AwaitSetStatistics (add_statistics now domain duration (statistics st)), st)
  | AwaitSetStatistics stats =>
      (Finished, set_statistics stats st)
  | Finished => (Finished, st)
  end.

(** The calls in flight and the storage they share.  A schedule names,
    step by step, the call whose pending storage operation completes
    next, with the reading of the clock at that moment. *)
Definition System : Type := list SaveVisit * Storage.

Definition step (sys : System) (next : nat * Z) : System :=
  match sys.1 !! next.1 with
  | Some task =>
      let '(task', st') := resume next.2 task sys.2 in
      (<[next.1 := task']> sys.1, st')
  | None => sys
  end.

Definition schedule (sys : System) (order : list (nat * Z)) : System :=
  foldl step sys order.

Definition all_finished (sys : System) : bool :=
  forallb (fun task => match task with Finished => true | _ => false end) sys.1.

(** [visits[domain].totalTime] under a key, [0] while there is no record *)
Definition daily_totalTime (st : Storage) (key domain : string) : Z :=
  default 0 (Daily.totalTime <$> (default ∅ (visits st !! key)) !! domain).

Definition stats_totalTime (st : Storage) : Z :=
  default 0 (Statistics.totalTime <$> statistics st).

(** ** FocusTimerEngine: the stored state and its handlers *)

Inductive Mode := work | break.

(** The object stored under the key [pomodoro].  Every field may be
    absent: the handlers read [res.pomodoro || {}] and guard their reads
    with [||].  The same type serves for the [settings] object of a
    request, which is spread over the stored state. *)
Record Pomodoro := {
  mode : option Mode;
  isRunning : option bool;
  remainingMs : option Z;
  workMs : option Z;
  breakMs : option Z;
  longBreakMs : option Z;
  sessionsBeforeLong : option Z;
  sessionsCompleted : option Z;
  lastUpdated : option Z
}.

(** The empty object [{}] *)
Definition empty_object : Pomodoro :=
  {| mode := None; isRunning := None; remainingMs := None; workMs := None;
     breakMs := None; longBreakMs := None; sessionsBeforeLong := None;
     sessionsCompleted := None; lastUpdated := None |}.

(** [a || b] on fields: the field of [b] when it is present *)
Definition over {A} (a b : option A) : option A :=
  match b with
  | Some _ => b
  | None => a
  end.

(** [{ ...a, ...b }] *)
Definition spread (a b : Pomodoro) : Pomodoro :=
  {| mode := over (mode a) (mode b);
     isRunning := over (isRunning a) (isRunning b);
     remainingMs := over (remainingMs a) (remainingMs b);
     workMs := over (workMs a) (workMs b);
     breakMs := over (breakMs a) (breakMs b);
     longBreakMs := over (longBreakMs a) (longBreakMs b);
     sessionsBeforeLong := over (sessionsBeforeLong a) (sessionsBeforeLong b);
     sessionsCompleted := over (sessionsCompleted a) (sessionsCompleted b);
     lastUpdated := over (lastUpdated a) (lastUpdated b) |}.

(** Calls made by the timer's handlers.  [when] is [None] for the sum of
    a reading of the clock and an absent field. *)
Inductive TimerCall :=
| alarms_create (name : string) (when : option Z)
| alarms_clear (name : string)
| notifications_create (title message : string)
| sendResponse_success
| sendResponse_state (state : Pomodoro).

(** What a handler does with the state it read: the object it stores (if
    it stores one) and the calls it makes, in program order. *)
Record Outcome := {
  stored : option Pomodoro;
  calls : list TimerCall
}.

(** [m === 'work'] *)
Definition is_work (m : option Mode) : bool :=
  match m with
  | Some work => true
  | _ => false
  end.

(** The listener of [chrome.alarms.onAlarm] for the alarm
    [pomodoro-end].  [res] is [res.pomodoro]; [now1] is the reading kept
    in [lastUpdated], [now2] the later one used for the next alarm. *)
Definition onAlarm_pomodoro_end (now1 now2 : Z) (res : option Pomodoro) : Outcome :=
  let state := default empty_object res in
  let next :=
    if is_work (mode state) then
      let sessionsCompleted' := JsNumber.or (sessionsCompleted state) 0 + 1 in
      let useLong :=
        Z.rem sessionsCompleted' (JsNumber.or (sessionsBeforeLong state) 4) =? 0 in
      {| mode := Some break;
         isRunning := Some true;
         remainingMs := Some (if useLong then JsNumber.or (longBreakMs state) 900000
                              else JsNumber.or (breakMs state) 300000);
         workMs := workMs state;
         breakMs := breakMs state;
         longBreakMs := longBreakMs state;
         sessionsBeforeLong := sessionsBeforeLong state;
         sessionsCompleted := Some sessionsCompleted';
         lastUpdated := Some now1 |}
    else
      {| mode := Some work;
         isRunning := Some true;
         remainingMs := Some (JsNumber.or (workMs state) 1500000);
         workMs := workMs state;
         breakMs := breakMs state;
         longBreakMs := longBreakMs state;
         sessionsBeforeLong := sessionsBeforeLong state;
         sessionsCompleted := sessionsCompleted state;
         lastUpdated := Some now1 |} in
  {| stored := Some next;
     calls :=
       [alarms_create "pomodoro-end" ((fun r => now2 + r) <$> remainingMs next);
        if is_work (mode next)
        then notifications_create "Work session" "Focus for the next session"
        else notifications_create "Break time" "Take a short break"] |}.

(** [getPomodoroRemaining]; [now] is its reading of the clock *)
Definition getPomodoroRemaining (now : Z) (state : Pomodoro) : option Z :=
  if negb (default false (isRunning state)) then remainingMs state
  else
    let delta := Z.max 0 (now - JsNumber.or (lastUpdated state) now) in
    Some (Z.max 0 (JsNumber.or (remainingMs state) 0 - delta)).

(** Replace [remainingMs] by a value that may be [undefined] *)
Definition with_remainingMs (r : option Z) (s : Pomodoro) : Pomodoro :=
  {| mode := mode s; isRunning := isRunning s; remainingMs := r;
     workMs := workMs s; breakMs := breakMs s; longBreakMs := longBreakMs s;
     sessionsBeforeLong := sessionsBeforeLong s;
     sessionsCompleted := sessionsCompleted s; lastUpdated := lastUpdated s |}.

(** The message [pomodoro:get] *)
Definition pomodoro_get (now : Z) (res : option Pomodoro) : Outcome :=
  let s := default empty_object res in
  let remaining := getPomodoroRemaining now s in
  {| stored := None;
     calls := [sendResponse_state (with_remainingMs remaining s)] |}.

(** The message [pomodoro:start]; [settings] is [request.settings],
    [remainingOverride] is [request.remainingMs] when it is not [null] *)
Definition pomodoro_start (now1 now2 : Z) (settings : Pomodoro)
    (remainingOverride : option Z) (res : option Pomodoro) : Outcome :=
  let s := spread (default empty_object res) settings in
  let remaining := over (remainingMs s) remainingOverride in
  let next :=
    {| mode := mode s; isRunning := Some true; remainingMs := remaining;
       workMs := workMs s; breakMs := breakMs s; longBreakMs := longBreakMs s;
       sessionsBeforeLong := sessionsBeforeLong s;
       sessionsCompleted := sessionsCompleted s; lastUpdated := Some now1 |} in
  {| stored := Some next;
     calls := [alarms_clear "pomodoro-end";
               alarms_create "pomodoro-end" ((fun r => now2 + r) <$> remainingMs next);
               sendResponse_success] |}.

(** The message [pomodoro:pause]; [now1] is the reading taken by
    [getPomodoroRemaining], [now2] the one kept in [lastUpdated] *)
Definition pomodoro_pause (now1 now2 : Z) (res : option Pomodoro) : Outcome :=
  let s := default empty_object res in
  let remaining := getPomodoroRemaining now1 s in
  let next :=
    {| mode := mode s; isRunning := Some false; remainingMs := remaining;
       workMs := workMs s; breakMs := breakMs s; longBreakMs := longBreakMs s;
       sessionsBeforeLong := sessionsBeforeLong s;
       sessionsCompleted := sessionsCompleted s; lastUpdated := Some now2 |} in
  {| stored := Some next;
     calls := [alarms_clear "pomodoro-end"; sendResponse_success] |}.

(** The message [pomodoro:reset]; [now] is the reading in [defaults] *)
Definition pomodoro_reset (now : Z) (res : option Pomodoro) : Outcome :=
  let defaults :=
    {| mode := Some work; isRunning := Some false;
       remainingMs := Some (25 * 60 * 1000);
       workMs := None; breakMs := None; longBreakMs := None;
       sessionsBeforeLong := None;
       sessionsCompleted := Some 0; lastUpdated := Some now |} in
  let s := spread (default empty_object res) defaults in
  {| stored := Some s;
     calls := [alarms_clear "pomodoro-end"; sendResponse_success] |}.

(** The message [pomodoro:updateSettings]; [settings] is
    [request.settings] *)
Definition pomodoro_updateSettings (settings : Pomodoro) (res : option Pomodoro) : Outcome :=
  let s := default empty_object res in
  let next := spread s settings in
  {| stored := Some next;
     calls := [sendResponse_success] |}.


(** ** The stored timer state together with its alarm *)

(** [this.pomodoro] as the constructor of [UsageTracker] builds it at the
    reading [now] of the clock; [loadStoredData] stores it under the key
    [pomodoro] when the extension is installed and the key is absent. *)
Definition new_pomodoro (now : Z) : Pomodoro :=
  {| mode := Some work; isRunning := Some false;
     remainingMs := Some (25 * 60 * 1000);
     workMs := Some (25 * 60 * 1000); breakMs := Some (5 * 60 * 1000);
     longBreakMs := Some (15 * 60 * 1000); sessionsBeforeLong := Some 4;
     sessionsCompleted := Some 0; lastUpdated := Some now |}.

(** The object under the key [pomodoro] and the alarm [pomodoro-end]:
    [armed] is the [when] of the alarm while one is pending. *)
Record TimerStore := {
  pomodoro_key : option Pomodoro;
  armed : option (option Z)
}.

Definition perform_call (pending : option (option Z)) (c : TimerCall) : option (option Z) :=
  match c with
  | alarms_create _ when => Some when
  | alarms_clear _ => None
  | _ => pending
  end.

(** The effect of a handler's outcome on the store *)
Definition perform (o : Outcome) (t : TimerStore) : TimerStore :=
  {| pomodoro_key := over (pomodoro_key t) (stored o);
     armed := foldl perform_call (armed t) (calls o) |}.

(** [UsageTracker.clearData]: [chrome.storage.local.clear()] removes
    every key, the key [pomodoro] among them, and [setDefaultSettings]
    then stores the key [settings]; [chrome.alarms] is not called. *)
Definition clearData_timer (t : TimerStore) : TimerStore :=
  {| pomodoro_key := None; armed := armed t |}.

(** The pending alarm goes off and its listener runs; an alarm created
    with [when] goes off once. *)
Definition alarm_fires (now1 now2 : Z) (t : TimerStore) : TimerStore :=
  match armed t with
  | Some _ =>
      perform (onAlarm_pomodoro_end now1 now2 (pomodoro_key t))
              {| pomodoro_key := pomodoro_key t; armed := None |}
  | None => t
  end.

(** ** Vocabulary of the specification *)

(** The answers given through [sendResponse({ ok })] during a run *)
Definition responses (cs : list Call) : list bool :=
  omap (fun c => match c with
                 | Call_sendResponse_ok ok => Some ok
                 | _ => None
                 end) cs.

(** [clamp(x, lo, hi)]: [x] brought into the interval from [lo] to [hi] *)
Definition clamp (x lo hi : Z) : Z :=
  if x <? lo then lo else if hi <? x then hi else x.

(** Every stored heartbeat session is one that the [pageEvent] handler
    accepts: its tab id is not 0 and the domain of its url is not
    excluded. *)
Definition accepted_sessions (URL_hostname : string → option string) (t : UsageTracker) : Prop :=
  ∀ tabId session,
    sessionData t !! tabId = Some session →
    tabId ≠ 0 ∧
    isDomainExcluded (extractDomain URL_hostname (HeartbeatSession.url session)) = false.


(** The state to which the specification says [reset] returns: the work
    mode, stopped, with the configured work duration on the clock. *)
Definition reset_to_workMs (s next : Pomodoro) : Prop :=
  mode next = Some work ∧ isRunning next = Some false ∧
  remainingMs next = workMs s ∧ sessionsCompleted next = Some 0.

(** The four configuration fields are the same in [s] and [next]. *)
Definition same_configuration (s next : Pomodoro) : Prop :=
  workMs next = workMs s ∧ breakMs next = breakMs s ∧
  longBreakMs next = longBreakMs s ∧ sessionsBeforeLong next = sessionsBeforeLong s.


(** ** Duration formatting

    [formatDuration] of the popup and of the test suite (the two copies
    are identical), on a whole number of milliseconds.  [Math.floor] of
    a quotient is the floor division [/], the operator [%] is [Z.rem],
    and a number in a template literal is written in decimal. *)
Definition formatDuration (milliseconds : Z) : string :=
  let seconds := milliseconds / 1000 in
  let minutes := seconds / 60 in
  let hours := minutes / 60 in
  if hours >? 0 then pretty hours +:+ "h " +:+ pretty (Z.rem minutes 60) +:+ "m"
  else if minutes >? 0 then pretty minutes +:+ "m"
  else "<1m".

(** ** The task list: the [tasks:*] message handlers *)

Module Task.
Record t := mk {
  id : string;
  text : string;
  done : bool;
  createdAt : Z;
  dueAt : option Z
}.
End Task.

(** [res.tasks || []] *)
Definition tasks_or_empty (res : option (list Task.t)) : list Task.t :=
  default [] res.

(** [tasks:list]: the list sent back *)
Definition tasks_list (res : option (list Task.t)) : list Task.t :=
  tasks_or_empty res.

(** [tasks:add]: the task created and the list stored.  [now1] is the
    reading of the clock in the id, [random] the six characters taken
    from [Math.random()], [now2] the reading kept in [createdAt];
    [text] and [dueAt] are [request.text] and [request.dueAt]. *)
Definition tasks_add (now1 : Z) (random : string) (now2 : Z)
    (text : option string) (dueAt : option Z) (res : option (list Task.t))
    : Task.t * list Task.t :=
  let tasks := tasks_or_empty res in
  let t :=
    Task.mk (pretty now1 +:+ "_" +:+ random)
            (default "" text)
            false
            now2
            (if JsNumber.falsy dueAt then None else dueAt) in
  (t, t :: tasks).

(** [tasks:toggle] *)
Definition tasks_toggle (id : string) (res : option (list Task.t)) : list Task.t :=
  List.map (fun t => if String.eqb (Task.id t) id
                     then Task.mk (Task.id t) (Task.text t) (negb (Task.done t))
                                  (Task.createdAt t) (Task.dueAt t)
                     else t)
           (tasks_or_empty res).

(** [tasks:delete] *)
Definition tasks_delete (id : string) (res : option (list Task.t)) : list Task.t :=
  List.filter (fun t => negb (String.eqb (Task.id t) id)) (tasks_or_empty res).

(** [tasks:clearCompleted] *)
Definition tasks_clearCompleted (res : option (list Task.t)) : list Task.t :=
  List.filter (fun t => negb (Task.done t)) (tasks_or_empty res).

(** [tasks:clearAll] *)
Definition tasks_clearAll : list Task.t := [].

(** ** Reading the persisted records *)

(** [UsageTracker.getDailyStats(date)]: [result[key] || {}] *)
Definition getDailyStats (date : string) (st : Storage) : gmap string Daily.t :=
  default ∅ (visits st !! ("visits_" +:+ date)).

(** [UsageTracker.getStatistics()]; [now] is the reading of the clock in
    the object returned when nothing is stored *)
Definition getStatistics (now : Z) (st : Storage) : Statistics.t :=
  default (Statistics.mk 0 0 ∅ now) (statistics st).

(** [updateTodayOverview] of the popup: the three numbers it shows for
    the object that [getDailyStats] returned.  ([site.totalTime || 0] is
    [site.totalTime], both being numbers.) *)
Definition updateTodayOverview (dailyStats : gmap string Daily.t) : Z * Z * Z :=
  map_fold (fun _ site acc =>
              (acc.1.1 + Daily.totalTime site, acc.1.2 + 1, acc.2 + Daily.visitCount site))
           (0, 0, 0) dailyStats.

(** One call of [saveVisitData] with no other call in flight: its four
    storage operations complete one after the other, at the readings
    [n1] to [n4] of the clock. *)
Definition commit_alone (n1 n2 n3 n4 : Z) (today domain : string) (duration : Z)
    (url : string) (st : Storage) : Storage :=
  (schedule ([saveVisitData today domain duration url], st)
            [(0%nat, n1); (0%nat, n2); (0%nat, n3); (0%nat, n4)]).2.

(** A visit handed to [saveVisitData], with the clock readings of its
    storage operations *)
Record Commit := {
  c_domain : string;
  c_duration : Z;
  c_url : string;
  c_clock : Z * Z * Z * Z
}.

(** Calls of [saveVisitData] made one after the completion of the
    other, all on the day [today] *)
Definition commit_all (today : string) (cs : list Commit) (st : Storage) : Storage :=
  foldl (fun st c =>
           commit_alone (c_clock c).1.1.1 (c_clock c).1.1.2 (c_clock c).1.2 (c_clock c).2
                        today (c_domain c) (c_duration c) (c_url c) st)
        st cs.

(** The sum of the per-url subtotals of a day's record *)
Definition UrlTotal_number (v : UrlTotal) : Z :=
  match v with
  | Num n => n
  | Text => 0
  end.

Definition sum_urls (rec : Daily.t) : Z :=
  map_fold (fun _ v acc => UrlTotal_number v + acc) 0 (Daily.urls rec).

(** ** Vocabulary for the sessions and heartbeats *)

(** What [stopTrackingTab] commits for one entry of [activeTabs] when
    the clock reads [endTime k] *)
Definition stop_commit (endTime : Z → Z) (entry : Z * TrackingData.t)
    : option (string * Z * string) :=
  let d := endTime entry.1 - TrackingData.startTime entry.2 in
  if d >? 1000
  then Some (TrackingData.domain entry.2, d, TrackingData.url entry.2)
  else None.

(** A live session as [startTrackingTab] builds it: filed under its own
    tab id, for a non-empty url, with the classified domain of that url,
    which is not excluded. *)
Definition well_formed_session (URL_hostname : string → option string)
    (entry : Z * TrackingData.t) : Prop :=
  TrackingData.tabId entry.2 = entry.1 ∧
  TrackingData.url entry.2 ≠ "" ∧
  TrackingData.domain entry.2 = extractDomain URL_hostname (TrackingData.url entry.2) ∧
  isDomainExcluded (TrackingData.domain entry.2) = false.

Definition well_formed_sessions (URL_hostname : string → option string)
    (t : UsageTracker) : Prop :=
  NoDup (JsMap.keys (activeTabs t)) ∧
  Forall (well_formed_session URL_hostname) (activeTabs t).

(** The time committed by a list of visits *)
Definition total_committed (cs : list (string * Z * string)) : Z :=
  foldr (fun c acc => c.1.2 + acc) 0 cs.

(** Heartbeats of one page: the same tab and url at each timestamp *)
Definition pings (tabId : Z) (url : string) (timestamps : list Z) : list Event :=
  List.map (PageEvent (Some tabId) url) timestamps.

(** The timestamps never go back: each is at least the one before,
    starting from [t0]. *)
Fixpoint nondecreasing_from (t0 : Z) (timestamps : list Z) : Prop :=
  match timestamps with
  | [] => True
  | ts :: rest => t0 <= ts ∧ nondecreasing_from ts rest
  end.

(** ** The content script: [PageTracker]

    The page's side of the heartbeat channel.  Every message it sends
    has [type: 'pageEvent']; [event] names the occasion. *)
Module PageTracker.

Record t := mk {
  startTime : Z;
  isVisible : bool;
  lastActivity : Z
}.

Record Message := message {
  event : string;
  url : string;
  domain : string;
  timestamp : Z;
  activeTime : Z
}.

Definition idleThreshold : Z := 30000.
Definition heartbeatInterval : Z := 10000.

(** The address of the page: [window.location.href] and
    [window.location.hostname] *)
Record Location := location {
  href : string;
  hostname : string
}.

(** [sendPageEvent(eventType)]; [now1] is the reading kept in
    [timestamp], [now2] the one taken by [getActiveTime] *)
Definition sendPageEvent (eventType : string) (loc : Location) (now1 now2 : Z) (p : t)
    : Message :=
  message eventType (href loc) (hostname loc) now1 (now2 - startTime p).

(** [isUserActive()] *)
Definition isUserActive (now : Z) (p : t) : bool :=
  now - lastActivity p <? idleThreshold.

(** One firing of the heartbeat interval; [now] is the reading taken by
    [isUserActive] *)
Definition heartbeat_tick (loc : Location) (now now1 now2 : Z) (p : t) : list Message :=
  if isVisible p && isUserActive now p
  then [sendPageEvent "heartbeat" loc now1 now2 p]
  else [].

(** [handleVisibilityChange()]; [hidden] is [document.hidden], [now3]
    the reading stored in [lastActivity] *)
Definition handleVisibilityChange (hidden : bool) (loc : Location) (now1 now2 now3 : Z)
    (p : t) : t * list Message :=
  let p' := mk (startTime p) (negb hidden) (lastActivity p) in
  if negb hidden
  then (mk (startTime p) true now3, [sendPageEvent "pageVisible" loc now1 now2 p'])
  else (p', [sendPageEvent "pageHidden" loc now1 now2 p']).

(** [handleUserActivity()] *)
Definition handleUserActivity (now : Z) (p : t) : t :=
  mk (startTime p) (isVisible p) now.

End PageTracker.

(** The first [onMessage] listener of the background script on a
    message from a page: the branch [request.type === 'pageEvent'] reads
    [request.url] and [request.timestamp] and nothing else of the
    message. *)
Definition onMessage_from_page (URL_hostname : string → option string)
    (senderTabId : option Z) (request : PageTracker.Message) : Action :=
  pageEvent URL_hostname senderTabId (PageTracker.url request) (PageTracker.timestamp request).

(** The address begins with one of the four internal schemes. *)
Definition has_internal_scheme (url : string) : bool :=
  existsb (JsString.startsWith url) excludedDomains.

(** The background script receives the messages of one page, in the
    order in which they were sent. *)
Definition deliver (URL_hostname : string → option string) (senderTabId : option Z)
    (messages : list PageTracker.Message) : Action :=
  foldl (fun a m => a >> onMessage_from_page URL_hostname senderTabId m) skip messages.

(** [visits[domain].visitCount] under a key, [0] while there is no record *)
Definition daily_visitCount (st : Storage) (key domain : string) : Z :=
  default 0 (Daily.visitCount <$> (default ∅ (visits st !! key)) !! domain).

Definition stats_totalVisits (st : Storage) : Z :=
  default 0 (Statistics.totalVisits <$> statistics st).

(** The durations of a list of visits, added up, and the visits of one
    domain among them *)
Definition total_duration (cs : list Commit) : Z :=
  foldr (fun c acc => c_duration c + acc) 0 cs.

Definition for_domain (domain : string) (cs : list Commit) : list Commit :=
  List.filter (fun c => String.eqb (c_domain c) domain) cs.

(** A day's record whose per-url subtotals are numbers and whose total
    is their sum *)
Definition subtotals_add_up (rec : Daily.t) : Prop :=
  (∀ u v, Daily.urls rec !! u = Some v → v ≠ Text) ∧
  Daily.totalTime rec = sum_urls rec.

(** ** The timer as the popup drives it *)

(** The settings object built by [pomodoroStart] of the popup from its
    four input fields; a field is [None] when [parseInt] yields [NaN]. *)
Definition pomodoroStart_settings (workInput breakInput longBreakInput
    sessionsInput : option Z) : Pomodoro :=
  let wd := JsNumber.or workInput 25 in
  let bd := JsNumber.or breakInput 5 in
  let lbd := JsNumber.or longBreakInput 15 in
  let sbl := JsNumber.or sessionsInput 4 in
  {| mode := None; isRunning := None; remainingMs := None;
     workMs := Some (wd * 60000); breakMs := Some (bd * 60000);
     longBreakMs := Some (lbd * 60000); sessionsBeforeLong := Some sbl;
     sessionsCompleted := None; lastUpdated := None |}.

(** [pomodoroStart] of the popup: the message [pomodoro:updateSettings]
    followed by [pomodoro:start] without settings or override; the
    state stored in the end. *)
Definition popup_pomodoroStart (now1 now2 : Z) (settings : Pomodoro)
    (res : option Pomodoro) : option Pomodoro :=
  stored (pomodoro_start now1 now2 empty_object None
            (stored (pomodoro_updateSettings settings res))).

(** One work segment and one break expire, each at the two clock
    readings of the alarm handler, and so on for every pair of a list. *)
Definition expire_cycles (clock : list ((Z * Z) * (Z * Z))) (res : option Pomodoro)
    : option Pomodoro :=
  foldl (fun res c =>
           stored (onAlarm_pomodoro_end c.2.1 c.2.2
                     (stored (onAlarm_pomodoro_end c.1.1 c.1.2 res))))
        res clock.

(** [escapeHtml] of the popup: a global [replace] that turns each
    ampersand, less-than sign, greater-than sign and double quote into
    its entity and keeps every other character.  [quote] is the double
    quote, character 34. *)
Definition quote : ascii := "034"%char.

Definition escape_char (c : ascii) : string :=
  if Ascii.eqb c "&" then "&amp;"
  else if Ascii.eqb c "<" then "&lt;"
  else if Ascii.eqb c ">" then "&gt;"
  else if Ascii.eqb c quote then "&quot;"
  else String c EmptyString.

Fixpoint escapeHtml (s : string) : string :=
  match s with
  | EmptyString => EmptyString
  | String c rest => escape_char c +:+ escapeHtml rest
  end.

(** The character [c] occurs in [s]. *)
Fixpoint occurs (c : ascii) (s : string) : bool :=
  match s with
  | EmptyString => false
  | String c' rest => Ascii.eqb c' c || occurs c rest
  end.

(** Every character of [s] is an ASCII character, of code below 128: on
    such text [JsString.toUpperCase] and [JsString.substring0] are the
    methods of JavaScript. *)
Fixpoint ascii_only (s : string) : bool :=
  match s with
  | EmptyString => true
  | String c rest => (nat_of_ascii c <? 128)%nat && ascii_only rest
  end.

(** * Properties *)

(** ** The [Map] operations *)

Lemma JsMap_get_None_delete {V} (k : Z) (m : list (Z * V)) :
  JsMap.get k m = None → JsMap.delete k m = m.
Proof.
  unfold JsMap.get, JsMap.delete.
  induction m as [|[k' v] m IH]; simpl; [done|].
  destruct (Z.eqb_spec k' k) as [->|Hne]; simpl; [done|].
  intros H. by rewrite IH.
Qed.

Lemma JsMap_get_delete {V} (k : Z) (m : list (Z * V)) :
  JsMap.get k (JsMap.delete k m) = None.
Proof.
  unfold JsMap.get, JsMap.delete.
  induction m as [|[k' v] m IH]; simpl; [done|].
  destruct (Z.eqb_spec k' k) as [->|Hne]; simpl; [done|].
  destruct (Z.eqb_spec k' k); [done|]. exact IH.
Qed.

Lemma JsMap_delete_all {V} (ks : list Z) (m : list (Z * V)) :
  foldl (fun m k => JsMap.delete k m) m ks
  = List.filter (fun kv => negb (existsb (Z.eqb kv.1) ks)) m.
Proof.
  revert m. induction ks as [|k ks IH]; intros m; simpl.
  - induction m as [|kv m IHm]; simpl; [done|]. by rewrite <- IHm.
  - rewrite IH. unfold JsMap.delete.
    induction m as [|kv m IHm]; simpl; [done|].
    rewrite (Z.eqb_sym kv.1 k).
    destruct (k =? kv.1); simpl; [done|].
    destruct (existsb (Z.eqb kv.1) ks); simpl; [done|]. by rewrite IHm.
Qed.

Lemma JsMap_delete_keys {V} (m : list (Z * V)) :
  foldl (fun m k => JsMap.delete k m) m (JsMap.keys m) = [].
Proof.
  rewrite JsMap_delete_all. unfold JsMap.keys.
  assert (H : ∀ kv, In kv m → existsb (Z.eqb kv.1) (List.map fst m) = true).
  { intros kv Hin. apply existsb_exists. exists kv.1. split.
    - by apply in_map.
    - apply Z.eqb_refl. }
  revert H. generalize (List.map fst m) as ks. intros ks H.
  induction m as [|kv m IH]; simpl; [done|].
  rewrite H by (by left). simpl. apply IH. intros kv' Hin. apply H. by right.
Qed.

Lemma JsMap_get_delete_ne {V} (a b : Z) (m : list (Z * V)) :
  a ≠ b → JsMap.get a (JsMap.delete b m) = JsMap.get a m.
Proof.
  intros Hne. unfold JsMap.get, JsMap.delete.
  induction m as [|[k v] m IH]; simpl; [done|].
  destruct (Z.eqb_spec k b) as [->|Hkb]; simpl.
  - destruct (Z.eqb_spec b a); [congruence|exact IH].
  - destruct (Z.eqb_spec k a); [done|exact IH].
Qed.

Lemma JsMap_get_set_ne {V} (a b : Z) (v : V) (m : list (Z * V)) :
  a ≠ b → JsMap.get a (JsMap.set b v m) = JsMap.get a m.
Proof.
  intros Hne. unfold JsMap.set. destruct (JsMap.has b m).
  - unfold JsMap.get. induction m as [|[k w] m IH]; simpl; [done|].
    destruct (Z.eqb_spec k b) as [->|Hkb]; simpl.
    + destruct (Z.eqb_spec b a); [congruence|exact IH].
    + destruct (Z.eqb_spec k a); [done|exact IH].
  - unfold JsMap.get. induction m as [|[k w] m IH]; simpl.
    + destruct (Z.eqb_spec b a); [congruence|done].
    + destruct (Z.eqb_spec k a); [done|exact IH].
Qed.

Lemma JsMap_get_set {V} (k : Z) (v : V) (m : list (Z * V)) :
  JsMap.get k (JsMap.set k v m) = Some v.
Proof.
  unfold JsMap.set, JsMap.has, JsMap.get.
  induction m as [|[k' w] m IH]; simpl.
  - by rewrite Z.eqb_refl.
  - destruct (Z.eqb_spec k' k) as [->|Hne]; simpl.
    + by rewrite Z.eqb_refl.
    + destruct (existsb (fun kv => kv.1 =? k) m) eqn:Hhas; simpl.
      * destruct (Z.eqb_spec k' k); [done|exact IH].
      * destruct (Z.eqb_spec k' k); [done|exact IH].
Qed.

(** ** Stopping sessions *)

Lemma updateBadge_tracker (domain : string) (t : UsageTracker) :
  (updateBadge domain t).1 = t.
Proof. unfold updateBadge. by destruct (String.eqb domain ""). Qed.

Lemma stopTrackingTab_activeTabs (endTime tabId : Z) (t : UsageTracker) :
  activeTabs (stopTrackingTab endTime tabId t).1 = JsMap.delete tabId (activeTabs t).
Proof.
  unfold stopTrackingTab.
  destruct (JsMap.get tabId (activeTabs t)) as [d|] eqn:Hget.
  - by destruct (endTime - TrackingData.startTime d >? 1000).
  - simpl. by rewrite JsMap_get_None_delete.
Qed.

Lemma stopTrackingTab_frame (endTime tabId : Z) (t : UsageTracker) :
  sessionData (stopTrackingTab endTime tabId t).1 = sessionData t ∧
  isTrackingEnabled (stopTrackingTab endTime tabId t).1 = isTrackingEnabled t.
Proof.
  unfold stopTrackingTab.
  destruct (JsMap.get tabId (activeTabs t)) as [d|]; [|done].
  by destruct (endTime - TrackingData.startTime d >? 1000).
Qed.

Lemma seq_tracker (a b : Action) (t : UsageTracker) :
  ((a >> b) t).1 = (b (a t).1).1.
Proof. unfold seq. destruct (a t) as [t1 c1]. simpl. by destruct (b t1). Qed.

Lemma stop_each_activeTabs (endTime : Z → Z) (ks : list Z) (a : Action) (t : UsageTracker) :
  activeTabs (foldl (fun a k => a >> stopTrackingTab (endTime k) k) a ks t).1
  = foldl (fun m k => JsMap.delete k m) (activeTabs (a t).1) ks.
Proof.
  revert a. induction ks as [|k ks IH]; intros a; simpl; [done|].
  rewrite IH. by rewrite seq_tracker, stopTrackingTab_activeTabs.
Qed.

Lemma stop_each_frame (endTime : Z → Z) (ks : list Z) (a : Action) (t : UsageTracker) :
  sessionData (foldl (fun a k => a >> stopTrackingTab (endTime k) k) a ks t).1
  = sessionData (a t).1 ∧
  isTrackingEnabled (foldl (fun a k => a >> stopTrackingTab (endTime k) k) a ks t).1
  = isTrackingEnabled (a t).1.
Proof.
  revert a. induction ks as [|k ks IH]; intros a; simpl; [done|].
  destruct (IH (a >> stopTrackingTab (endTime k) k)) as [-> ->].
  rewrite seq_tracker. apply stopTrackingTab_frame.
Qed.

(** [stopTrackingAllTabs] leaves no live session. *)
Lemma stopTrackingAllTabs_empties (endTime : Z → Z) (t : UsageTracker) :
  activeTabs (stopTrackingAllTabs endTime t).1 = [].
Proof.
  unfold stopTrackingAllTabs. rewrite stop_each_activeTabs. simpl.
  apply JsMap_delete_keys.
Qed.

Lemma stopTrackingAllTabs_frame (endTime : Z → Z) (t : UsageTracker) :
  sessionData (stopTrackingAllTabs endTime t).1 = sessionData t ∧
  isTrackingEnabled (stopTrackingAllTabs endTime t).1 = isTrackingEnabled t.
Proof. unfold stopTrackingAllTabs. apply stop_each_frame. Qed.

(** C6.  Stopping a tab at time [now].  With a live session of duration
    [d = now - startTime]: no visit is committed when [d <= 1000], and
    exactly one visit, of exactly [d] and for the session's domain and
    url, is committed when [d > 1000]; the session is gone afterwards.
    Without a live session nothing happens: the tracker is unchanged and
    no call is made. *)
Theorem stopTrackingTab_commits (now tabId : Z) (t : UsageTracker) :
  match JsMap.get tabId (activeTabs t) with
  | Some session =>
      let d := now - TrackingData.startTime session in
      commits (stopTrackingTab now tabId t).2
      = (if d <=? 1000 then []
         else [(TrackingData.domain session, d, TrackingData.url session)])
      ∧ JsMap.get tabId (activeTabs (stopTrackingTab now tabId t).1) = None
  | None => stopTrackingTab now tabId t = (t, [])
  end.
Proof.
  destruct (JsMap.get tabId (activeTabs t)) as [session|] eqn:Hget.
  - split.
    + unfold stopTrackingTab. rewrite Hget, Z.gtb_ltb.
      destruct (Z.leb_spec (now - TrackingData.startTime session) 1000) as [Hle|Hgt].
      * replace (1000 <? now - TrackingData.startTime session) with false
          by (symmetry; apply Z.ltb_ge; lia).
        reflexivity.
      * replace (1000 <? now - TrackingData.startTime session) with true
          by (symmetry; apply Z.ltb_lt; lia).
        reflexivity.
    + rewrite stopTrackingTab_activeTabs. apply JsMap_get_delete.
  - unfold stopTrackingTab. by rewrite Hget.
Qed.

Example stop_after_one_second :
  let session := TrackingData.mk 7 "https://github.com/" "github.com" 5000 5000 in
  let t := {| activeTabs := [(7, session)]; sessionData := ∅; isTrackingEnabled := true |} in
  commits (stopTrackingTab 6000 7 t).2 = [] ∧
  commits (stopTrackingTab 6001 7 t).2 = [("github.com", 1001, "https://github.com/")] ∧
  stopTrackingTab 6001 8 t = (t, []).
Proof. repeat split. Qed.

(** ** The single-focus policy *)


Lemma startTrackingTab_from_empty (URL_hostname : string → option string)
    (now1 now2 tabId : Z) (url : option string) (t : UsageTracker) :
  activeTabs t = [] →
  (JsMap.size (activeTabs (startTrackingTab URL_hostname now1 now2 tabId url t).1) <= 1)%nat.
Proof.
  intros Hempty. unfold startTrackingTab.
  destruct url as [url|]; [|simpl; rewrite Hempty; simpl; lia].
  destruct (negb (isTrackingEnabled t) || String.eqb url "");
    [simpl; rewrite Hempty; simpl; lia|].
  destruct (isDomainExcluded _); [simpl; rewrite Hempty; simpl; lia|].
  rewrite seq_tracker, updateBadge_tracker. simpl. rewrite Hempty. simpl. lia.
Qed.

Lemma handleWindowFocusChanged_queried_at_most_one
    (URL_hostname : string → option string) (endTime : Z → Z) (now1 now2 : Z)
    (tabs : list Tab.t) (t : UsageTracker) :
  (JsMap.size (activeTabs t) <= 1)%nat →
  (JsMap.size
     (activeTabs (handleWindowFocusChanged_queried URL_hostname endTime now1 now2 tabs t).1)
   <= 1)%nat.
Proof.
  intros Hone. unfold handleWindowFocusChanged_queried.
  destruct tabs as [|tab0 tabs]; [exact Hone|].
  rewrite seq_tracker. apply startTrackingTab_from_empty.
  apply stopTrackingAllTabs_empties.
Qed.

Lemma startTrackingTab_keeps_others (URL_hostname : string → option string)
    (now1 now2 a b : Z) (url : option string) (t : UsageTracker) :
  a ≠ b →
  JsMap.get a (activeTabs (startTrackingTab URL_hostname now1 now2 b url t).1)
  = JsMap.get a (activeTabs t).
Proof.
  intros Hne. unfold startTrackingTab. destruct url as [url|]; [|done].
  destruct (negb (isTrackingEnabled t) || String.eqb url ""); [done|].
  destruct (isDomainExcluded _); [done|].
  rewrite seq_tracker, updateBadge_tracker. simpl. by apply JsMap_get_set_ne.
Qed.

(** [handleTabUpdated] never stops the session of another tab. *)
Lemma handleTabUpdated_keeps_others (URL_hostname : string → option string)
    (endTime now1 now2 a b : Z) (status : option string) (tab : Tab.t) (t : UsageTracker) :
  a ≠ b →
  JsMap.get a (activeTabs (handleTabUpdated URL_hostname endTime now1 now2 b status tab t).1)
  = JsMap.get a (activeTabs t).
Proof.
  intros Hne. unfold handleTabUpdated.
  destruct (is_complete status && negb (JsString.falsy (Tab.url tab))); [|done].
  rewrite seq_tracker, startTrackingTab_keeps_others by done.
  rewrite stopTrackingTab_activeTabs. by apply JsMap_get_delete_ne.
Qed.

(** ... and starts one for the updated tab whenever tracking is on and
    the address is not excluded. *)
Lemma handleTabUpdated_starts (URL_hostname : string → option string)
    (endTime now1 now2 b : Z) (url : string) (active : bool) (t : UsageTracker) :
  isTrackingEnabled t = true →
  url ≠ "" →
  isDomainExcluded (extractDomain URL_hostname url) = false →
  JsMap.get b (activeTabs (handleTabUpdated URL_hostname endTime now1 now2 b
                             (Some "complete") (Tab.mk b (Some url) active) t).1)
  = Some (TrackingData.mk b url (extractDomain URL_hostname url) now1 now2).
Proof.
  intros Hon Hurl Hdom. unfold handleTabUpdated. simpl.
  apply String.eqb_neq in Hurl. rewrite Hurl. simpl.
  rewrite seq_tracker. unfold startTrackingTab.
  rewrite (proj2 (stopTrackingTab_frame _ _ _)), Hon, Hurl, Hdom. simpl.
  rewrite seq_tracker, updateBadge_tracker. simpl. apply JsMap_get_set.
Qed.

(** C1.  The single-focus invariant does not survive a tab finishing
    its navigation: [handleTabUpdated] stops only the session of the
    updated tab.  Tab 1 is activated and tracked; tab 2 then completes
    loading in the background; two sessions are live. *)
Theorem handleTabUpdated_keeps_other_session :
  let tab1 := Tab.mk 1 (Some "https://github.com/") true in
  let tab2 := Tab.mk 2 (Some "https://example.com/") false in
  let t1 := (run SimpleURL.hostname
               [TabActivated (fun _ => 1000) 1;
                TabActivatedGot 1000 1000 1 (Some tab1)] new_UsageTracker).1 in
  let t2 := (handle SimpleURL.hostname
               (TabUpdated 9000 9000 9000 2 (Some "complete") tab2) t1).1 in
  JsMap.keys (activeTabs t1) = [1] ∧
  JsMap.keys (activeTabs t2) = [1; 2] ∧
  JsMap.size (activeTabs t2) = 2%nat.
Proof. vm_compute. repeat split. Qed.

(** ** DomainClassifier *)

Lemma replace_without_occurrence (h pat : string) :
  JsString.includes h pat = false → JsString.replace h pat "" = h.
Proof.
  induction h as [|c h IH]; simpl.
  - intros H. apply orb_false_iff in H as [-> _]. done.
  - intros H. apply orb_false_iff in H as [Hp Hi].
    rewrite Hp. by rewrite IH.
Qed.

Lemma replace_leading_www (h : string) :
  JsString.replace ("www." +:+ h) "www." "" = h.
Proof.
  change ("www." +:+ h) with (String "w" (String "w" (String "w" (String "." h)))).
  simpl. change ("" +:+ h) with h. by destruct h.
Qed.

Lemma extractDomain_ordinary (URL_hostname : string → option string) (url h : string) :
  JsString.startsWith url "chrome://" = false →
  JsString.startsWith url "chrome-extension://" = false →
  JsString.startsWith url "about:" = false →
  JsString.startsWith url "file://" = false →
  URL_hostname url = Some h →
  extractDomain URL_hostname url = JsString.replace h "www." "".
Proof.
  intros H1 H2 H3 H4 Hh. unfold extractDomain, hostname_or_unknown.
  by rewrite H1, H2, H3, H4, Hh.
Qed.

(** Whatever the platform's parser does elsewhere, an inner ["www."] is
    removed from the hostname it returns. *)
Lemma extractDomain_inner_www_any_parser (URL_hostname : string → option string) :
  URL_hostname "https://news.www.example.org/index.html" = Some "news.www.example.org" →
  extractDomain URL_hostname "https://news.www.example.org/index.html" = "news.example.org".
Proof.
  intros H.
  rewrite (extractDomain_ordinary URL_hostname
             "https://news.www.example.org/index.html" "news.www.example.org");
    done.
Qed.

(** The cases of [testDomainExtraction] in the repository's test suite. *)
Example testDomainExtraction :
  List.map (extractDomain SimpleURL.hostname)
      ["https://www.google.com/search?q=test";
       "http://subdomain.example.com/path/to/page";
       "https://github.com/user/repository";
       "chrome://extensions/";
       "about:blank";
       "invalid-url"]
  = ["google.com"; "subdomain.example.com"; "github.com";
     "chrome://"; "about:"; "unknown"].
Proof. reflexivity. Qed.

(** C4.  [extractDomain] removes the first occurrence of ["www."]
    wherever it stands in the hostname, not only a leading label: a
    hostname that does not begin with ["www."] is changed, and a
    ["www."]-prefixed hostname and its bare form classify
    differently. *)
Theorem extractDomain_strips_inner_www :
  SimpleURL.hostname "https://news.www.example.org/index.html"
  = Some "news.www.example.org" ∧
  extractDomain SimpleURL.hostname "https://news.www.example.org/index.html"
  = "news.example.org" ∧
  extractDomain SimpleURL.hostname "https://www.mywww.example.org/"
  = "mywww.example.org" ∧
  extractDomain SimpleURL.hostname "https://mywww.example.org/"
  = "myexample.org".
Proof. repeat split. Qed.

(** ** HeartbeatDedupEngine *)

Lemma clamp_max_min (x : Z) :
  Z.max 0 (Z.min x 60000) = clamp x 0 60000.
Proof. unfold clamp. destruct (Z.ltb_spec x 0), (Z.ltb_spec 60000 x); lia. Qed.

(** C10.  A [pageEvent] message whose sender has no tab id (absent, or
    the id 0, which the test [!tabId] treats alike) or whose classified
    domain is excluded is answered [{ ok: false }] and changes nothing:
    the tracker, with its per-tab cursors, is as before and no visit is
    handed to storage.  Every other message is answered [{ ok: true }]
    and leaves the cursor of the sender's tab at the message's timestamp
    and url.  (No statement of the handler can throw, so these are all
    the cases.) *)
Theorem pageEvent_response (URL_hostname : string → option string)
    (senderTabId : option Z) (url : string) (ts : Z) (t : UsageTracker) :
  let r := pageEvent URL_hostname senderTabId url ts t in
  if JsNumber.falsy senderTabId || isDomainExcluded (extractDomain URL_hostname url)
  then r = (t, [Call_sendResponse_ok false])
  else ∃ tabId, senderTabId = Some tabId ∧
                responses r.2 = [true] ∧
                sessionData r.1 !! tabId = Some (HeartbeatSession.mk ts url).
Proof.
  unfold pageEvent. destruct senderTabId as [tabId|]; simpl; [|done].
  destruct ((tabId =? 0) || isDomainExcluded (extractDomain URL_hostname url)); [done|].
  exists tabId. split; [done|].
  destruct (sessionData t !! tabId) as [prev|].
  - destruct (String.eqb (HeartbeatSession.url prev) url).
    + destruct (_ >=? 5000); simpl; by rewrite lookup_insert_eq.
    + simpl. by rewrite lookup_insert_eq.
  - simpl. by rewrite lookup_insert_eq.
Qed.

(** C5, for the pings that the handler accepts (the sender has a tab id
    other than 0 and the classified domain is not excluded).  When the
    tab's stored session has the ping's url, the handler computes
    [delta = clamp(ts - lastTimestamp, 0, 60000)] and commits exactly
    [delta], for the ping's domain and url, if and only if
    [delta >= 5000].  When the tab has no stored session, or one with
    another url, nothing is committed.  In all these cases the stored
    session becomes [{ lastTimestamp: ts, url }] and the sessions of the
    other tabs are untouched. *)
Theorem pageEvent_accepted (URL_hostname : string → option string)
    (tabId : Z) (url : string) (ts : Z) (t : UsageTracker) :
  tabId ≠ 0 →
  isDomainExcluded (extractDomain URL_hostname url) = false →
  let r := pageEvent URL_hostname (Some tabId) url ts t in
  (∀ prev, sessionData t !! tabId = Some prev →
           HeartbeatSession.url prev = url →
           let delta := clamp (ts - HeartbeatSession.lastTimestamp prev) 0 60000 in
           (5000 <= delta →
            commits r.2 = [(extractDomain URL_hostname url, delta, url)]) ∧
           (delta < 5000 → commits r.2 = [])) ∧
  ((sessionData t !! tabId = None ∨
    ∃ prev, sessionData t !! tabId = Some prev ∧ HeartbeatSession.url prev ≠ url) →
   commits r.2 = []) ∧
  sessionData r.1 = <[tabId := HeartbeatSession.mk ts url]> (sessionData t).
Proof.
  intros Hid Hdom. unfold pageEvent. rewrite Hdom.
  replace (tabId =? 0) with false by (symmetry; apply Z.eqb_neq; exact Hid).
  simpl. split; [|split].
  - intros prev Hprev Hurl. rewrite Hprev.
    replace (String.eqb (HeartbeatSession.url prev) url) with true
      by (symmetry; apply String.eqb_eq; exact Hurl).
    rewrite clamp_max_min, Z.geb_leb. split; intros Hdelta.
    + replace (5000 <=? _) with true by (symmetry; apply Z.leb_le; exact Hdelta).
      reflexivity.
    + replace (5000 <=? _) with false by (symmetry; apply Z.leb_gt; exact Hdelta).
      reflexivity.
  - intros [Hnone|[prev [Hprev Hurl]]].
    + by rewrite Hnone.
    + rewrite Hprev.
      replace (String.eqb (HeartbeatSession.url prev) url) with false
        by (symmetry; apply String.eqb_neq; exact Hurl).
      reflexivity.
  - destruct (sessionData t !! tabId) as [prev|]; [|done].
    destruct (String.eqb (HeartbeatSession.url prev) url); [|done].
    by destruct (_ >=? 5000).
Qed.

Lemma pageEvent_accepted_witness :
  7 ≠ 0 ∧
  isDomainExcluded (extractDomain SimpleURL.hostname "https://github.com/") = false ∧
  commits
    (pageEvent SimpleURL.hostname (Some 7) "https://github.com/" 11000
       {| activeTabs := [];
          sessionData := {[ 7 := HeartbeatSession.mk 1000 "https://github.com/" ]};
          isTrackingEnabled := true |}).2
  = [("github.com", 10000, "https://github.com/")].
Proof.
  split; [lia|]. split; [reflexivity|].
  destruct (pageEvent_accepted SimpleURL.hostname 7 "https://github.com/" 11000
              {| activeTabs := [];
                 sessionData := {[ 7 := HeartbeatSession.mk 1000 "https://github.com/" ]};
                 isTrackingEnabled := true |})
    as (Hsame & _ & _); [lia|reflexivity|].
  apply (Hsame (HeartbeatSession.mk 1000 "https://github.com/"));
    [reflexivity|reflexivity|].
  vm_compute. discriminate.
Defined.

(** A ping from a page whose domain is excluded (here a local file) and
    whose tab has no stored session stores no baseline. *)
Lemma pageEvent_excluded_stores_no_baseline :
  sessionData new_UsageTracker !! 7 = None ∧
  sessionData
    (pageEvent SimpleURL.hostname (Some 7) "file:///home/user/notes.html" 1000
       new_UsageTracker).1 !! 7
  ≠ Some (HeartbeatSession.mk 1000 "file:///home/user/notes.html").
Proof. split; [reflexivity|]. vm_compute. discriminate. Qed.

(** The heartbeat sequence of the specification: pings of one page at
    [t0 < t1 < t2] with [t1 - t0 < 5000] and [t2 - t1 >= 5000]. *)
Example heartbeat_sequence :
  let u := "https://github.com/" in
  commits (run SimpleURL.hostname
             [PageEvent (Some 7) u 1000; PageEvent (Some 7) u 4000;
              PageEvent (Some 7) u 14000; PageEvent (Some 7) u 200000]
             new_UsageTracker).2
  = [("github.com", 10000, u); ("github.com", 60000, u)].
Proof. reflexivity. Qed.

(** ** VisitAggregator *)

Lemma add_visit_not_inherited (domain url : string) (d : Z) (v : gmap string Daily.t) :
  inherited domain = false →
  add_visit domain d url v
  = Some (<[domain := add_to_record d url (default (Daily.mk 0 0 ∅) (v !! domain))]> v).
Proof. intros H. unfold add_visit. rewrite H. by destruct (v !! domain). Qed.

Lemma add_visit_inherited (domain url : string) (d : Z) (v : gmap string Daily.t) :
  inherited domain = true → v !! domain = None → add_visit domain d url v = None.
Proof. intros H Hv. unfold add_visit. by rewrite Hv, H. Qed.

Lemma daily_totalTime_add_to_record (st : Storage) (key domain url : string) (d : Z) :
  daily_totalTime
    (set_visits key
       (<[domain := add_to_record d url
                      (default (Daily.mk 0 0 ∅) (default ∅ (visits st !! key) !! domain))]>
          (default ∅ (visits st !! key))) st) key domain
  = daily_totalTime st key domain + d.
Proof.
  unfold daily_totalTime, set_visits. simpl.
  rewrite lookup_insert_eq. simpl. rewrite lookup_insert_eq. simpl.
  by destruct (default ∅ (visits st !! key) !! domain).
Qed.

Lemma stats_totalTime_add_statistics (st : Storage) (now : Z) (domain : string) (d : Z) :
  stats_totalTime (set_statistics (add_statistics now domain d (statistics st)) st)
  = stats_totalTime st + d.
Proof.
  unfold stats_totalTime, set_statistics, add_statistics. simpl.
  by destruct (statistics st).
Qed.

Lemma daily_totalTime_set_statistics (st : Storage) (s : Statistics.t) (key domain : string) :
  daily_totalTime (set_statistics s st) key domain = daily_totalTime st key domain.
Proof. reflexivity. Qed.

Lemma stats_totalTime_set_visits (st : Storage) (key : string) (v : gmap string Daily.t) :
  stats_totalTime (set_visits key v st) = stats_totalTime st.
Proof. reflexivity. Qed.

(** C3, for commits that do not overlap.  The program has no queue or
    lock around its read-modify-write of a stored record; when one call
    of [saveVisitData] has completed all its storage operations before
    the next call's first one, both increments reach the day's record of
    the domain and the statistics record.  The domain is not the name of
    a property that every object inherits, such as [constructor]: for
    such a domain the call stores nothing. *)
Theorem sequential_commits_add (st : Storage) (today domain url1 url2 : string)
    (d1 d2 : Z) (n1 n2 n3 n4 n5 n6 n7 n8 : Z) :
  inherited domain = false →
  let key := "visits_" +:+ today in
  let final :=
    schedule ([saveVisitData today domain d1 url1; saveVisitData today domain d2 url2], st)
             [(0%nat, n1); (0%nat, n2); (0%nat, n3); (0%nat, n4);
              (1%nat, n5); (1%nat, n6); (1%nat, n7); (1%nat, n8)] in
  all_finished final = true ∧
  daily_totalTime final.2 key domain = daily_totalTime st key domain + d1 + d2 ∧
  stats_totalTime final.2 = stats_totalTime st + d1 + d2.
Proof.
  intros Hown key final. subst final.
  cbn [schedule foldl step resume fst snd lookup list_lookup insert list_insert
       saveVisitData].
  rewrite (add_visit_not_inherited domain url1 d1) by exact Hown.
  cbn [schedule foldl step resume fst snd lookup list_lookup insert list_insert
       saveVisitData].
  rewrite (add_visit_not_inherited domain url2 d2) by exact Hown.
  cbn [schedule foldl step resume fst snd lookup list_lookup insert list_insert].
  fold key. split; [reflexivity|]. split.
  - rewrite daily_totalTime_set_statistics.
    rewrite (daily_totalTime_add_to_record _ key domain url2 d2).
    rewrite daily_totalTime_set_statistics.
    rewrite (daily_totalTime_add_to_record st key domain url1 d1). reflexivity.
  - rewrite (stats_totalTime_add_statistics _ n7 domain d2).
    rewrite stats_totalTime_set_visits.
    rewrite (stats_totalTime_add_statistics _ n3 domain d1).
    rewrite stats_totalTime_set_visits. reflexivity.
Qed.

Lemma sequential_commits_add_witness :
  let st := {| visits := ∅; statistics := None |} in
  let final :=
    schedule ([saveVisitData "2024-03-01" "google.com" 125000 "https://google.com/a";
               saveVisitData "2024-03-01" "google.com" 200000 "https://google.com/b"], st)
             [(0%nat, 10); (0%nat, 11); (0%nat, 12); (0%nat, 13);
              (1%nat, 20); (1%nat, 21); (1%nat, 22); (1%nat, 23)] in
  inherited "google.com" = false ∧
  daily_totalTime final.2 "visits_2024-03-01" "google.com" = 325000 ∧
  stats_totalTime final.2 = 325000.
Proof.
  intros st final. split; [reflexivity|].
  destruct (sequential_commits_add st "2024-03-01" "google.com" "https://google.com/a"
              "https://google.com/b" 125000 200000 10 11 12 13 20 21 22 23 eq_refl)
    as (_ & Hday & Hstats).
  split; [exact Hday | exact Hstats].
Defined.

(** The end-to-end scenario of the specification: two commits for
    [google.com], one after the other. *)
Example two_commits_in_sequence :
  let final :=
    schedule ([saveVisitData "2024-03-01" "google.com" 125000 "u1";
               saveVisitData "2024-03-01" "google.com" 200000 "u2"],
              {| visits := ∅; statistics := None |})
             [(0%nat, 10); (0%nat, 11); (0%nat, 12); (0%nat, 13);
              (1%nat, 20); (1%nat, 21); (1%nat, 22); (1%nat, 23)] in
  default ∅ (visits final.2 !! "visits_2024-03-01") !! "google.com"
  = Some (Daily.mk 325000 2 {[ "u1" := Num 125000; "u2" := Num 200000 ]}) ∧
  (Statistics.domains <$> statistics final.2)
  = Some {[ "google.com" := DomainStat.mk 325000 2 ]}.
Proof. vm_compute. split; reflexivity. Qed.

(** Two calls of [saveVisitData] in flight together, for one domain on
    one day: both read the stored record before either writes it, and
    the increment of the first call is lost, in the day's record and in
    the statistics record alike. *)
Lemma overlapping_commits_lose_an_increment :
  let st := {| visits := ∅; statistics := None |} in
  let final :=
    schedule ([saveVisitData "2024-03-01" "google.com" 125000 "https://google.com/a";
               saveVisitData "2024-03-01" "google.com" 200000 "https://google.com/b"], st)
             [(0%nat, 10); (1%nat, 10); (0%nat, 11); (1%nat, 11);
              (0%nat, 12); (1%nat, 12); (0%nat, 13); (1%nat, 13)] in
  all_finished final = true ∧
  daily_totalTime final.2 "visits_2024-03-01" "google.com" = 200000 ∧
  stats_totalTime final.2 = 200000 ∧
  daily_totalTime final.2 "visits_2024-03-01" "google.com"
  ≠ daily_totalTime st "visits_2024-03-01" "google.com" + 125000 + 200000 ∧
  stats_totalTime final.2 ≠ stats_totalTime st + 125000 + 200000.
Proof. vm_compute. repeat split; discriminate. Qed.

(** The page [http://constructor/] has the hostname [constructor].  The
    day's object inherits a property of that name, so [saveVisitData]
    creates no record, throws at [visits[domain].urls[url]] and ends in
    its [catch]: the call is over after its first storage operation,
    the storage is as before, and the statistics are not updated. *)
Example commit_for_constructor_stores_nothing :
  let st := {| visits := ∅; statistics := None |} in
  schedule ([saveVisitData "2024-03-01" "constructor" 125000 "http://constructor/"], st)
           [(0%nat, 10)]
  = ([Finished], st).
Proof. reflexivity. Qed.

(** ** FocusTimerEngine *)

(** What [pomodoro:reset] does for every stored state: the work mode,
    stopped, no session completed, 25 minutes on the clock, the pending
    alarm cleared, and the configuration kept. *)
Lemma pomodoro_reset_spec (now : Z) (s : Pomodoro) :
  ∃ next, stored (pomodoro_reset now (Some s)) = Some next ∧
          mode next = Some work ∧ isRunning next = Some false ∧
          remainingMs next = Some 1500000 ∧ sessionsCompleted next = Some 0 ∧
          lastUpdated next = Some now ∧
          same_configuration s next ∧
          calls (pomodoro_reset now (Some s)) = [alarms_clear "pomodoro-end"; sendResponse_success].
Proof.
  eexists. split; [reflexivity|]. simpl. unfold same_configuration. simpl.
  repeat split.
Qed.

(** C2.  [pomodoro:reset] puts the constant 25 minutes on the clock,
    not the configured work duration: with a work duration of 50
    minutes the state after [reset] has [remainingMs = 1500000] while
    [workMs = 3000000].  The configuration itself is kept. *)
Theorem pomodoro_reset_ignores_workMs :
  let s := {| mode := Some break; isRunning := Some true; remainingMs := Some 120000;
              workMs := Some 3000000; breakMs := Some 600000;
              longBreakMs := Some 1200000; sessionsBeforeLong := Some 4;
              sessionsCompleted := Some 3; lastUpdated := Some 1000 |} in
  ∃ next, stored (pomodoro_reset 2000 (Some s)) = Some next ∧
          remainingMs next = Some 1500000 ∧
          workMs next = Some 3000000 ∧
          same_configuration s next ∧
          ¬ reset_to_workMs s next.
Proof.
  eexists. split; [reflexivity|]. simpl. unfold same_configuration, reset_to_workMs. simpl.
  repeat split. intros (_ & _ & H & _). discriminate H.
Qed.




Lemma JsNumber_or_nonzero (n : option Z) (d : Z) : d ≠ 0 → JsNumber.or n d ≠ 0.
Proof.
  intros Hd. unfold JsNumber.or. destruct n as [n|]; [|exact Hd].
  destruct (Z.eqb_spec n 0); [exact Hd|done].
Qed.

Lemma JsNumber_or_present (n d : Z) : n ≠ 0 → JsNumber.or (Some n) d = n.
Proof. intros Hn. simpl. by destruct (Z.eqb_spec n 0). Qed.

(** C7, with the fallbacks of the handler.  When the alarm fires on a
    stored state [s], the handler stores a state [next] that is running,
    has [lastUpdated = now1], keeps the configuration, and arms the
    alarm at [now2 + remainingMs next].  In work mode [sessionsCompleted]
    (0 if absent) is incremented, the next mode is [break], and the
    duration is [longBreakMs] when the incremented count is divisible by
    [sessionsBeforeLong] and [breakMs] otherwise; in break mode the next
    mode is [work] with duration [workMs].  A configuration field that is
    zero or absent is replaced by its default: 4 sessions, 900000,
    300000 and 1500000 ms. *)
Theorem onAlarm_pomodoro_end_transition (now1 now2 : Z) (s : Pomodoro) :
  ∃ next r,
    stored (onAlarm_pomodoro_end now1 now2 (Some s)) = Some next ∧
    isRunning next = Some true ∧
    lastUpdated next = Some now1 ∧
    remainingMs next = Some r ∧
    alarms_create "pomodoro-end" (Some (now2 + r))
      ∈ calls (onAlarm_pomodoro_end now1 now2 (Some s)) ∧
    same_configuration s next ∧
    (mode s = Some work →
       let completed := JsNumber.or (sessionsCompleted s) 0 + 1 in
       let every := JsNumber.or (sessionsBeforeLong s) 4 in
       sessionsCompleted next = Some completed ∧
       mode next = Some break ∧
       ((every | completed) → r = JsNumber.or (longBreakMs s) 900000) ∧
       (¬ (every | completed) → r = JsNumber.or (breakMs s) 300000)) ∧
    (mode s = Some break →
       mode next = Some work ∧
       r = JsNumber.or (workMs s) 1500000 ∧
       sessionsCompleted next = sessionsCompleted s).
Proof.
  unfold onAlarm_pomodoro_end. simpl.
  destruct (mode s) as [[|]|] eqn:Hmode; simpl.
  - eexists _, _. repeat split; try reflexivity.
    + simpl. apply list_elem_of_here.
    + intros Hdiv.
      apply (Z.rem_divide _ _ (JsNumber_or_nonzero _ 4 ltac:(done))) in Hdiv.
      by rewrite Hdiv.
    + intros Hndiv.
      destruct (Z.eqb_spec
                  (Z.rem (JsNumber.or (sessionsCompleted s) 0 + 1)
                         (JsNumber.or (sessionsBeforeLong s) 4)) 0) as [Hz|Hnz];
        [|reflexivity].
      exfalso. apply Hndiv.
      by apply (Z.rem_divide _ _ (JsNumber_or_nonzero _ 4 ltac:(done))).
    + discriminate.
    + discriminate.
    + discriminate.
  - eexists _, _. repeat split; try reflexivity; try discriminate.
    simpl. apply list_elem_of_here.
  - eexists _, _. repeat split; try reflexivity; try discriminate.
    simpl. apply list_elem_of_here.
Qed.

Lemma onAlarm_pomodoro_end_transition_witness :
  let s := {| mode := Some work; isRunning := Some true; remainingMs := Some 1500000;
              workMs := Some 1500000; breakMs := Some 300000;
              longBreakMs := Some 900000; sessionsBeforeLong := Some 4;
              sessionsCompleted := Some 3; lastUpdated := Some 1000 |} in
  mode s = Some work ∧
  (JsNumber.or (sessionsBeforeLong s) 4 | JsNumber.or (sessionsCompleted s) 0 + 1) ∧
  ∃ next, stored (onAlarm_pomodoro_end 1501000 1501002 (Some s)) = Some next ∧
          mode next = Some break ∧
          sessionsCompleted next = Some 4 ∧
          remainingMs next = Some 900000.
Proof.
  intros s.
  assert (Hmode : mode s = Some work) by reflexivity.
  assert (Hdiv : (JsNumber.or (sessionsBeforeLong s) 4
                  | JsNumber.or (sessionsCompleted s) 0 + 1)) by (exists 1; reflexivity).
  split; [exact Hmode|]. split; [exact Hdiv|].
  destruct (onAlarm_pomodoro_end_transition 1501000 1501002 s)
    as (next & r & Hst & _ & _ & Hr & _ & _ & Hwork & _).
  destruct (Hwork Hmode) as (Hc & Hm & Hlong & _).
  exists next. split; [exact Hst|]. split; [exact Hm|]. split; [exact Hc|].
  rewrite Hr, (Hlong Hdiv). reflexivity.
Defined.

(** The timer is started from the popup on the state stored at
    installation (the messages [pomodoro:updateSettings] and
    [pomodoro:start] of [pomodoroStart], with the inputs 25, 5, 15 and
    4), the user clears the data while it runs, and the alarm goes off
    twice.  [clearData] removes the stored state and leaves the alarm
    armed.  The first firing finds no state and stores a running work
    segment that has no configuration field and no count.  The second
    firing ends that work segment: the count becomes 1 and the break
    lasts 300000 ms, on a state that has no [breakMs] and no
    [sessionsBeforeLong]. *)
Lemma onAlarm_after_clearData_uses_defaults :
  let installed := {| pomodoro_key := Some (new_pomodoro 0); armed := None |} in
  let configured :=
    perform (pomodoro_updateSettings
               (pomodoroStart_settings (Some 25) (Some 5) (Some 15) (Some 4))
               (pomodoro_key installed)) installed in
  let started :=
    perform (pomodoro_start 1000 1001 empty_object None (pomodoro_key configured)) configured in
  let cleared := clearData_timer started in
  let fired := alarm_fires 1501001 1501002 cleared in
  pomodoro_key cleared = None ∧
  armed cleared = Some (Some 1501001) ∧
  ∃ s, pomodoro_key fired = Some s ∧
       armed fired = Some (Some 3001002) ∧
       mode s = Some work ∧
       sessionsCompleted s = None ∧
       sessionsBeforeLong s = None ∧
       breakMs s = None ∧
       ∃ next, pomodoro_key (alarm_fires 3001002 3001003 fired) = Some next ∧
               stored (onAlarm_pomodoro_end 3001002 3001003 (Some s)) = Some next ∧
               mode next = Some break ∧
               sessionsCompleted next = Some 1 ∧
               remainingMs next = Some 300000 ∧
               remainingMs next ≠ breakMs s.
Proof.
  split; [reflexivity|]. split; [reflexivity|].
  eexists. split; [reflexivity|]. simpl. repeat split.
  eexists. split; [reflexivity|]. simpl. repeat split. discriminate.
Qed.




(** ** Stored heartbeat sessions come from accepted pings *)

Lemma startTrackingTab_sessionData (URL_hostname : string → option string)
    (now1 now2 tabId : Z) (url : option string) (t : UsageTracker) :
  sessionData (startTrackingTab URL_hostname now1 now2 tabId url t).1 = sessionData t.
Proof.
  unfold startTrackingTab. destruct url as [url|]; [|done].
  destruct (negb (isTrackingEnabled t) || String.eqb url ""); [done|].
  destruct (isDomainExcluded _); [done|].
  by rewrite seq_tracker, updateBadge_tracker.
Qed.

Lemma pageEvent_accepted_sessions (URL_hostname : string → option string)
    (senderTabId : option Z) (url : string) (ts : Z) (t : UsageTracker) :
  accepted_sessions URL_hostname t →
  accepted_sessions URL_hostname (pageEvent URL_hostname senderTabId url ts t).1.
Proof.
  intros Hinv. unfold pageEvent.
  destruct senderTabId as [tabId|]; [|exact Hinv].
  destruct (Z.eqb_spec tabId 0) as [|Hid]; [exact Hinv|]. simpl.
  destruct (isDomainExcluded (extractDomain URL_hostname url)) eqn:Hdom; [exact Hinv|].
  assert (Hstore : accepted_sessions URL_hostname
            (set_sessionData (insert tabId (HeartbeatSession.mk ts url)) t).1).
  { intros k session. simpl. rewrite lookup_insert.
    case_decide as Hk.
    - intros [= <-]. subst k. by split.
    - apply Hinv. }
  destruct (sessionData t !! tabId) as [prev|]; [|exact Hstore].
  destruct (String.eqb (HeartbeatSession.url prev) url); [|exact Hstore].
  by destruct (_ >=? 5000).
Qed.

Lemma handle_accepted_sessions (URL_hostname : string → option string)
    (e : Event) (t : UsageTracker) :
  accepted_sessions URL_hostname t →
  accepted_sessions URL_hostname (handle URL_hostname e t).1.
Proof.
  intros Hinv. destruct e; simpl.
  - unfold initializeExistingTabs_queried, accepted_sessions.
    destruct (List.find Tab.active tabs) as [tab|]; [|exact Hinv].
    destruct (JsString.falsy (Tab.url tab)); [exact Hinv|].
    rewrite startTrackingTab_sessionData. exact Hinv.
  - unfold handleTabActivated, accepted_sessions. rewrite seq_tracker. simpl.
    rewrite (proj1 (stopTrackingAllTabs_frame _ _)). exact Hinv.
  - unfold handleTabActivated_got, accepted_sessions.
    destruct tab as [tab|]; [|exact Hinv].
    destruct (JsString.falsy (Tab.url tab)); [exact Hinv|].
    rewrite startTrackingTab_sessionData. exact Hinv.
  - unfold handleTabUpdated, accepted_sessions.
    destruct (is_complete status && negb (JsString.falsy (Tab.url tab))); [|exact Hinv].
    rewrite seq_tracker, startTrackingTab_sessionData.
    rewrite (proj1 (stopTrackingTab_frame _ _ _)). exact Hinv.
  - unfold handleTabRemoved, accepted_sessions.
    rewrite (proj1 (stopTrackingTab_frame _ _ _)). exact Hinv.
  - unfold handleWindowFocusChanged, accepted_sessions.
    destruct (windowId =? WINDOW_ID_NONE); [|exact Hinv].
    rewrite (proj1 (stopTrackingAllTabs_frame _ _)). exact Hinv.
  - unfold handleWindowFocusChanged_queried, accepted_sessions.
    destruct tabs as [|tab0 tabs]; [exact Hinv|].
    rewrite seq_tracker, startTrackingTab_sessionData.
    rewrite (proj1 (stopTrackingAllTabs_frame _ _)). exact Hinv.
  - unfold toggleTracking, accepted_sessions. rewrite !seq_tracker. simpl.
    destruct enabled; simpl; [exact Hinv|].
    rewrite (proj1 (stopTrackingAllTabs_frame _ _)). exact Hinv.
  - exact Hinv.
  - by apply pageEvent_accepted_sessions.
Qed.

Lemma run_snoc (URL_hostname : string → option string) (es : list Event) (e : Event)
    (t : UsageTracker) :
  (run URL_hostname (es ++ [e]) t).1
  = (handle URL_hostname e (run URL_hostname es t).1).1.
Proof. unfold run. rewrite foldl_app. simpl. apply seq_tracker. Qed.

(** In every reachable state, each stored heartbeat session belongs to a
    tab id other than 0 and to a url whose domain is not excluded: a
    ping for a tab with a stored session of the same url is accepted. *)
Lemma reachable_accepted_sessions (URL_hostname : string → option string)
    (t : UsageTracker) :
  reachable URL_hostname t → accepted_sessions URL_hostname t.
Proof.
  intros [es <-]. induction es as [|e es IH] using rev_ind.
  - intros k session. simpl. by rewrite lookup_empty.
  - rewrite run_snoc. by apply handle_accepted_sessions.
Qed.

(** * Further properties of the program *)

(** ** Sequencing of handler bodies *)

Lemma seq_calls (a b : Action) (t : UsageTracker) :
  ((a >> b) t).2 = (a t).2 ++ (b (a t).1).2.
Proof. unfold seq. destruct (a t) as [t1 c1]. simpl. by destruct (b t1). Qed.

Lemma commits_app (cs1 cs2 : list Call) :
  commits (cs1 ++ cs2) = commits cs1 ++ commits cs2.
Proof. unfold commits. apply omap_app. Qed.


Lemma fold_seq_calls {X} (f : X → Action) (xs : list X) (a : Action) (t : UsageTracker) :
  (foldl (fun a x => a >> f x) a xs t).2
  = (a t).2 ++ (foldl (fun a x => a >> f x) skip xs (a t).1).2.
Proof.
  revert a t. induction xs as [|x xs IH]; intros a t; simpl.
  - by rewrite app_nil_r.
  - rewrite IH, (IH (skip >> f x)). rewrite !seq_calls, !seq_tracker. simpl.
    by rewrite app_assoc.
Qed.


Lemma run_cons_calls (URL_hostname : string → option string) (e : Event)
    (es : list Event) (t : UsageTracker) :
  (run URL_hostname (e :: es) t).2
  = (handle URL_hostname e t).2 ++ (run URL_hostname es (handle URL_hostname e t).1).2.
Proof.
  unfold run. simpl. rewrite fold_seq_calls. by rewrite seq_calls, seq_tracker.
Qed.

(** ** Stopping every session *)

Lemma JsMap_delete_head_fresh {V} (k : Z) (v : V) (m : list (Z * V)) :
  k ∉ JsMap.keys m → JsMap.delete k ((k, v) :: m) = m.
Proof.
  intros Hfresh. unfold JsMap.delete. simpl. rewrite Z.eqb_refl. simpl.
  induction m as [|[k' v'] m IH]; simpl; [done|].
  unfold JsMap.keys in Hfresh. simpl in Hfresh.
  apply not_elem_of_cons in Hfresh as [Hne Hfresh].
  destruct (Z.eqb_spec k' k) as [->|_]; [done|]. simpl. by rewrite IH.
Qed.

Lemma stopTrackingTab_commits_entry (endTime : Z → Z) (k : Z) (session : TrackingData.t)
    (t : UsageTracker) :
  JsMap.get k (activeTabs t) = Some session →
  commits (stopTrackingTab (endTime k) k t).2
  = option_list (stop_commit endTime (k, session)).
Proof.
  intros Hget. unfold stopTrackingTab, stop_commit. rewrite Hget. simpl.
  by destruct (endTime k - TrackingData.startTime session >? 1000).
Qed.

Lemma stop_each_commits (endTime : Z → Z) (m : list (Z * TrackingData.t))
    (a : Action) (t : UsageTracker) :
  NoDup (JsMap.keys m) →
  activeTabs (a t).1 = m →
  commits (foldl (fun a k => a >> stopTrackingTab (endTime k) k) a (JsMap.keys m) t).2
  = commits (a t).2 ++ omap (stop_commit endTime) m.
Proof.
  revert a. induction m as [|[k session] m IH]; intros a Hnodup Hm; simpl.
  - by rewrite app_nil_r.
  - apply NoDup_cons in Hnodup as [Hfresh Hnodup].
    rewrite IH; [|done|].
    + rewrite seq_calls, commits_app.
      rewrite (stopTrackingTab_commits_entry endTime k session)
        by (rewrite Hm; unfold JsMap.get; simpl; by rewrite Z.eqb_refl).
      rewrite <- app_assoc. f_equal.
      by destruct (stop_commit endTime (k, session)).
    + rewrite seq_tracker, stopTrackingTab_activeTabs, Hm.
      by apply JsMap_delete_head_fresh.
Qed.

(** X1.  [stopTrackingAllTabs] stops every live session: afterwards no
    session is live, the heartbeat cursors and the tracking switch are
    as before, and the visits committed are exactly those of the
    sessions that lasted more than 1000 ms, one per session, in the
    iteration order of the [Map] [activeTabs]: the order in which the
    tab ids now present were entered, whatever the start times (a
    session started again under a key that is present keeps the place
    of the key). *)
Theorem stopTrackingAllTabs_commits_each (endTime : Z → Z) (t : UsageTracker) :
  NoDup (JsMap.keys (activeTabs t)) →
  activeTabs (stopTrackingAllTabs endTime t).1 = [] ∧
  sessionData (stopTrackingAllTabs endTime t).1 = sessionData t ∧
  isTrackingEnabled (stopTrackingAllTabs endTime t).1 = isTrackingEnabled t ∧
  commits (stopTrackingAllTabs endTime t).2 = omap (stop_commit endTime) (activeTabs t).
Proof.
  intros Hnodup. split; [apply stopTrackingAllTabs_empties|].
  split; [apply stopTrackingAllTabs_frame|].
  split; [apply stopTrackingAllTabs_frame|].
  unfold stopTrackingAllTabs. by rewrite (stop_each_commits endTime (activeTabs t) skip t).
Qed.

Lemma stopTrackingAllTabs_commits_each_witness :
  let t := {| activeTabs :=
                [(3, TrackingData.mk 3 "https://github.com/" "github.com" 1000 1000);
                 (5, TrackingData.mk 5 "https://example.com/" "example.com" 4500 4500)];
              sessionData := ∅; isTrackingEnabled := true |} in
  NoDup (JsMap.keys (activeTabs t)) ∧
  commits (stopTrackingAllTabs (fun _ => 5000) t).2
  = [("github.com", 4000, "https://github.com/")].
Proof.
  intros t.
  assert (Hnodup : NoDup (JsMap.keys (activeTabs t))).
  { apply NoDup_cons. split; [|apply NoDup_singleton].
    intros H. apply list_elem_of_singleton in H. discriminate H. }
  split; [exact Hnodup|].
  destruct (stopTrackingAllTabs_commits_each (fun _ => 5000) t Hnodup) as (_ & _ & _ & H).
  rewrite H. reflexivity.
Defined.

(** ** The live sessions of a reachable tracker *)

Lemma JsMap_keys_delete_subset {V} (k j : Z) (m : list (Z * V)) :
  j ∈ JsMap.keys (JsMap.delete k m) → j ∈ JsMap.keys m.
Proof.
  unfold JsMap.keys, JsMap.delete. induction m as [|[k' v] m IH]; simpl; [done|].
  destruct (Z.eqb_spec k' k); simpl.
  - intros H. apply list_elem_of_further. by apply IH.
  - intros H. apply elem_of_cons in H as [->|H].
    + apply list_elem_of_here.
    + apply list_elem_of_further. by apply IH.
Qed.

Lemma JsMap_delete_NoDup {V} (k : Z) (m : list (Z * V)) :
  NoDup (JsMap.keys m) → NoDup (JsMap.keys (JsMap.delete k m)).
Proof.
  induction m as [|[k' v] m IH]; [done|].
  intros Hnodup. apply NoDup_cons in Hnodup as [Hfresh Hnodup].
  unfold JsMap.delete. simpl. destruct (Z.eqb_spec k' k); simpl.
  - by apply IH.
  - apply NoDup_cons. split; [|by apply IH].
    intros Hin. apply Hfresh. by apply (JsMap_keys_delete_subset k).
Qed.

Lemma JsMap_delete_Forall {V} (P : Z * V → Prop) (k : Z) (m : list (Z * V)) :
  Forall P m → Forall P (JsMap.delete k m).
Proof.
  unfold JsMap.delete. induction 1 as [|kv m HP _ IH]; simpl; [constructor|].
  destruct (negb (kv.1 =? k)); [by constructor|done].
Qed.

Lemma JsMap_has_false {V} (k : Z) (m : list (Z * V)) :
  JsMap.has k m = false → k ∉ JsMap.keys m.
Proof.
  unfold JsMap.has, JsMap.keys. induction m as [|[k' v] m IH]; simpl.
  - intros _ H. by apply elem_of_nil in H.
  - intros H. apply orb_false_iff in H as [Hk Hm].
    apply not_elem_of_cons. split; [|by apply IH].
    apply Z.eqb_neq in Hk. congruence.
Qed.

Lemma JsMap_keys_set_present {V} (k : Z) (v : V) (m : list (Z * V)) :
  JsMap.keys (List.map (fun kv => if kv.1 =? k then (k, v) else kv) m) = JsMap.keys m.
Proof.
  unfold JsMap.keys. induction m as [|[k' w] m IH]; simpl; [done|].
  rewrite IH. by destruct (Z.eqb_spec k' k) as [->|_].
Qed.

Lemma JsMap_set_NoDup {V} (k : Z) (v : V) (m : list (Z * V)) :
  NoDup (JsMap.keys m) → NoDup (JsMap.keys (JsMap.set k v m)).
Proof.
  intros Hnodup. unfold JsMap.set. destruct (JsMap.has k m) eqn:Hhas.
  - by rewrite JsMap_keys_set_present.
  - unfold JsMap.keys. rewrite map_app. simpl.
    apply NoDup_app. split; [exact Hnodup|]. split; [|apply NoDup_singleton].
    intros j Hj Hjk. apply list_elem_of_singleton in Hjk as ->.
    by apply (JsMap_has_false _ _ Hhas).
Qed.

Lemma JsMap_set_Forall {V} (P : Z * V → Prop) (k : Z) (v : V) (m : list (Z * V)) :
  P (k, v) → Forall P m → Forall P (JsMap.set k v m).
Proof.
  intros Hnew Hm. unfold JsMap.set. destruct (JsMap.has k m).
  - induction Hm as [|kv m HP _ IH]; simpl; [constructor|].
    constructor; [|exact IH]. by destruct (kv.1 =? k).
  - apply Forall_app. split; [exact Hm|]. by constructor.
Qed.

Lemma stopTrackingTab_well_formed (URL_hostname : string → option string)
    (endTime tabId : Z) (t : UsageTracker) :
  well_formed_sessions URL_hostname t →
  well_formed_sessions URL_hostname (stopTrackingTab endTime tabId t).1.
Proof.
  intros [Hnodup Hall]. unfold well_formed_sessions.
  rewrite stopTrackingTab_activeTabs.
  split; [by apply JsMap_delete_NoDup|by apply JsMap_delete_Forall].
Qed.

Lemma stopTrackingAllTabs_well_formed (URL_hostname : string → option string)
    (endTime : Z → Z) (t : UsageTracker) :
  well_formed_sessions URL_hostname (stopTrackingAllTabs endTime t).1.
Proof.
  unfold well_formed_sessions. rewrite stopTrackingAllTabs_empties.
  split; [apply NoDup_nil_2|constructor].
Qed.

Lemma startTrackingTab_well_formed (URL_hostname : string → option string)
    (now1 now2 tabId : Z) (url : option string) (t : UsageTracker) :
  well_formed_sessions URL_hostname t →
  well_formed_sessions URL_hostname (startTrackingTab URL_hostname now1 now2 tabId url t).1.
Proof.
  intros [Hnodup Hall]. unfold startTrackingTab.
  destruct url as [url|]; [|done].
  destruct (isTrackingEnabled t); simpl; [|done].
  destruct (String.eqb_spec url "") as [|Hurl]; [done|].
  destruct (isDomainExcluded (extractDomain URL_hostname url)) eqn:Hdom; [done|].
  rewrite seq_tracker, updateBadge_tracker. simpl.
  split; simpl; [by apply JsMap_set_NoDup|].
  apply JsMap_set_Forall; [|exact Hall]. by repeat split.
Qed.

Lemma handle_well_formed (URL_hostname : string → option string)
    (e : Event) (t : UsageTracker) :
  well_formed_sessions URL_hostname t →
  well_formed_sessions URL_hostname (handle URL_hostname e t).1.
Proof.
  intros Hwf. destruct e; simpl.
  - unfold initializeExistingTabs_queried.
    destruct (List.find Tab.active tabs) as [tab|]; [|exact Hwf].
    destruct (JsString.falsy (Tab.url tab)); [exact Hwf|].
    by apply startTrackingTab_well_formed.
  - unfold handleTabActivated. rewrite seq_tracker. simpl.
    apply stopTrackingAllTabs_well_formed.
  - unfold handleTabActivated_got. destruct tab as [tab|]; [|exact Hwf].
    destruct (JsString.falsy (Tab.url tab)); [exact Hwf|].
    by apply startTrackingTab_well_formed.
  - unfold handleTabUpdated.
    destruct (is_complete status && negb (JsString.falsy (Tab.url tab))); [|exact Hwf].
    rewrite seq_tracker. apply startTrackingTab_well_formed.
    by apply stopTrackingTab_well_formed.
  - by apply stopTrackingTab_well_formed.
  - unfold handleWindowFocusChanged.
    destruct (windowId =? WINDOW_ID_NONE); [|exact Hwf].
    apply stopTrackingAllTabs_well_formed.
  - unfold handleWindowFocusChanged_queried. destruct tabs as [|tab0 tabs]; [exact Hwf|].
    rewrite seq_tracker. apply startTrackingTab_well_formed.
    apply stopTrackingAllTabs_well_formed.
  - unfold toggleTracking. rewrite !seq_tracker. simpl.
    destruct enabled; simpl; [exact Hwf|].
    destruct Hwf as [Hnodup Hall]. unfold well_formed_sessions.
    rewrite stopTrackingAllTabs_empties. split; [apply NoDup_nil_2|constructor].
  - exact Hwf.
  - unfold pageEvent. destruct senderTabId as [tabId|]; [|exact Hwf].
    destruct ((tabId =? 0) || isDomainExcluded _); [exact Hwf|].
    destruct (sessionData t !! tabId) as [prev|]; [|exact Hwf].
    destruct (String.eqb (HeartbeatSession.url prev) url); [|exact Hwf].
    by destruct (_ >=? 5000).
Qed.

(** X2.  Every live session of a reachable tracker is filed under its
    own tab id, belongs to a non-empty url, carries the classified
    domain of that url, and that domain is not excluded: the tracker
    never times a browser-internal, extension, about: or local-file
    page.  No tab has two sessions. *)
Theorem reachable_sessions_well_formed (URL_hostname : string → option string)
    (t : UsageTracker) :
  reachable URL_hostname t → well_formed_sessions URL_hostname t.
Proof.
  intros [es <-]. induction es as [|e es IH] using rev_ind.
  - split; [apply NoDup_nil_2|constructor].
  - rewrite run_snoc. by apply handle_well_formed.
Qed.

Lemma reachable_sessions_well_formed_witness :
  let t := (run SimpleURL.hostname
              [TabActivatedGot 1000 1000 1 (Some (Tab.mk 1 (Some "https://github.com/") true));
               TabUpdated 2000 2000 2000 2 (Some "complete")
                          (Tab.mk 2 (Some "chrome://extensions/") false)]
              new_UsageTracker).1 in
  reachable SimpleURL.hostname t ∧
  JsMap.keys (activeTabs t) = [1] ∧
  well_formed_sessions SimpleURL.hostname t.
Proof.
  intros t.
  assert (Hreach : reachable SimpleURL.hostname t) by (eexists; reflexivity).
  split; [exact Hreach|]. split; [reflexivity|].
  exact (reachable_sessions_well_formed SimpleURL.hostname t Hreach).
Defined.

(** ** The tracking switch *)

Lemma JsMap_get_delete_None {V} (k j : Z) (m : list (Z * V)) :
  JsMap.get k m = None → JsMap.get k (JsMap.delete j m) = None.
Proof.
  intros Hnone. destruct (Z.eq_dec k j) as [->|Hne].
  - apply JsMap_get_delete.
  - by rewrite JsMap_get_delete_ne.
Qed.

Lemma stopTrackingAllTabs_get (endTime : Z → Z) (k : Z) (t : UsageTracker) :
  JsMap.get k (activeTabs (stopTrackingAllTabs endTime t).1) = None.
Proof. by rewrite stopTrackingAllTabs_empties. Qed.

Lemma startTrackingTab_disabled (URL_hostname : string → option string)
    (now1 now2 tabId : Z) (url : option string) (t : UsageTracker) :
  isTrackingEnabled t = false →
  startTrackingTab URL_hostname now1 now2 tabId url t = (t, []).
Proof. intros Hoff. unfold startTrackingTab. rewrite Hoff. by destruct url. Qed.

(** X3.  While tracking is switched off no handler starts a session: a
    tab without a live session has none after any event. *)
Theorem no_session_starts_while_disabled (URL_hostname : string → option string)
    (e : Event) (k : Z) (t : UsageTracker) :
  isTrackingEnabled t = false →
  JsMap.get k (activeTabs t) = None →
  JsMap.get k (activeTabs (handle URL_hostname e t).1) = None.
Proof.
  intros Hoff Hnone. destruct e; simpl.
  - unfold initializeExistingTabs_queried.
    destruct (List.find Tab.active tabs) as [tab|]; [|exact Hnone].
    destruct (JsString.falsy (Tab.url tab)); [exact Hnone|].
    by rewrite startTrackingTab_disabled.
  - unfold handleTabActivated. rewrite seq_tracker. simpl. apply stopTrackingAllTabs_get.
  - unfold handleTabActivated_got. destruct tab as [tab|]; [|exact Hnone].
    destruct (JsString.falsy (Tab.url tab)); [exact Hnone|].
    by rewrite startTrackingTab_disabled.
  - unfold handleTabUpdated.
    destruct (is_complete status && negb (JsString.falsy (Tab.url tab))); [|exact Hnone].
    rewrite seq_tracker.
    rewrite startTrackingTab_disabled
      by (by rewrite (proj2 (stopTrackingTab_frame _ _ _))).
    simpl. rewrite stopTrackingTab_activeTabs. by apply JsMap_get_delete_None.
  - unfold handleTabRemoved. rewrite stopTrackingTab_activeTabs.
    by apply JsMap_get_delete_None.
  - unfold handleWindowFocusChanged.
    destruct (windowId =? WINDOW_ID_NONE); [|exact Hnone].
    apply stopTrackingAllTabs_get.
  - unfold handleWindowFocusChanged_queried. destruct tabs as [|tab0 tabs]; [exact Hnone|].
    rewrite seq_tracker.
    rewrite startTrackingTab_disabled
      by (by rewrite (proj2 (stopTrackingAllTabs_frame _ _))).
    simpl. apply stopTrackingAllTabs_get.
  - unfold toggleTracking. rewrite !seq_tracker. simpl.
    destruct enabled; simpl; [exact Hnone|]. apply stopTrackingAllTabs_get.
  - exact Hnone.
  - unfold pageEvent. destruct senderTabId as [tabId|]; [|exact Hnone].
    destruct ((tabId =? 0) || isDomainExcluded _); [exact Hnone|].
    destruct (sessionData t !! tabId) as [prev|]; [|exact Hnone].
    destruct (String.eqb (HeartbeatSession.url prev) url); [|exact Hnone].
    by destruct (_ >=? 5000).
Qed.

Lemma no_session_starts_while_disabled_witness :
  let t := {| activeTabs := []; sessionData := ∅; isTrackingEnabled := false |} in
  let e := TabActivatedGot 1000 1000 4 (Some (Tab.mk 4 (Some "https://github.com/") true)) in
  isTrackingEnabled t = false ∧
  JsMap.get 4 (activeTabs t) = None ∧
  JsMap.get 4 (activeTabs (handle SimpleURL.hostname e t).1) = None.
Proof.
  intros t e. split; [reflexivity|]. split; [reflexivity|].
  apply (no_session_starts_while_disabled SimpleURL.hostname e 4 t); reflexivity.
Defined.

(** ** Activation and window focus *)



(** ** More on the DomainClassifier *)

Lemma prefix_empty (s : string) : String.prefix "" s = true.
Proof. by destruct s. Qed.

Lemma prefix_trans (q p s : string) :
  String.prefix q p = true → String.prefix p s = true → String.prefix q s = true.
Proof.
  revert p s. induction q as [|c q IH]; intros p s Hqp Hps; [apply prefix_empty|].
  destruct p as [|c1 p]; [done|]. destruct s as [|c2 s]; [done|].
  simpl in *. destruct (ascii_dec c c1) as [->|]; [|done].
  destruct (ascii_dec c1 c2) as [->|]; [|done].
  destruct (ascii_dec c2 c2); [|done]. by apply (IH p s).
Qed.

Lemma includes_cons (c : ascii) (s q : string) :
  JsString.includes s q = true → JsString.includes (String c s) q = true.
Proof. intros H. simpl. rewrite H. apply orb_true_r. Qed.

Lemma prefix_includes (p s q : string) :
  String.prefix p s = true → JsString.includes p q = true → JsString.includes s q = true.
Proof.
  revert s. induction p as [|c p IH]; intros s Hps Hpq.
  - simpl in Hpq. rewrite orb_false_r in Hpq.
    destruct q as [|c q]; [|done]. destruct s; simpl; by rewrite ?prefix_empty.
  - destruct s as [|c' s]; [done|].
    simpl in Hps. destruct (ascii_dec c c') as [<-|]; [|done].
    change (JsString.includes (String c p) q)
      with (String.prefix q (String c p) || JsString.includes p q) in Hpq.
    apply orb_true_iff in Hpq as [Hq|Hq].
    + change (JsString.includes (String c s) q)
        with (String.prefix q (String c s) || JsString.includes s q).
      apply orb_true_iff. left. apply (prefix_trans q (String c p)); [done|].
      simpl. by destruct (ascii_dec c c).
    + apply includes_cons. by apply IH.
Qed.

Lemma includes_trans (s p q : string) :
  JsString.includes s p = true → JsString.includes p q = true → JsString.includes s q = true.
Proof.
  induction s as [|c s IH]; intros Hsp Hpq.
  - simpl in Hsp. rewrite orb_false_r in Hsp. by apply (prefix_includes p "").
  - change (JsString.includes (String c s) p)
      with (String.prefix p (String c s) || JsString.includes s p) in Hsp.
    apply orb_true_iff in Hsp as [Hp|Hs].
    + by apply (prefix_includes p).
    + apply includes_cons. by apply IH.
Qed.

Lemma extractDomain_no_internal_scheme (URL_hostname : string → option string)
    (url : string) :
  has_internal_scheme url = false →
  extractDomain URL_hostname url = hostname_or_unknown URL_hostname url.
Proof.
  unfold has_internal_scheme, extractDomain. intros H. simpl in H.
  apply orb_false_iff in H as [H1 H]. apply orb_false_iff in H as [H2 H].
  apply orb_false_iff in H as [H3 H]. apply orb_false_iff in H as [H4 _].
  by rewrite H1, H2, H3, H4.
Qed.

(** X5.  An address that begins with an internal scheme is classified
    as that scheme, whatever follows the scheme and whatever the
    platform's parser would say, and the result is an excluded
    domain. *)
Theorem extractDomain_internal_scheme (URL_hostname : string → option string)
    (rest : string) :
  Forall (fun scheme =>
            extractDomain URL_hostname (scheme +:+ rest) = scheme ∧
            isDomainExcluded (extractDomain URL_hostname (scheme +:+ rest)) = true)
         excludedDomains.
Proof.
  unfold excludedDomains.
  repeat constructor;
    unfold extractDomain, JsString.startsWith, String.append; simpl;
    rewrite ?prefix_empty; reflexivity.
Qed.

Lemma includes_colon_of_excluded (h : string) :
  JsString.includes h ":" = false →
  Forall (fun excluded => JsString.includes h excluded = false) excludedDomains.
Proof.
  intros Hcolon. unfold excludedDomains.
  repeat constructor;
    match goal with
    | |- JsString.includes h ?p = false =>
        destruct (JsString.includes h p) eqn:Hp; [|reflexivity];
        rewrite (includes_trans h p ":" Hp eq_refl) in Hcolon; discriminate Hcolon
    end.
Qed.

(** X6.  A name without a colon, as every hostname that the classifier
    returns for an ordinary address is, is excluded exactly when it is
    empty: the four excluded entries all contain a colon.  In
    particular the sentinel ['unknown'] is not excluded. *)
Theorem isDomainExcluded_without_colon (h : string) :
  JsString.includes h ":" = false →
  isDomainExcluded h = String.eqb h "".
Proof.
  intros Hcolon. pose proof (includes_colon_of_excluded h Hcolon) as Hall.
  unfold isDomainExcluded. unfold excludedDomains in *.
  repeat match goal with
         | H : Forall _ (_ :: _) |- _ => apply Forall_cons in H as [? H]
         end.
  simpl. repeat match goal with H : JsString.includes h _ = false |- _ => rewrite H end.
  simpl. by destruct (String.eqb h "").
Qed.

Lemma isDomainExcluded_without_colon_witness :
  JsString.includes "unknown" ":" = false ∧ isDomainExcluded "unknown" = false.
Proof.
  split; [reflexivity|].
  rewrite (isDomainExcluded_without_colon "unknown"); reflexivity.
Defined.

(** X7.  An address that the platform cannot parse is not dropped: it
    is classified as ['unknown'], and with tracking on, a tab showing
    it gets a live session under that domain. *)
Theorem unparseable_address_is_tracked (URL_hostname : string → option string)
    (now1 now2 tabId : Z) (url : string) (t : UsageTracker) :
  has_internal_scheme url = false →
  URL_hostname url = None →
  url ≠ "" →
  isTrackingEnabled t = true →
  extractDomain URL_hostname url = "unknown" ∧
  JsMap.get tabId (activeTabs (startTrackingTab URL_hostname now1 now2 tabId (Some url) t).1)
  = Some (TrackingData.mk tabId url "unknown" now1 now2).
Proof.
  intros Hscheme Hparse Hurl Hon.
  assert (Hdom : extractDomain URL_hostname url = "unknown").
  { rewrite extractDomain_no_internal_scheme by done.
    unfold hostname_or_unknown. by rewrite Hparse. }
  split; [exact Hdom|].
  unfold startTrackingTab. rewrite Hon, Hdom. simpl.
  apply String.eqb_neq in Hurl. rewrite Hurl.
  replace (isDomainExcluded "unknown") with false by reflexivity.
  rewrite seq_tracker, updateBadge_tracker. simpl. apply JsMap_get_set.
Qed.

Lemma unparseable_address_is_tracked_witness :
  has_internal_scheme "invalid-url" = false ∧
  SimpleURL.hostname "invalid-url" = None ∧
  "invalid-url" ≠ "" ∧
  isTrackingEnabled new_UsageTracker = true ∧
  JsMap.get 9 (activeTabs (startTrackingTab SimpleURL.hostname 1000 1000 9
                             (Some "invalid-url") new_UsageTracker).1)
  = Some (TrackingData.mk 9 "invalid-url" "unknown" 1000 1000).
Proof.
  repeat (split; [done|]).
  apply (unparseable_address_is_tracked SimpleURL.hostname 1000 1000 9 "invalid-url"
           new_UsageTracker); done.
Defined.

(** X8.  For an ordinary address whose hostname contains ["www."]
    nowhere, the classified domain is the hostname itself, and the
    address with the hostname prefixed by ["www."] is classified as the
    same domain. *)
Theorem extractDomain_www_free (URL_hostname : string → option string)
    (url url_www h : string) :
  has_internal_scheme url = false →
  has_internal_scheme url_www = false →
  URL_hostname url = Some h →
  URL_hostname url_www = Some ("www." +:+ h) →
  JsString.includes h "www." = false →
  extractDomain URL_hostname url = h ∧
  extractDomain URL_hostname url_www = h.
Proof.
  intros Hs Hsw Hh Hhw Hfree.
  rewrite !extractDomain_no_internal_scheme by done.
  unfold hostname_or_unknown. rewrite Hh, Hhw. split.
  - by apply replace_without_occurrence.
  - apply replace_leading_www.
Qed.

Lemma extractDomain_www_free_witness :
  has_internal_scheme "https://google.com/search?q=test" = false ∧
  has_internal_scheme "https://www.google.com/search?q=test" = false ∧
  SimpleURL.hostname "https://google.com/search?q=test" = Some "google.com" ∧
  SimpleURL.hostname "https://www.google.com/search?q=test" = Some ("www." +:+ "google.com") ∧
  JsString.includes "google.com" "www." = false ∧
  extractDomain SimpleURL.hostname "https://google.com/search?q=test" = "google.com" ∧
  extractDomain SimpleURL.hostname "https://www.google.com/search?q=test" = "google.com".
Proof.
  repeat (split; [reflexivity|]).
  apply (extractDomain_www_free SimpleURL.hostname
           "https://google.com/search?q=test" "https://www.google.com/search?q=test"
           "google.com"); reflexivity.
Defined.

(** ** More on the heartbeat channel *)

Lemma pageEvent_frame (URL_hostname : string → option string)
    (senderTabId : option Z) (url : string) (ts : Z) (t : UsageTracker) :
  activeTabs (pageEvent URL_hostname senderTabId url ts t).1 = activeTabs t ∧
  isTrackingEnabled (pageEvent URL_hostname senderTabId url ts t).1 = isTrackingEnabled t.
Proof.
  unfold pageEvent. destruct senderTabId as [tabId|]; [|done].
  destruct ((tabId =? 0) || isDomainExcluded _); [done|].
  destruct (sessionData t !! tabId) as [prev|]; [|done].
  destruct (String.eqb (HeartbeatSession.url prev) url); [|done].
  by destruct (_ >=? 5000).
Qed.

Lemma pageEvent_same_url (URL_hostname : string → option string)
    (k : Z) (url : string) (ts last : Z) (t : UsageTracker) :
  k ≠ 0 →
  isDomainExcluded (extractDomain URL_hostname url) = false →
  sessionData t !! k = Some (HeartbeatSession.mk last url) →
  sessionData (pageEvent URL_hostname (Some k) url ts t).1
  = <[k := HeartbeatSession.mk ts url]> (sessionData t) ∧
  commits (pageEvent URL_hostname (Some k) url ts t).2
  = (if 5000 <=? clamp (ts - last) 0 60000
     then [(extractDomain URL_hostname url, clamp (ts - last) 0 60000, url)]
     else []).
Proof.
  intros Hk Hdom Hprev. unfold pageEvent. rewrite Hdom, Hprev.
  replace (k =? 0) with false by (symmetry; by apply Z.eqb_neq).
  simpl. rewrite String.eqb_refl, clamp_max_min, Z.geb_leb.
  by destruct (5000 <=? clamp (ts - last) 0 60000).
Qed.

Lemma pageEvent_first_contact (URL_hostname : string → option string)
    (k : Z) (url : string) (ts : Z) (t : UsageTracker) :
  k ≠ 0 →
  isDomainExcluded (extractDomain URL_hostname url) = false →
  sessionData t !! k = None →
  sessionData (pageEvent URL_hostname (Some k) url ts t).1
  = <[k := HeartbeatSession.mk ts url]> (sessionData t) ∧
  commits (pageEvent URL_hostname (Some k) url ts t).2 = [].
Proof.
  intros Hk Hdom Hnone. unfold pageEvent. rewrite Hdom, Hnone.
  replace (k =? 0) with false by (symmetry; by apply Z.eqb_neq). done.
Qed.

(** X9.  Whatever the message and the state, the [pageEvent] handler
    commits at most one visit, of at least 5000 and at most 60000 ms,
    for the url of the message and its classified domain; it leaves
    the live sessions, the tracking switch and the cursors of all other
    tabs untouched. *)
Theorem pageEvent_commit_bounds (URL_hostname : string → option string)
    (senderTabId : option Z) (url : string) (ts : Z) (t : UsageTracker) :
  let r := pageEvent URL_hostname senderTabId url ts t in
  (length (commits r.2) <= 1)%nat ∧
  Forall (fun c => c.1.1 = extractDomain URL_hostname url ∧
                   5000 <= c.1.2 <= 60000 ∧
                   c.2 = url)
         (commits r.2) ∧
  activeTabs r.1 = activeTabs t ∧
  isTrackingEnabled r.1 = isTrackingEnabled t ∧
  (∀ j, senderTabId ≠ Some j → sessionData r.1 !! j = sessionData t !! j).
Proof.
  simpl. split; [|split; [|split; [apply pageEvent_frame|split; [apply pageEvent_frame|]]]].
  - unfold pageEvent. destruct senderTabId as [tabId|]; [|simpl; lia].
    destruct ((tabId =? 0) || isDomainExcluded _); [simpl; lia|].
    destruct (sessionData t !! tabId) as [prev|]; [|simpl; lia].
    destruct (String.eqb (HeartbeatSession.url prev) url); [|simpl; lia].
    destruct (_ >=? 5000); simpl; lia.
  - unfold pageEvent. destruct senderTabId as [tabId|]; [|constructor].
    destruct ((tabId =? 0) || isDomainExcluded _); [constructor|].
    destruct (sessionData t !! tabId) as [prev|]; [|constructor].
    destruct (String.eqb (HeartbeatSession.url prev) url); [|constructor].
    destruct (Z.geb_spec (Z.max 0 (Z.min (ts - HeartbeatSession.lastTimestamp prev) 60000))
                         5000) as [Hge|Hlt]; [|constructor].
    constructor; [|constructor]. simpl. repeat split; lia.
  - intros j Hj. unfold pageEvent. destruct senderTabId as [tabId|]; [|done].
    destruct ((tabId =? 0) || isDomainExcluded _); [done|].
    assert (Hne : tabId ≠ j) by congruence.
    destruct (sessionData t !! tabId) as [prev|]; [|simpl; by rewrite lookup_insert_ne].
    destruct (String.eqb (HeartbeatSession.url prev) url);
      [|simpl; by rewrite lookup_insert_ne].
    destruct (_ >=? 5000); simpl; by rewrite lookup_insert_ne.
Qed.

Lemma pageEvent_commit_bounds_witness :
  let t := {| activeTabs := [];
              sessionData := {[ 7 := HeartbeatSession.mk 1000 "https://github.com/";
                                8 := HeartbeatSession.mk 500 "https://example.com/" ]};
              isTrackingEnabled := true |} in
  Some 7 ≠ Some 8 ∧
  sessionData (pageEvent SimpleURL.hostname (Some 7) "https://github.com/" 900000 t).1 !! 8
  = Some (HeartbeatSession.mk 500 "https://example.com/").
Proof.
  intros t. split; [discriminate|].
  destruct (pageEvent_commit_bounds SimpleURL.hostname (Some 7) "https://github.com/"
              900000 t) as (_ & _ & _ & _ & Hother).
  rewrite Hother by discriminate. reflexivity.
Defined.

(** X10.  The heartbeat channel does not consult the tracking switch:
    the handler makes the same calls, commits included, and stores the
    same cursors whether tracking is on or off. *)
Theorem pageEvent_ignores_tracking_switch (URL_hostname : string → option string)
    (senderTabId : option Z) (url : string) (ts : Z) (b : bool) (t : UsageTracker) :
  let t' := (set_isTrackingEnabled b t).1 in
  (pageEvent URL_hostname senderTabId url ts t').2
  = (pageEvent URL_hostname senderTabId url ts t).2 ∧
  sessionData (pageEvent URL_hostname senderTabId url ts t').1
  = sessionData (pageEvent URL_hostname senderTabId url ts t).1.
Proof.
  simpl. unfold pageEvent. destruct senderTabId as [tabId|]; [|done].
  destruct ((tabId =? 0) || isDomainExcluded _); [done|]. simpl.
  destruct (sessionData t !! tabId) as [prev|]; [|done].
  destruct (String.eqb (HeartbeatSession.url prev) url); [|done].
  by destruct (_ >=? 5000).
Qed.

Lemma total_committed_app (cs1 cs2 : list (string * Z * string)) :
  total_committed (cs1 ++ cs2) = total_committed cs1 + total_committed cs2.
Proof.
  unfold total_committed. induction cs1 as [|c cs1 IH]; simpl; [done|].
  rewrite IH. lia.
Qed.

Lemma clamp_bounds (x : Z) : 0 <= x → 0 <= clamp x 0 60000 <= x.
Proof. intros Hx. unfold clamp. destruct (Z.ltb_spec x 0), (Z.ltb_spec 60000 x); lia. Qed.

Lemma last_cons_default (x d : Z) (l : list Z) :
  List.last (x :: l) d = List.last l x.
Proof.
  revert x d. induction l as [|y l IH]; intros x d; [done|].
  change (List.last (x :: y :: l) d) with (List.last (y :: l) d).
  by rewrite (IH y d), (IH y x).
Qed.

(** X11.  Heartbeats alone never count more than the time that passed:
    for pings of one page in one tab whose timestamps never go back,
    received by an accepting handler whose cursor for the tab stands at
    [t0] on the same url, the durations committed add up to at most the
    time from [t0] to the last ping. *)
Theorem heartbeat_total_bounded (URL_hostname : string → option string)
    (k : Z) (url : string) (timestamps : list Z) (t0 : Z) (t : UsageTracker) :
  k ≠ 0 →
  isDomainExcluded (extractDomain URL_hostname url) = false →
  sessionData t !! k = Some (HeartbeatSession.mk t0 url) →
  nondecreasing_from t0 timestamps →
  0 <= total_committed (commits (run URL_hostname (pings k url timestamps) t).2)
    <= List.last timestamps t0 - t0.
Proof.
  intros Hk Hdom. revert t0 t.
  induction timestamps as [|ts rest IH]; intros t0 t Hcursor Hsorted.
  - simpl. lia.
  - destruct Hsorted as [Hle Hsorted].
    change (pings k url (ts :: rest)) with (PageEvent (Some k) url ts :: pings k url rest).
    rewrite run_cons_calls, commits_app, total_committed_app.
    change (handle URL_hostname (PageEvent (Some k) url ts))
      with (pageEvent URL_hostname (Some k) url ts).
    destruct (pageEvent_same_url URL_hostname k url ts t0 t Hk Hdom Hcursor)
      as [Hstore Hcommit].
    assert (Hnext : sessionData (pageEvent URL_hostname (Some k) url ts t).1 !! k
                    = Some (HeartbeatSession.mk ts url))
      by (rewrite Hstore; apply lookup_insert_eq).
    specialize (IH ts _ Hnext Hsorted).
    rewrite last_cons_default, Hcommit.
    pose proof (clamp_bounds (ts - t0) ltac:(lia)) as Hclamp.
    destruct (5000 <=? clamp (ts - t0) 0 60000).
    + replace (total_committed
                 [(extractDomain URL_hostname url, clamp (ts - t0) 0 60000, url)])
        with (clamp (ts - t0) 0 60000) by (unfold total_committed; simpl; lia).
      lia.
    + replace (total_committed []) with 0 by reflexivity. lia.
Qed.

Lemma heartbeat_total_bounded_witness :
  let t := {| activeTabs := [];
              sessionData := {[ 7 := HeartbeatSession.mk 1000 "https://github.com/" ]};
              isTrackingEnabled := true |} in
  7 ≠ 0 ∧
  isDomainExcluded (extractDomain SimpleURL.hostname "https://github.com/") = false ∧
  sessionData t !! 7 = Some (HeartbeatSession.mk 1000 "https://github.com/") ∧
  nondecreasing_from 1000 [11000; 13000; 23000; 400000] ∧
  total_committed
    (commits (run SimpleURL.hostname
                (pings 7 "https://github.com/" [11000; 13000; 23000; 400000]) t).2)
  <= 399000.
Proof.
  intros t. split; [lia|]. split; [reflexivity|]. split; [reflexivity|].
  assert (Hsorted : nondecreasing_from 1000 [11000; 13000; 23000; 400000])
    by (simpl; lia).
  split; [exact Hsorted|].
  apply (heartbeat_total_bounded SimpleURL.hostname 7 "https://github.com/"
           [11000; 13000; 23000; 400000] 1000 t); [lia|reflexivity|reflexivity|exact Hsorted].
Defined.

Lemma deliver_one (URL_hostname : string → option string) (senderTabId : option Z)
    (m : PageTracker.Message) (t : UsageTracker) :
  deliver URL_hostname senderTabId [m] t = onMessage_from_page URL_hostname senderTabId m t.
Proof.
  unfold deliver. simpl. unfold seq, skip.
  by destruct (onMessage_from_page URL_hostname senderTabId m t).
Qed.

(** X12.  The background script treats every message of a page as a
    heartbeat, whatever its [event]: when a page is hidden and shown
    again, the messages [pageHidden] and [pageVisible] that the content
    script sends make the handler commit the hidden time, capped at
    60000 ms, once it is at least 5000 ms. *)
Theorem hidden_time_is_committed (URL_hostname : string → option string)
    (k : Z) (loc : PageTracker.Location) (p : PageTracker.t)
    (hidden_at h2 h3 shown_at s2 s3 : Z) (t : UsageTracker) :
  k ≠ 0 →
  isDomainExcluded (extractDomain URL_hostname (PageTracker.href loc)) = false →
  5000 <= shown_at - hidden_at →
  let hide := PageTracker.handleVisibilityChange true loc hidden_at h2 h3 p in
  let show := PageTracker.handleVisibilityChange false loc shown_at s2 s3 hide.1 in
  let t1 := (deliver URL_hostname (Some k) hide.2 t).1 in
  commits (deliver URL_hostname (Some k) show.2 t1).2
  = [(extractDomain URL_hostname (PageTracker.href loc),
      Z.min (shown_at - hidden_at) 60000,
      PageTracker.href loc)].
Proof.
  intros Hk Hdom Hgap. cbn zeta.
  unfold PageTracker.handleVisibilityChange. cbn [negb fst snd].
  rewrite !deliver_one.
  unfold onMessage_from_page, PageTracker.sendPageEvent.
  cbn [PageTracker.url PageTracker.timestamp].
  set (url := PageTracker.href loc) in *.
  assert (Hcursor : sessionData (pageEvent URL_hostname (Some k) url hidden_at t).1 !! k
                    = Some (HeartbeatSession.mk hidden_at url)).
  { unfold pageEvent. rewrite Hdom.
    replace (k =? 0) with false by (symmetry; by apply Z.eqb_neq). simpl.
    destruct (sessionData t !! k) as [prev|]; [|simpl; apply lookup_insert_eq].
    destruct (String.eqb (HeartbeatSession.url prev) url); [|simpl; apply lookup_insert_eq].
    destruct (_ >=? 5000); simpl; apply lookup_insert_eq. }
  destruct (pageEvent_same_url URL_hostname k url shown_at hidden_at _ Hk Hdom Hcursor)
    as [_ Hcommit].
  rewrite Hcommit. unfold clamp.
  destruct (Z.ltb_spec (shown_at - hidden_at) 0); [lia|].
  destruct (Z.ltb_spec 60000 (shown_at - hidden_at)).
  - rewrite Z.min_r by lia. reflexivity.
  - rewrite Z.min_l by lia.
    replace (5000 <=? shown_at - hidden_at) with true by (symmetry; by apply Z.leb_le).
    reflexivity.
Qed.

Lemma hidden_time_is_committed_witness :
  let loc := PageTracker.location "https://github.com/" "github.com" in
  let p := PageTracker.mk 0 true 0 in
  7 ≠ 0 ∧
  isDomainExcluded (extractDomain SimpleURL.hostname (PageTracker.href loc)) = false ∧
  5000 <= 40000 - 10000 ∧
  commits
    (deliver SimpleURL.hostname (Some 7)
       (PageTracker.handleVisibilityChange false loc 40000 40000 40000
          (PageTracker.handleVisibilityChange true loc 10000 10000 10000 p).1).2
       (deliver SimpleURL.hostname (Some 7)
          (PageTracker.handleVisibilityChange true loc 10000 10000 10000 p).2
          new_UsageTracker).1).2
  = [("github.com", 30000, "https://github.com/")].
Proof.
  intros loc p. split; [lia|]. split; [reflexivity|]. split; [lia|].
  apply (hidden_time_is_committed SimpleURL.hostname 7 loc p 10000 10000 10000
           40000 40000 40000 new_UsageTracker); [lia|reflexivity|lia].
Defined.

(** ** The two channels together *)

Lemma startTrackingTab_commits (URL_hostname : string → option string)
    (now1 now2 tabId : Z) (url : option string) (t : UsageTracker) :
  commits (startTrackingTab URL_hostname now1 now2 tabId url t).2 = [].
Proof.
  unfold startTrackingTab. destruct url as [url|]; [|done].
  destruct (negb (isTrackingEnabled t) || String.eqb url ""); [done|].
  destruct (isDomainExcluded _); [done|].
  rewrite seq_calls. simpl. unfold updateBadge.
  by destruct (String.eqb (extractDomain URL_hostname url) "").
Qed.

Lemma startTrackingTab_starts (URL_hostname : string → option string)
    (now1 now2 tabId : Z) (url : string) (t : UsageTracker) :
  isTrackingEnabled t = true →
  url ≠ "" →
  isDomainExcluded (extractDomain URL_hostname url) = false →
  JsMap.get tabId
    (activeTabs (startTrackingTab URL_hostname now1 now2 tabId (Some url) t).1)
  = Some (TrackingData.mk tabId url (extractDomain URL_hostname url) now1 now2).
Proof.
  intros Hon Hurl Hdom. unfold startTrackingTab. rewrite Hon, Hdom. simpl.
  apply String.eqb_neq in Hurl. rewrite Hurl.
  rewrite seq_tracker, updateBadge_tracker. simpl. apply JsMap_get_set.
Qed.

(** X13.  The tab-focus channel and the heartbeat channel account for
    the same tab independently.  A tab is activated and tracked, its
    page sends two heartbeats 5 to 60 seconds apart, and the tab is
    closed more than a second after its activation: the time between
    the heartbeats is committed by the heartbeat handler, and the whole
    session, which contains it, is committed again when the tab is
    closed. *)
Theorem both_channels_commit_the_same_interval (URL_hostname : string → option string)
    (k : Z) (url : string) (active : bool) (start1 start2 p0 p1 stop : Z)
    (t : UsageTracker) :
  isTrackingEnabled t = true →
  url ≠ "" →
  k ≠ 0 →
  isDomainExcluded (extractDomain URL_hostname url) = false →
  sessionData t !! k = None →
  5000 <= p1 - p0 <= 60000 →
  1000 < stop - start1 →
  commits (run URL_hostname
             [TabActivatedGot start1 start2 k (Some (Tab.mk k (Some url) active));
              PageEvent (Some k) url p0;
              PageEvent (Some k) url p1;
              TabRemoved stop k] t).2
  = [(extractDomain URL_hostname url, p1 - p0, url);
     (extractDomain URL_hostname url, stop - start1, url)].
Proof.
  intros Hon Hurl Hk Hdom Hnone Hgap Hlong.
  rewrite !run_cons_calls, !commits_app. unfold run at 1. simpl foldl.
  change (handle URL_hostname (TabRemoved stop k)) with (stopTrackingTab stop k).
  change (handle URL_hostname (PageEvent (Some k) url p1))
    with (pageEvent URL_hostname (Some k) url p1).
  change (handle URL_hostname (PageEvent (Some k) url p0))
    with (pageEvent URL_hostname (Some k) url p0).
  change (handle URL_hostname
            (TabActivatedGot start1 start2 k (Some (Tab.mk k (Some url) active))))
    with (handleTabActivated_got URL_hostname start1 start2 k
            (Some (Tab.mk k (Some url) active))).
  assert (Hgot : handleTabActivated_got URL_hostname start1 start2 k
                   (Some (Tab.mk k (Some url) active))
                 = startTrackingTab URL_hostname start1 start2 k (Some url)).
  { unfold handleTabActivated_got. simpl.
    apply String.eqb_neq in Hurl. by rewrite Hurl. }
  rewrite Hgot.
  set (t1 := (startTrackingTab URL_hostname start1 start2 k (Some url) t).1).
  set (t2 := (pageEvent URL_hostname (Some k) url p0 t1).1).
  set (t3 := (pageEvent URL_hostname (Some k) url p1 t2).1).
  assert (Hsession : JsMap.get k (activeTabs t3)
                     = Some (TrackingData.mk k url (extractDomain URL_hostname url)
                                             start1 start2)).
  { subst t3 t2. rewrite !(proj1 (pageEvent_frame _ _ _ _ _)).
    by apply startTrackingTab_starts. }
  assert (Hnone1 : sessionData t1 !! k = None)
    by (subst t1; by rewrite startTrackingTab_sessionData).
  destruct (pageEvent_first_contact URL_hostname k url p0 t1 Hk Hdom Hnone1)
    as [Hstore0 Hcommit0].
  assert (Hcursor : sessionData t2 !! k = Some (HeartbeatSession.mk p0 url))
    by (subst t2; rewrite Hstore0; apply lookup_insert_eq).
  destruct (pageEvent_same_url URL_hostname k url p1 p0 t2 Hk Hdom Hcursor)
    as [_ Hcommit1].
  rewrite startTrackingTab_commits, Hcommit0, Hcommit1.
  rewrite (stopTrackingTab_commits_entry (fun _ => stop) k _ t3 Hsession).
  unfold stop_commit, clamp. simpl.
  destruct (Z.ltb_spec (p1 - p0) 0); [lia|].
  destruct (Z.ltb_spec 60000 (p1 - p0)); [lia|].
  replace (5000 <=? p1 - p0) with true by (symmetry; apply Z.leb_le; lia).
  replace (stop - start1 >? 1000) with true by (symmetry; apply Z.gtb_lt; lia).
  reflexivity.
Qed.

Lemma both_channels_commit_the_same_interval_witness :
  isTrackingEnabled new_UsageTracker = true ∧
  "https://github.com/" ≠ "" ∧
  7 ≠ 0 ∧
  isDomainExcluded (extractDomain SimpleURL.hostname "https://github.com/") = false ∧
  sessionData new_UsageTracker !! 7 = None ∧
  5000 <= 20000 - 10000 <= 60000 ∧
  1000 < 30000 - 0 ∧
  total_committed
    (commits (run SimpleURL.hostname
                [TabActivatedGot 0 0 7 (Some (Tab.mk 7 (Some "https://github.com/") true));
                 PageEvent (Some 7) "https://github.com/" 10000;
                 PageEvent (Some 7) "https://github.com/" 20000;
                 TabRemoved 30000 7] new_UsageTracker).2)
  = 40000.
Proof.
  repeat (split; [done|]).
  rewrite (both_channels_commit_the_same_interval SimpleURL.hostname 7
             "https://github.com/" true 0 0 10000 20000 30000 new_UsageTracker);
    [reflexivity|done|done|lia|reflexivity|reflexivity|lia|lia].
Defined.

(** ** More on the VisitAggregator *)

Lemma visits_key_inj (date1 date2 : string) :
  "visits_" +:+ date1 = "visits_" +:+ date2 → date1 = date2.
Proof. intros H. by injection H. Qed.

Lemma commit_alone_unfold (n1 n2 n3 n4 : Z) (today domain : string) (d : Z) (url : string)
    (st : Storage) :
  inherited domain = false →
  commit_alone n1 n2 n3 n4 today domain d url st
  = set_statistics
      (add_statistics n3 domain d (statistics st))
      (set_visits ("visits_" +:+ today)
         (<[domain := add_to_record d url
                        (default (Daily.mk 0 0 ∅)
                                 (default ∅ (visits st !! ("visits_" +:+ today)) !! domain))]>
            (default ∅ (visits st !! ("visits_" +:+ today)))) st).
Proof.
  intros Hown. unfold commit_alone.
  cbn [schedule foldl step resume fst snd lookup list_lookup insert list_insert
       saveVisitData].
  rewrite add_visit_not_inherited by exact Hown. reflexivity.
Qed.

Lemma commit_alone_thrown (n1 n2 n3 n4 : Z) (today domain : string) (d : Z) (url : string)
    (st : Storage) :
  inherited domain = true →
  getDailyStats today st !! domain = None →
  commit_alone n1 n2 n3 n4 today domain d url st = st.
Proof.
  intros Hinh Hnone. unfold commit_alone, getDailyStats in *.
  cbn [schedule foldl step resume fst snd lookup list_lookup insert list_insert
       saveVisitData].
  rewrite add_visit_inherited by done. reflexivity.
Qed.

Lemma add_url_at (url : string) (d : Z) (urls : gmap string UrlTotal) :
  inherited url = false →
  add_url url d urls !! url = Some (UrlTotal_add (default (Num 0) (urls !! url)) d).
Proof.
  intros Hown. unfold add_url. rewrite Hown.
  destruct (urls !! url) as [[n|]|] eqn:Hurl; simpl; rewrite lookup_insert_eq; [|done|done].
  by destruct (Z.eqb_spec n 0) as [->|_].
Qed.

Lemma add_url_other (url u : string) (d : Z) (urls : gmap string UrlTotal) :
  u ≠ url → add_url url d urls !! u = urls !! u.
Proof.
  intros Hne. unfold add_url.
  destruct (urls !! url) as [v|]; [by rewrite lookup_insert_ne|].
  destruct (inherited url); [|by rewrite lookup_insert_ne].
  destruct (String.eqb url "__proto__"); [done|by rewrite lookup_insert_ne].
Qed.

(** X14.  One completed call of [saveVisitData], for a domain that is
    not the name of an inherited property.  In the day's object the
    record of the domain has its total time raised by the duration, its
    visit count by one and, for a url that is not such a name either,
    the subtotal of the url by the duration (starting from 0 for a new
    domain or url); all other urls of the domain, all other domains of
    the day and all other days read as before.  The statistics record
    has its total time raised by the duration and its visit count by
    one, in total and for the domain, and leaves the other domains as
    they were.  For a domain that is the name of an inherited property
    and has no record in the day's object, the call leaves the storage
    as it was. *)
Theorem commit_alone_effect (n1 n2 n3 n4 : Z) (today domain url : string) (d : Z)
    (st : Storage) :
  let st' := commit_alone n1 n2 n3 n4 today domain d url st in
  let old := default (Daily.mk 0 0 ∅) (getDailyStats today st !! domain) in
  let old_stats := getStatistics n3 st in
  let old_domain := default (DomainStat.mk 0 0) (Statistics.domains old_stats !! domain) in
  (inherited domain = true → getDailyStats today st !! domain = None → st' = st) ∧
  (inherited domain = false →
   (∃ rec, getDailyStats today st' !! domain = Some rec ∧
           Daily.totalTime rec = Daily.totalTime old + d ∧
           Daily.visitCount rec = Daily.visitCount old + 1 ∧
           (inherited url = false →
            Daily.urls rec !! url
            = Some (UrlTotal_add (default (Num 0) (Daily.urls old !! url)) d)) ∧
           ∀ u, u ≠ url → Daily.urls rec !! u = Daily.urls old !! u) ∧
   (∀ other, other ≠ domain →
             getDailyStats today st' !! other = getDailyStats today st !! other) ∧
   (∀ date, date ≠ today → getDailyStats date st' = getDailyStats date st) ∧
   Statistics.totalTime (getStatistics n3 st') = Statistics.totalTime old_stats + d ∧
   Statistics.totalVisits (getStatistics n3 st') = Statistics.totalVisits old_stats + 1 ∧
   Statistics.domains (getStatistics n3 st') !! domain
   = Some (DomainStat.mk (DomainStat.totalTime old_domain + d)
                         (DomainStat.visitCount old_domain + 1)) ∧
   (∀ other, other ≠ domain →
             Statistics.domains (getStatistics n3 st') !! other
             = Statistics.domains old_stats !! other)).
Proof.
  cbn zeta. split; [apply commit_alone_thrown|]. intros Hown.
  rewrite (commit_alone_unfold _ _ _ _ _ _ _ _ _ Hown). unfold getDailyStats, getStatistics.
  cbn [visits statistics set_statistics set_visits default from_option id].
  rewrite lookup_insert_eq. cbn [default from_option id].
  split; [|split; [|split; [|repeat split]]].
  - eexists. split; [apply lookup_insert_eq|]. cbn [add_to_record Daily.totalTime
      Daily.visitCount Daily.urls]. split; [done|]. split; [done|]. split.
    + apply add_url_at.
    + intros u Hu. by apply add_url_other.
  - intros other Hother. by rewrite lookup_insert_ne.
  - intros date Hdate. rewrite lookup_insert_ne; [done|].
    intros Heq. apply Hdate. symmetry. by apply visits_key_inj.
  - unfold add_statistics. rewrite Hown. simpl.
    destruct (Statistics.domains (default (Statistics.mk 0 0 ∅ n3) (statistics st)) !! domain);
      simpl; apply lookup_insert_eq.
  - intros other Hother. unfold add_statistics. rewrite Hown. simpl.
    destruct (Statistics.domains (default (Statistics.mk 0 0 ∅ n3) (statistics st)) !! domain);
      simpl; by rewrite lookup_insert_ne.
Qed.

Lemma commit_alone_effect_witness :
  let st := {| visits := ∅; statistics := None |} in
  (inherited "constructor" = true ∧
   getDailyStats "2024-03-01" st !! "constructor" = None ∧
   commit_alone 1 2 3 4 "2024-03-01" "constructor" 125000 "http://constructor/" st = st) ∧
  (inherited "google.com" = false ∧
   inherited "https://google.com/" = false ∧
   ∃ rec, getDailyStats "2024-03-01"
            (commit_alone 1 2 3 4 "2024-03-01" "google.com" 125000 "https://google.com/" st)
          !! "google.com" = Some rec ∧
          Daily.totalTime rec = 125000 ∧
          Daily.urls rec !! "https://google.com/" = Some (Num 125000)).
Proof.
  intros st. split.
  - split; [reflexivity|]. split; [reflexivity|].
    exact (proj1 (commit_alone_effect 1 2 3 4 "2024-03-01" "constructor"
                    "http://constructor/" 125000 st) eq_refl eq_refl).
  - split; [reflexivity|]. split; [reflexivity|].
    destruct (proj2 (commit_alone_effect 1 2 3 4 "2024-03-01" "google.com"
                       "https://google.com/" 125000 st) eq_refl)
      as ((rec & Hrec & Htime & _ & Hurl & _) & _).
    exists rec. split; [exact Hrec|]. split; [exact Htime|]. exact (Hurl eq_refl).
Defined.

Lemma commit_alone_daily (n1 n2 n3 n4 : Z) (today domain url D : string) (d : Z)
    (st : Storage) :
  inherited domain = false →
  let st' := commit_alone n1 n2 n3 n4 today domain d url st in
  let key := "visits_" +:+ today in
  daily_totalTime st' key D
  = daily_totalTime st key D + (if String.eqb domain D then d else 0) ∧
  daily_visitCount st' key D
  = daily_visitCount st key D + (if String.eqb domain D then 1 else 0).
Proof.
  intros Hown. cbn zeta. rewrite (commit_alone_unfold _ _ _ _ _ _ _ _ _ Hown).
  unfold daily_totalTime, daily_visitCount, set_statistics, set_visits. simpl.
  rewrite lookup_insert_eq. simpl.
  destruct (String.eqb_spec domain D) as [->|Hne].
  - rewrite lookup_insert_eq. simpl.
    by destruct (default ∅ (visits st !! ("visits_" +:+ today)) !! D).
  - rewrite lookup_insert_ne by done. split; lia.
Qed.

Lemma commit_alone_stats (n1 n2 n3 n4 : Z) (today domain url : string) (d : Z)
    (st : Storage) :
  inherited domain = false →
  let st' := commit_alone n1 n2 n3 n4 today domain d url st in
  stats_totalTime st' = stats_totalTime st + d ∧
  stats_totalVisits st' = stats_totalVisits st + 1.
Proof.
  intros Hown. cbn zeta. rewrite (commit_alone_unfold _ _ _ _ _ _ _ _ _ Hown).
  unfold stats_totalTime, stats_totalVisits, set_statistics, set_visits, add_statistics.
  simpl. by destruct (statistics st).
Qed.

(** X15.  Calls of [saveVisitData] that follow one another add up.
    After any list of visits of one day, each committed after the
    completion of the one before and none for a domain that is the name
    of an inherited property, the day's record of a domain has gained
    the sum of the durations of that domain's visits and one visit for
    each of them, and the statistics record has gained the sum of all
    the durations and one visit for each. *)
Theorem commit_all_adds_up (today D : string) (cs : list Commit) (st : Storage) :
  Forall (fun c => inherited (c_domain c) = false) cs →
  let st' := commit_all today cs st in
  let key := "visits_" +:+ today in
  daily_totalTime st' key D = daily_totalTime st key D + total_duration (for_domain D cs) ∧
  daily_visitCount st' key D = daily_visitCount st key D + Z.of_nat (length (for_domain D cs)) ∧
  stats_totalTime st' = stats_totalTime st + total_duration cs ∧
  stats_totalVisits st' = stats_totalVisits st + Z.of_nat (length cs).
Proof.
  intros Hown. cbn zeta. revert st.
  induction Hown as [|c cs Hc Hcs IH]; intros st.
  - simpl. repeat split; lia.
  - change (commit_all today (c :: cs) st)
      with (commit_all today cs
              (commit_alone (c_clock c).1.1.1 (c_clock c).1.1.2 (c_clock c).1.2 (c_clock c).2
                            today (c_domain c) (c_duration c) (c_url c) st)).
    destruct (IH (commit_alone (c_clock c).1.1.1 (c_clock c).1.1.2 (c_clock c).1.2
                               (c_clock c).2 today (c_domain c) (c_duration c) (c_url c) st))
      as (-> & -> & -> & ->).
    destruct (commit_alone_daily (c_clock c).1.1.1 (c_clock c).1.1.2 (c_clock c).1.2
                (c_clock c).2 today (c_domain c) (c_url c) D (c_duration c) st Hc) as [-> ->].
    destruct (commit_alone_stats (c_clock c).1.1.1 (c_clock c).1.1.2 (c_clock c).1.2
                (c_clock c).2 today (c_domain c) (c_url c) (c_duration c) st Hc) as [-> ->].
    unfold for_domain. simpl.
    destruct (String.eqb (c_domain c) D); simpl; repeat split; lia.
Qed.

Lemma commit_all_adds_up_witness :
  let st := {| visits := ∅; statistics := None |} in
  let cs := [ {| c_domain := "google.com"; c_duration := 125000;
                 c_url := "https://google.com/a"; c_clock := (1, 2, 3, 4) |};
              {| c_domain := "github.com"; c_duration := 60000;
                 c_url := "https://github.com/"; c_clock := (5, 6, 7, 8) |};
              {| c_domain := "google.com"; c_duration := 200000;
                 c_url := "https://google.com/b"; c_clock := (9, 10, 11, 12) |} ] in
  Forall (fun c => inherited (c_domain c) = false) cs ∧
  daily_totalTime (commit_all "2024-03-01" cs st) "visits_2024-03-01" "google.com" = 325000 ∧
  stats_totalTime (commit_all "2024-03-01" cs st) = 385000.
Proof.
  intros st cs.
  assert (Hown : Forall (fun c => inherited (c_domain c) = false) cs)
    by (repeat constructor).
  split; [exact Hown|].
  destruct (commit_all_adds_up "2024-03-01" "google.com" cs st Hown) as (Hday & _ & Hstats & _).
  split; [exact Hday | exact Hstats].
Defined.

(** ** Sums over the stored objects *)

Lemma sum_insert (m : gmap string UrlTotal) (i : string) (x : UrlTotal) :
  map_fold (fun _ v acc => UrlTotal_number v + acc) 0 (<[i := x]> m)
  = UrlTotal_number x + map_fold (fun _ v acc => UrlTotal_number v + acc) 0 m
    - UrlTotal_number (default (Num 0) (m !! i)).
Proof.
  destruct (m !! i) as [v|] eqn:Hi; simpl.
  - rewrite <- (insert_delete_eq m i x).
    rewrite (map_fold_insert_L (fun _ v acc => UrlTotal_number v + acc) 0 i x (delete i m));
      [|intros; lia|apply lookup_delete_eq].
    rewrite <- (insert_delete_id m i v Hi) at 2.
    rewrite (map_fold_insert_L (fun _ v acc => UrlTotal_number v + acc) 0 i v (delete i m));
      [|intros; lia|apply lookup_delete_eq].
    lia.
  - rewrite (map_fold_insert_L (fun _ v acc => UrlTotal_number v + acc) 0 i x m);
      [lia|intros; lia|done].
Qed.

Lemma add_to_record_keeps_subtotals (url : string) (d : Z) (rec : Daily.t) :
  inherited url = false →
  subtotals_add_up rec → subtotals_add_up (add_to_record d url rec).
Proof.
  intros Hown [Hnum Hsum]. unfold subtotals_add_up, add_to_record, sum_urls.
  cbn [Daily.urls Daily.totalTime]. split.
  - intros u v. destruct (decide (u = url)) as [->|Hne].
    + rewrite (add_url_at _ _ _ Hown). intros [= <-].
      destruct (Daily.urls rec !! url) as [[n|]|] eqn:Hurl; simpl; try done.
      by specialize (Hnum url Text Hurl).
    + rewrite (add_url_other _ _ _ _ Hne). apply Hnum.
  - unfold add_url. rewrite Hown. unfold sum_urls in Hsum.
    destruct (Daily.urls rec !! url) as [[n|]|] eqn:Hurl.
    + rewrite sum_insert, Hurl. simpl. destruct (Z.eqb_spec n 0) as [->|_]; simpl; lia.
    + by specialize (Hnum url Text Hurl).
    + rewrite sum_insert, Hurl. simpl. lia.
Qed.

Lemma subtotals_add_up_empty : subtotals_add_up (Daily.mk 0 0 ∅).
Proof.
  split.
  - intros u v H. simpl in H. by rewrite lookup_empty in H.
  - unfold sum_urls. simpl. by rewrite map_fold_empty.
Qed.

(** X16.  [saveVisitData] keeps the books of a day consistent: if in
    every record of the day the per-url subtotals are numbers and the
    total time is their sum, the same holds after a completed call for
    a url that is not the name of an inherited property. *)
Theorem commit_alone_keeps_subtotals (n1 n2 n3 n4 : Z) (today domain url : string) (d : Z)
    (st : Storage) :
  inherited url = false →
  (∀ D rec, getDailyStats today st !! D = Some rec → subtotals_add_up rec) →
  ∀ D rec,
    getDailyStats today (commit_alone n1 n2 n3 n4 today domain d url st) !! D = Some rec →
    subtotals_add_up rec.
Proof.
  intros Hurl Hinv D rec. unfold commit_alone.
  cbn [schedule foldl step resume fst snd lookup list_lookup insert list_insert
       saveVisitData].
  unfold getDailyStats in Hinv.
  set (day := default ∅ (visits st !! ("visits_" +:+ today))) in *.
  assert (Hnew : ∀ old, (∀ rec0, day !! domain = Some rec0 → old = rec0) →
                        (day !! domain = None → old = Daily.mk 0 0 ∅) →
                        subtotals_add_up (add_to_record d url old)).
  { intros old Hsome Hnone. apply add_to_record_keeps_subtotals; [exact Hurl|].
    destruct (day !! domain) as [rec0|] eqn:Hday.
    - rewrite (Hsome rec0 eq_refl). by apply (Hinv domain).
    - rewrite (Hnone eq_refl). apply subtotals_add_up_empty. }
  unfold add_visit. destruct (day !! domain) as [rec0|] eqn:Hday.
  - cbn [schedule foldl step resume fst snd lookup list_lookup insert list_insert].
    unfold getDailyStats. cbn [visits set_statistics set_visits]. rewrite lookup_insert_eq.
    cbn [default from_option id]. destruct (decide (D = domain)) as [->|Hne].
    + rewrite lookup_insert_eq. intros [= <-]. apply Hnew; [by intros ? [= ->]|done].
    + rewrite lookup_insert_ne by done. apply Hinv.
  - destruct (inherited domain).
    + cbn [schedule foldl step resume fst snd lookup list_lookup insert list_insert].
      unfold getDailyStats. fold day. apply Hinv.
    + cbn [schedule foldl step resume fst snd lookup list_lookup insert list_insert].
      unfold getDailyStats. cbn [visits set_statistics set_visits]. rewrite lookup_insert_eq.
      cbn [default from_option id]. destruct (decide (D = domain)) as [->|Hne].
      * rewrite lookup_insert_eq. intros [= <-]. apply Hnew; [done|done].
      * rewrite lookup_insert_ne by done. apply Hinv.
Qed.

Lemma commit_alone_keeps_subtotals_witness :
  let st := {| visits := ∅; statistics := None |} in
  let st' := commit_alone 1 2 3 4 "2024-03-01" "google.com" 125000 "https://google.com/" st in
  inherited "https://google.com/" = false ∧
  (∀ D rec, getDailyStats "2024-03-01" st !! D = Some rec → subtotals_add_up rec) ∧
  (∀ D rec, getDailyStats "2024-03-01" st' !! D = Some rec → subtotals_add_up rec).
Proof.
  intros st st'.
  assert (Hempty : ∀ D rec, getDailyStats "2024-03-01" st !! D = Some rec →
                            subtotals_add_up rec).
  { intros D rec H. unfold getDailyStats, st in H. simpl in H.
    rewrite lookup_empty in H. simpl in H. rewrite lookup_empty in H. discriminate H. }
  split; [reflexivity|]. split; [exact Hempty|].
  exact (commit_alone_keeps_subtotals 1 2 3 4 "2024-03-01" "google.com" "https://google.com/"
           125000 st eq_refl Hempty).
Defined.

(** X17.  The day's object is read and written as a whole, so two calls
    of [saveVisitData] in flight together interfere even when they are
    for different domains.  When the two calls proceed in lockstep, each
    storage operation of the first followed by the same operation of the
    second, the record of the first call's domain is afterwards as if
    that call had never been made, and the statistics record has gained
    only the second duration.  Neither domain is the name of an
    inherited property. *)
Theorem overlapping_commits_other_domain_lost (st : Storage)
    (today domain1 domain2 url1 url2 : string) (d1 d2 : Z)
    (n1 n2 n3 n4 n5 n6 n7 n8 : Z) :
  domain1 ≠ domain2 →
  inherited domain1 = false →
  inherited domain2 = false →
  let key := "visits_" +:+ today in
  let final :=
    schedule ([saveVisitData today domain1 d1 url1; saveVisitData today domain2 d2 url2], st)
             [(0%nat, n1); (1%nat, n2); (0%nat, n3); (1%nat, n4);
              (0%nat, n5); (1%nat, n6); (0%nat, n7); (1%nat, n8)] in
  all_finished final = true ∧
  getDailyStats today final.2 !! domain1 = getDailyStats today st !! domain1 ∧
  daily_totalTime final.2 key domain2 = daily_totalTime st key domain2 + d2 ∧
  stats_totalTime final.2 = stats_totalTime st + d2.
Proof.
  intros Hne Hown1 Hown2 key final. subst final.
  cbn [schedule foldl step resume fst snd lookup list_lookup insert list_insert
       saveVisitData].
  rewrite (add_visit_not_inherited domain1 url1 d1) by exact Hown1.
  cbn [schedule foldl step resume fst snd lookup list_lookup insert list_insert
       saveVisitData].
  rewrite (add_visit_not_inherited domain2 url2 d2) by exact Hown2.
  cbn [schedule foldl step resume fst snd lookup list_lookup insert list_insert].
  fold key. split; [reflexivity|]. split; [|split].
  - unfold getDailyStats. fold key.
    cbn [visits statistics set_statistics set_visits].
    rewrite !lookup_insert_eq. cbn [default from_option id].
    by rewrite lookup_insert_ne.
  - unfold daily_totalTime. cbn [visits statistics set_statistics set_visits].
    rewrite !lookup_insert_eq. cbn [default from_option id].
    rewrite lookup_insert_eq. simpl.
    by destruct (default ∅ (visits st !! key) !! domain2).
  - unfold stats_totalTime. cbn [visits statistics set_statistics set_visits].
    unfold add_statistics. simpl. by destruct (statistics st).
Qed.

Lemma overlapping_commits_other_domain_lost_witness :
  let st := {| visits := ∅; statistics := None |} in
  let final :=
    schedule ([saveVisitData "2024-03-01" "github.com" 125000 "https://github.com/";
               saveVisitData "2024-03-01" "google.com" 200000 "https://google.com/"], st)
             [(0%nat, 1); (1%nat, 2); (0%nat, 3); (1%nat, 4);
              (0%nat, 5); (1%nat, 6); (0%nat, 7); (1%nat, 8)] in
  "github.com" ≠ "google.com" ∧
  inherited "github.com" = false ∧
  inherited "google.com" = false ∧
  getDailyStats "2024-03-01" final.2 !! "github.com" = None.
Proof.
  intros st final. split; [discriminate|]. split; [reflexivity|]. split; [reflexivity|].
  destruct (overlapping_commits_other_domain_lost st "2024-03-01" "github.com" "google.com"
              "https://github.com/" "https://google.com/" 125000 200000 1 2 3 4 5 6 7 8)
    as (_ & H & _); [discriminate|reflexivity|reflexivity|].
  unfold final. rewrite H. reflexivity.
Defined.

(** ** More on the FocusTimerEngine *)

(** X18.  While the timer is running the derived remaining time is
    never negative, never more than the stored remaining time (or 0),
    and never grows as the clock advances. *)
Theorem getPomodoroRemaining_monotone (now now' : Z) (s : Pomodoro) :
  isRunning s = Some true →
  now <= now' →
  ∃ r r', getPomodoroRemaining now s = Some r ∧
          getPomodoroRemaining now' s = Some r' ∧
          0 <= r' <= r ∧
          r <= Z.max 0 (JsNumber.or (remainingMs s) 0).
Proof.
  intros Hrun Hle. unfold getPomodoroRemaining. rewrite Hrun. simpl.
  eexists _, _. split; [reflexivity|]. split; [reflexivity|].
  unfold JsNumber.or. destruct (lastUpdated s) as [u|].
  - destruct (Z.eqb_spec u 0); lia.
  - lia.
Qed.

Lemma getPomodoroRemaining_monotone_witness :
  let s := {| mode := Some work; isRunning := Some true; remainingMs := Some 1500000;
              workMs := Some 1500000; breakMs := Some 300000;
              longBreakMs := Some 900000; sessionsBeforeLong := Some 4;
              sessionsCompleted := Some 0; lastUpdated := Some 1700000000000 |} in
  isRunning s = Some true ∧ 1700000060000 <= 1700002000000 ∧
  ∃ r r', getPomodoroRemaining 1700000060000 s = Some r ∧
          getPomodoroRemaining 1700002000000 s = Some r' ∧
          0 <= r' <= r ∧ r <= Z.max 0 (JsNumber.or (remainingMs s) 0).
Proof.
  intros s. split; [reflexivity|]. split; [lia|].
  apply (getPomodoroRemaining_monotone 1700000060000 1700002000000 s); [reflexivity|lia].
Defined.

(** X19.  Pausing freezes the timer and starting it again resumes it:
    after [pomodoro:pause] the derived remaining time is the stored
    one at every later reading of the clock, and after a following
    [pomodoro:start] (no settings, no override, at a nonzero reading
    [q1]) the timer counts down from the remaining time it had when it
    was paused, the alarm being armed accordingly; the time spent
    paused is not counted. *)
Theorem pause_then_start_resumes (p1 p2 q1 q2 now : Z) (s : Pomodoro) (r : Z) :
  getPomodoroRemaining p1 s = Some r →
  q1 ≠ 0 →
  q1 <= now →
  ∃ paused resumed,
    stored (pomodoro_pause p1 p2 (Some s)) = Some paused ∧
    (∀ later, getPomodoroRemaining later paused = Some r) ∧
    stored (pomodoro_start q1 q2 empty_object None (Some paused)) = Some resumed ∧
    getPomodoroRemaining now resumed = Some (Z.max 0 (r - (now - q1))) ∧
    calls (pomodoro_start q1 q2 empty_object None (Some paused))
    = [alarms_clear "pomodoro-end"; alarms_create "pomodoro-end" (Some (q2 + r));
       sendResponse_success].
Proof.
  intros Hr Hq Hle. eexists _, _. split; [reflexivity|]. split; [|split; [reflexivity|]].
  - intros later. unfold getPomodoroRemaining. simpl. exact Hr.
  - simpl. rewrite Hr. simpl. split; [|reflexivity].
    unfold getPomodoroRemaining. simpl.
    destruct (Z.eqb_spec q1 0); [done|]. destruct (Z.eqb_spec r 0) as [->|_]; f_equal; lia.
Qed.

Lemma pause_then_start_resumes_witness :
  let s := {| mode := Some work; isRunning := Some true; remainingMs := Some 1500000;
              workMs := Some 1500000; breakMs := Some 300000;
              longBreakMs := Some 900000; sessionsBeforeLong := Some 4;
              sessionsCompleted := Some 0; lastUpdated := Some 1000000 |} in
  getPomodoroRemaining 1600000 s = Some 900000 ∧ 5000000 ≠ 0 ∧ 5000000 <= 5100000 ∧
  ∃ paused resumed,
    stored (pomodoro_pause 1600000 1600000 (Some s)) = Some paused ∧
    stored (pomodoro_start 5000000 5000000 empty_object None (Some paused)) = Some resumed ∧
    getPomodoroRemaining 5100000 resumed = Some 800000.
Proof.
  intros s. split; [reflexivity|]. split; [lia|]. split; [lia|].
  destruct (pause_then_start_resumes 1600000 1600000 5000000 5000000 5100000 s 900000)
    as (paused & resumed & Hp & _ & Hs & Hget & _); [reflexivity|lia|lia|].
  exists paused, resumed. split; [exact Hp|]. split; [exact Hs|]. exact Hget.
Defined.

(** X20.  Starting the timer with [R] ms on the clock (the override of
    the request, or else the stored remaining time) at a nonzero
    reading [now1]: the stored state is running, the alarm is cleared
    and armed again at [now2 + R], and after [T >= 0] ms the derived
    remaining time is [R - T], or 0 once [T] reaches [R]. *)
Theorem pomodoro_start_counts_down (now1 now2 T : Z) (settings : Pomodoro)
    (remainingOverride : option Z) (s : Pomodoro) (R : Z) :
  over (remainingMs (spread s settings)) remainingOverride = Some R →
  now1 ≠ 0 →
  0 <= T →
  ∃ next,
    stored (pomodoro_start now1 now2 settings remainingOverride (Some s)) = Some next ∧
    isRunning next = Some true ∧
    remainingMs next = Some R ∧
    getPomodoroRemaining (now1 + T) next = Some (if T <? R then R - T else 0) ∧
    calls (pomodoro_start now1 now2 settings remainingOverride (Some s))
    = [alarms_clear "pomodoro-end"; alarms_create "pomodoro-end" (Some (now2 + R));
       sendResponse_success].
Proof.
  intros HR Hnow HT. unfold pomodoro_start. cbn zeta.
  change (default empty_object (Some s)) with s.
  eexists. split; [reflexivity|]. cbn [isRunning remainingMs calls fmap option_fmap option_map].
  rewrite HR. split; [reflexivity|]. split; [reflexivity|]. split; [|reflexivity].
  unfold getPomodoroRemaining. simpl.
  destruct (Z.eqb_spec now1 0); [done|].
  destruct (Z.ltb_spec T R); destruct (Z.eqb_spec R 0); f_equal; lia.
Qed.

Lemma pomodoro_start_counts_down_witness :
  let s := {| mode := Some work; isRunning := Some false; remainingMs := Some 1500000;
              workMs := Some 1500000; breakMs := Some 300000;
              longBreakMs := Some 900000; sessionsBeforeLong := Some 4;
              sessionsCompleted := Some 0; lastUpdated := Some 1000 |} in
  over (remainingMs (spread s empty_object)) None = Some 1500000 ∧
  2000 ≠ 0 ∧ 0 <= 600000 ∧
  ∃ next,
    stored (pomodoro_start 2000 2001 empty_object None (Some s)) = Some next ∧
    getPomodoroRemaining (2000 + 600000) next = Some 900000.
Proof.
  intros s. split; [reflexivity|]. split; [lia|]. split; [lia|].
  destruct (pomodoro_start_counts_down 2000 2001 600000 empty_object None s 1500000)
    as (next & Hst & _ & _ & Hget & _); [reflexivity|lia|lia|].
  exists next. split; [exact Hst|]. exact Hget.
Defined.

Lemma JsNumber_or_same (c : Z) : JsNumber.or (Some c) 0 = c.
Proof. simpl. by destruct (Z.eqb_spec c 0). Qed.

Lemma expire_one_cycle (a1 a2 b1 b2 : Z) (s : Pomodoro) (c : Z) :
  mode s = Some work →
  sessionsCompleted s = Some c →
  ∃ s', stored (onAlarm_pomodoro_end b1 b2 (stored (onAlarm_pomodoro_end a1 a2 (Some s))))
        = Some s' ∧
        mode s' = Some work ∧
        sessionsCompleted s' = Some (c + 1) ∧
        same_configuration s s' ∧
        isRunning s' = Some true ∧
        remainingMs s' = Some (JsNumber.or (workMs s) 1500000).
Proof.
  intros Hmode Hc. unfold onAlarm_pomodoro_end. simpl. rewrite Hmode, Hc. simpl.
  eexists. split; [reflexivity|]. simpl. unfold same_configuration. simpl.
  repeat split. f_equal. destruct (Z.eqb_spec c 0); lia.
Qed.

(** X21.  Work and break alternate.  After any number [n] of full
    cycles (a work segment expires, then the break after it), the
    timer is in work mode again with [n] more sessions completed and
    its configuration untouched; after at least one cycle it is running
    with the configured work duration (1500000 ms if that is zero or
    absent) on the clock. *)
Theorem expire_cycles_return_to_work (clock : list ((Z * Z) * (Z * Z))) (s : Pomodoro)
    (c : Z) :
  mode s = Some work →
  sessionsCompleted s = Some c →
  ∃ s', expire_cycles clock (Some s) = Some s' ∧
        mode s' = Some work ∧
        sessionsCompleted s' = Some (c + Z.of_nat (length clock)) ∧
        same_configuration s s' ∧
        (clock ≠ [] →
         isRunning s' = Some true ∧
         remainingMs s' = Some (JsNumber.or (workMs s) 1500000)).
Proof.
  revert s c. induction clock as [|x clock IH]; intros s c Hmode Hc.
  - exists s. simpl. split; [reflexivity|]. split; [exact Hmode|].
    split; [rewrite Hc; f_equal; lia|]. split; [by repeat split|done].
  - destruct (expire_one_cycle x.1.1 x.1.2 x.2.1 x.2.2 s c Hmode Hc)
      as (s1 & Hs1 & Hm1 & Hc1 & Hcfg1 & Hrun1 & Hrem1).
    destruct (IH s1 (c + 1) Hm1 Hc1) as (s' & Hs' & Hm' & Hc' & Hcfg' & Hlast).
    exists s'. split.
    + change (expire_cycles (x :: clock) (Some s))
        with (expire_cycles clock
                (stored (onAlarm_pomodoro_end x.2.1 x.2.2
                           (stored (onAlarm_pomodoro_end x.1.1 x.1.2 (Some s)))))).
      by rewrite Hs1.
    + split; [exact Hm'|]. split.
      * rewrite Hc'. f_equal. simpl length. lia.
      * destruct Hcfg1 as (Hw1 & Hb1 & Hl1 & Hn1). destruct Hcfg' as (Hw' & Hb' & Hl' & Hn').
        split; [unfold same_configuration; by rewrite Hw', Hb', Hl', Hn'|].
        intros _. destruct clock as [|y clock].
        -- simpl in Hs'. injection Hs' as <-. by split.
        -- destruct Hlast as [Hrun Hrem]; [done|]. split; [exact Hrun|].
           by rewrite Hrem, Hw1.
Qed.

Lemma expire_cycles_return_to_work_witness :
  let s := {| mode := Some work; isRunning := Some true; remainingMs := Some 1500000;
              workMs := Some 3000000; breakMs := Some 300000;
              longBreakMs := Some 900000; sessionsBeforeLong := Some 4;
              sessionsCompleted := Some 2; lastUpdated := Some 1000 |} in
  mode s = Some work ∧ sessionsCompleted s = Some 2 ∧
  ∃ s', expire_cycles [((10, 11), (20, 21)); ((30, 31), (40, 41))] (Some s) = Some s' ∧
        sessionsCompleted s' = Some 4 ∧
        remainingMs s' = Some 3000000.
Proof.
  intros s. split; [reflexivity|]. split; [reflexivity|].
  destruct (expire_cycles_return_to_work [((10, 11), (20, 21)); ((30, 31), (40, 41))] s 2)
    as (s' & Hs' & _ & Hc & _ & Hlast); [reflexivity|reflexivity|].
  exists s'. split; [exact Hs'|]. split; [exact Hc|].
  destruct Hlast as [_ Hrem]; [discriminate|]. exact Hrem.
Defined.

(** X22.  A work duration entered in the popup does not reach the
    countdown that is started with it.  After [pomodoro:reset], the
    popup's start (its settings stored with [pomodoro:updateSettings],
    then [pomodoro:start]) stores the entered work duration as
    [workMs] and yet counts down from the 25 minutes that [reset] left
    on the clock. *)
Theorem popup_start_after_reset_counts_25_minutes (now q1 q2 : Z)
    (workInput breakInput longBreakInput sessionsInput : option Z)
    (res : option Pomodoro) :
  ∃ next,
    popup_pomodoroStart q1 q2
      (pomodoroStart_settings workInput breakInput longBreakInput sessionsInput)
      (stored (pomodoro_reset now res))
    = Some next ∧
    isRunning next = Some true ∧
    workMs next = Some (JsNumber.or workInput 25 * 60000) ∧
    remainingMs next = Some 1500000.
Proof. eexists. split; [reflexivity|]. by repeat split. Qed.

(** X23.  Settings built by the popup are never zero, so with them the
    alarm handler does not fall back on its defaults: once they are
    stored, an expiring break is followed by a work segment of exactly
    the entered work duration, and an expiring work segment by a break
    of exactly the entered long or short break duration, the long one
    when the incremented count is divisible by the entered number of
    sessions.  (An input that does not parse, or 0, counts as 25, 5, 15
    minutes and 4 sessions.) *)
Theorem popup_settings_are_used_as_entered (now1 now2 : Z)
    (workInput breakInput longBreakInput sessionsInput : option Z)
    (s : Pomodoro) :
  let wd := JsNumber.or workInput 25 in
  let bd := JsNumber.or breakInput 5 in
  let lbd := JsNumber.or longBreakInput 15 in
  let sbl := JsNumber.or sessionsInput 4 in
  ∃ cfg next,
    stored (pomodoro_updateSettings
              (pomodoroStart_settings workInput breakInput longBreakInput sessionsInput)
              (Some s)) = Some cfg ∧
    stored (onAlarm_pomodoro_end now1 now2 (Some cfg)) = Some next ∧
    (mode s = Some break → remainingMs next = Some (wd * 60000)) ∧
    (mode s = Some work →
     let completed := JsNumber.or (sessionsCompleted s) 0 + 1 in
     ((sbl | completed) → remainingMs next = Some (lbd * 60000)) ∧
     (¬ (sbl | completed) → remainingMs next = Some (bd * 60000))).
Proof.
  cbn zeta.
  assert (Hwd : JsNumber.or workInput 25 * 60000 ≠ 0)
    by (pose proof (JsNumber_or_nonzero workInput 25 ltac:(done)); lia).
  assert (Hbd : JsNumber.or breakInput 5 * 60000 ≠ 0)
    by (pose proof (JsNumber_or_nonzero breakInput 5 ltac:(done)); lia).
  assert (Hlbd : JsNumber.or longBreakInput 15 * 60000 ≠ 0)
    by (pose proof (JsNumber_or_nonzero longBreakInput 15 ltac:(done)); lia).
  pose proof (JsNumber_or_nonzero sessionsInput 4 ltac:(done)) as Hsbl.
  eexists _, _. split; [reflexivity|]. split; [reflexivity|].
  unfold onAlarm_pomodoro_end, pomodoroStart_settings. cbn [default from_option id].
  cbn [spread mode over sessionsCompleted sessionsBeforeLong workMs breakMs longBreakMs].
  rewrite !JsNumber_or_present by done.
  split.
  - intros Hmode. rewrite Hmode. reflexivity.
  - intros Hmode. rewrite Hmode. cbn [is_work remainingMs stored]. split.
    + intros Hdiv. apply (Z.rem_divide _ _ Hsbl) in Hdiv. by rewrite Hdiv.
    + intros Hndiv.
      destruct (Z.eqb_spec (Z.rem (JsNumber.or (sessionsCompleted s) 0 + 1)
                                  (JsNumber.or sessionsInput 4)) 0) as [Hz|_];
        [|reflexivity].
      exfalso. apply Hndiv. by apply (Z.rem_divide _ _ Hsbl).
Qed.

Lemma popup_settings_are_used_as_entered_witness :
  let s := {| mode := Some break; isRunning := Some true; remainingMs := Some 300000;
              workMs := Some 1500000; breakMs := Some 300000;
              longBreakMs := Some 900000; sessionsBeforeLong := Some 4;
              sessionsCompleted := Some 1; lastUpdated := Some 1000 |} in
  mode s = Some break ∧
  ∃ cfg next,
    stored (pomodoro_updateSettings
              (pomodoroStart_settings (Some 50) (Some 10) None (Some 0)) (Some s))
    = Some cfg ∧
    stored (onAlarm_pomodoro_end 2000 2001 (Some cfg)) = Some next ∧
    remainingMs next = Some 3000000.
Proof.
  intros s. split; [reflexivity|].
  destruct (popup_settings_are_used_as_entered 2000 2001 (Some 50) (Some 10) None (Some 0) s)
    as (cfg & next & Hcfg & Hnext & Hbreak & _).
  exists cfg, next. split; [exact Hcfg|]. split; [exact Hnext|].
  exact (Hbreak eq_refl).
Defined.

(** ** The task list *)

Lemma tasks_toggle_twice_list (id : string) (tasks : list Task.t) :
  tasks_toggle id (Some (tasks_toggle id (Some tasks))) = tasks.
Proof.
  unfold tasks_toggle, tasks_or_empty. simpl.
  induction tasks as [|[i x d c due] tasks IH]; simpl; [done|].
  rewrite IH. destruct (String.eqb i id) eqn:Hi; simpl; rewrite Hi; [|done].
  by rewrite negb_involutive.
Qed.

(** X24.  Toggling a task marks it done or not done and nothing else:
    every task with the given id has its [done] flag negated, every
    other task keeps it; the list keeps its order, ids, texts, creation
    dates and due dates; every task with another id is untouched; and
    toggling the same id again restores the list exactly. *)
Theorem tasks_toggle_involution (id : string) (tasks : list Task.t) :
  tasks_toggle id (Some (tasks_toggle id (Some tasks))) = tasks ∧
  List.map Task.done (tasks_toggle id (Some tasks))
  = List.map (fun t => if String.eqb (Task.id t) id then negb (Task.done t) else Task.done t)
             tasks ∧
  List.map Task.id (tasks_toggle id (Some tasks)) = List.map Task.id tasks ∧
  List.map Task.text (tasks_toggle id (Some tasks)) = List.map Task.text tasks ∧
  List.map Task.createdAt (tasks_toggle id (Some tasks)) = List.map Task.createdAt tasks ∧
  List.map Task.dueAt (tasks_toggle id (Some tasks)) = List.map Task.dueAt tasks ∧
  List.filter (fun t => negb (String.eqb (Task.id t) id)) (tasks_toggle id (Some tasks))
  = List.filter (fun t => negb (String.eqb (Task.id t) id)) tasks.
Proof.
  split; [apply tasks_toggle_twice_list|].
  unfold tasks_toggle, tasks_or_empty. simpl.
  induction tasks as [|t tasks (IH0 & IH1 & IH2 & IH3 & IH4 & IH5)]; simpl; [done|].
  rewrite IH0, IH1, IH2, IH3, IH4.
  destruct (String.eqb (Task.id t) id) eqn:Hi; simpl; rewrite Hi; simpl.
  - by rewrite IH5.
  - by rewrite IH5.
Qed.

(** X25.  Deleting by id removes every task with that id and keeps the
    others in their order; a task just added sits at the head of the
    list, not done, and deleting it again restores the list as it was,
    provided no older task carries the same id. *)
Theorem tasks_add_then_delete (now1 now2 : Z) (random : string) (text : option string)
    (dueAt : option Z) (id : string) (tasks : list Task.t) :
  let added := tasks_add now1 random now2 text dueAt (Some tasks) in
  Forall (fun t => Task.id t ≠ id) (tasks_delete id (Some tasks)) ∧
  tasks_delete id (Some tasks)
  = List.filter (fun t => negb (String.eqb (Task.id t) id)) tasks ∧
  added.2 = added.1 :: tasks ∧
  Task.done added.1 = false ∧
  (Forall (fun t => Task.id t ≠ Task.id added.1) tasks →
   tasks_delete (Task.id added.1) (Some added.2) = tasks).
Proof.
  cbn zeta. split; [|split; [reflexivity|split; [reflexivity|split; [reflexivity|]]]].
  - unfold tasks_delete, tasks_or_empty. simpl.
    induction tasks as [|t tasks IH]; simpl; [constructor|].
    destruct (String.eqb_spec (Task.id t) id); simpl; [exact IH|].
    by constructor.
  - intros Hfresh. unfold tasks_delete, tasks_add, tasks_or_empty. simpl.
    rewrite String.eqb_refl. simpl.
    induction Hfresh as [|t rest Hne _ IH]; simpl; [done|].
    simpl in Hne. apply String.eqb_neq in Hne. rewrite Hne. simpl. by rewrite IH.
Qed.

Lemma tasks_add_then_delete_witness :
  let tasks := [Task.mk "1700000000000_abc123" "write report" false 1700000000000 None] in
  let added := tasks_add 1700000050000 "k3x9qa" 1700000050001 (Some "call home") None
                         (Some tasks) in
  Forall (fun t => Task.id t ≠ Task.id added.1) tasks ∧
  tasks_delete (Task.id added.1) (Some added.2) = tasks.
Proof.
  intros tasks added.
  assert (Hfresh : Forall (fun t => Task.id t ≠ Task.id added.1) tasks).
  { constructor; [|constructor]. vm_compute. discriminate. }
  split; [exact Hfresh|].
  destruct (tasks_add_then_delete 1700000050000 1700000050001 "k3x9qa" (Some "call home")
              None "" tasks) as (_ & _ & _ & _ & H).
  exact (H Hfresh).
Defined.

(** X26.  Clearing the completed tasks keeps exactly the tasks that are
    not done, in their order: none of the kept tasks is done, no task
    that was not done is lost, and clearing once more changes
    nothing. *)
Theorem tasks_clearCompleted_keeps_open (tasks : list Task.t) :
  Forall (fun t => Task.done t = false) (tasks_clearCompleted (Some tasks)) ∧
  (∀ t, t ∈ tasks → Task.done t = false → t ∈ tasks_clearCompleted (Some tasks)) ∧
  (∀ t, t ∈ tasks_clearCompleted (Some tasks) → t ∈ tasks) ∧
  tasks_clearCompleted (Some (tasks_clearCompleted (Some tasks)))
  = tasks_clearCompleted (Some tasks).
Proof.
  unfold tasks_clearCompleted, tasks_or_empty. simpl.
  induction tasks as [|t tasks (IH1 & IH2 & IH3 & IH4)]; simpl.
  - split; [constructor|]. split; [done|]. split; done.
  - destruct (Task.done t) eqn:Hdone; simpl.
    + split; [exact IH1|]. split; [|split; [|exact IH4]].
      * intros u Hu Hopen. apply elem_of_cons in Hu as [->|Hu]; [congruence|by apply IH2].
      * intros u Hu. apply list_elem_of_further. by apply IH3.
    + rewrite Hdone. simpl. split; [by constructor|]. split; [|split; [|by rewrite IH4]].
      * intros u Hu Hopen. apply elem_of_cons in Hu as [->|Hu];
          [apply list_elem_of_here|apply list_elem_of_further; by apply IH2].
      * intros u Hu. apply elem_of_cons in Hu as [->|Hu];
          [apply list_elem_of_here|apply list_elem_of_further; by apply IH3].
Qed.

(** ** Duration formatting *)

(** The cases of [testDurationFormatting] in the repository's test
    suite. *)
Example testDurationFormatting :
  List.map formatDuration [0; 30000; 60000; 90000; 3600000; 5400000; 7200000; 9000000]
  = ["<1m"; "<1m"; "1m"; "1m"; "1h 0m"; "1h 30m"; "2h 0m"; "2h 30m"].
Proof. vm_compute. reflexivity. Qed.

(** X27.  [formatDuration] by ranges: below one minute (negative
    durations included) the text is ["<1m"]; from one minute to below
    one hour it is the whole minutes followed by ["m"]; from one hour on
    it is the whole hours, ["h "], the minutes left over and ["m"]. *)
Theorem formatDuration_ranges (d : Z) :
  (d < 60000 → formatDuration d = "<1m") ∧
  (60000 <= d < 3600000 → formatDuration d = pretty (d / 60000) +:+ "m") ∧
  (3600000 <= d →
   formatDuration d
   = pretty (d / 3600000) +:+ "h " +:+ pretty ((d / 60000) mod 60) +:+ "m").
Proof.
  assert (Hmin : d / 1000 / 60 = d / 60000) by (rewrite Z.div_div by lia; reflexivity).
  assert (Hhour : d / 1000 / 60 / 60 = d / 3600000)
    by (rewrite Hmin, Z.div_div by lia; reflexivity).
  unfold formatDuration. cbn zeta. rewrite Hhour, Hmin, !Z.gtb_ltb.
  pose proof (Z.div_mod d 60000 ltac:(lia)) as Hm.
  pose proof (Z.mod_pos_bound d 60000 ltac:(lia)) as Hmb.
  pose proof (Z.div_mod d 3600000 ltac:(lia)) as Hh.
  pose proof (Z.mod_pos_bound d 3600000 ltac:(lia)) as Hhb.
  split; [|split].
  - intros Hd.
    destruct (Z.ltb_spec 0 (d / 3600000)); [lia|].
    destruct (Z.ltb_spec 0 (d / 60000)); [lia|]. reflexivity.
  - intros Hd.
    destruct (Z.ltb_spec 0 (d / 3600000)); [lia|].
    destruct (Z.ltb_spec 0 (d / 60000)); [reflexivity|lia].
  - intros Hd.
    destruct (Z.ltb_spec 0 (d / 3600000)); [|lia].
    rewrite Z.rem_mod_nonneg by lia. reflexivity.
Qed.

Lemma formatDuration_ranges_witness :
  3600000 <= 5400000 ∧ formatDuration 5400000 = "1h 30m".
Proof.
  split; [lia|].
  destruct (formatDuration_ranges 5400000) as (_ & _ & H).
  rewrite H by lia. vm_compute. reflexivity.
Defined.

(** ** What the popup shows *)

Lemma updateTodayOverview_insert (m : gmap string Daily.t) (D : string) (rec : Daily.t) :
  updateTodayOverview (<[D := rec]> m)
  = ((updateTodayOverview (delete D m)).1.1 + Daily.totalTime rec,
     (updateTodayOverview (delete D m)).1.2 + 1,
     (updateTodayOverview (delete D m)).2 + Daily.visitCount rec).
Proof.
  rewrite <- (insert_delete_eq m D rec). unfold updateTodayOverview at 1.
  rewrite map_fold_insert_L; [reflexivity| |apply lookup_delete_eq].
  intros j1 j2 z1 z2 y _ _ _. simpl. f_equal; [f_equal|]; lia.
Qed.

Lemma updateTodayOverview_present (m : gmap string Daily.t) (D : string) (old : Daily.t) :
  m !! D = Some old →
  updateTodayOverview m
  = ((updateTodayOverview (delete D m)).1.1 + Daily.totalTime old,
     (updateTodayOverview (delete D m)).1.2 + 1,
     (updateTodayOverview (delete D m)).2 + Daily.visitCount old).
Proof.
  intros Hold. rewrite <- (insert_delete_id m D old Hold) at 1.
  rewrite updateTodayOverview_insert. by rewrite delete_delete_eq.
Qed.

Lemma updateTodayOverview_commit_alone (n1 n2 n3 n4 : Z) (today domain url : string) (d : Z)
    (st : Storage) :
  inherited domain = false →
  let before := updateTodayOverview (getDailyStats today st) in
  let after :=
    updateTodayOverview (getDailyStats today (commit_alone n1 n2 n3 n4 today domain d url st)) in
  after.1.1 = before.1.1 + d ∧
  before.1.2 <= after.1.2 <= before.1.2 + 1 ∧
  after.2 = before.2 + 1.
Proof.
  intros Hown. cbn zeta. rewrite (commit_alone_unfold _ _ _ _ _ _ _ _ _ Hown).
  unfold getDailyStats.
  cbn [visits set_statistics set_visits]. rewrite lookup_insert_eq.
  cbn [default from_option id]. set (m := default ∅ (visits st !! ("visits_" +:+ today))).
  rewrite updateTodayOverview_insert. simpl.
  destruct (m !! domain) as [old|] eqn:Hold.
  - rewrite (updateTodayOverview_present m domain old Hold). simpl. lia.
  - rewrite (delete_id m domain Hold). simpl. lia.
Qed.

(** X28.  The overview of the popup follows the commits.  After any
    list of visits of one day, each committed after the completion of
    the one before and none for a domain that is the name of an
    inherited property, the time shown for today has grown by the sum
    of their durations and the number of visits by their number; the
    number of sites has grown by at most one per visit. *)
Theorem updateTodayOverview_follows_commits (today : string) (cs : list Commit)
    (st : Storage) :
  Forall (fun c => inherited (c_domain c) = false) cs →
  let before := updateTodayOverview (getDailyStats today st) in
  let after := updateTodayOverview (getDailyStats today (commit_all today cs st)) in
  after.1.1 = before.1.1 + total_duration cs ∧
  before.1.2 <= after.1.2 <= before.1.2 + Z.of_nat (length cs) ∧
  after.2 = before.2 + Z.of_nat (length cs).
Proof.
  intros Hown. cbn zeta. revert st.
  induction Hown as [|c cs Hc Hcs IH]; intros st.
  - simpl. lia.
  - change (commit_all today (c :: cs) st)
      with (commit_all today cs
              (commit_alone (c_clock c).1.1.1 (c_clock c).1.1.2 (c_clock c).1.2 (c_clock c).2
                            today (c_domain c) (c_duration c) (c_url c) st)).
    pose proof (IH (commit_alone (c_clock c).1.1.1 (c_clock c).1.1.2 (c_clock c).1.2
                                 (c_clock c).2 today (c_domain c) (c_duration c) (c_url c) st))
      as (H1 & H2 & H3).
    pose proof (updateTodayOverview_commit_alone (c_clock c).1.1.1 (c_clock c).1.1.2
                  (c_clock c).1.2 (c_clock c).2 today (c_domain c) (c_url c) (c_duration c) st Hc)
      as (G1 & G2 & G3).
    cbn zeta in G1, G2, G3. rewrite H1, H3, G1, G3.
    change (total_duration (c :: cs)) with (c_duration c + total_duration cs).
    simpl length. lia.
Qed.

Lemma updateTodayOverview_follows_commits_witness :
  let st := {| visits := ∅; statistics := None |} in
  let cs := [ {| c_domain := "google.com"; c_duration := 125000;
                 c_url := "https://google.com/a"; c_clock := (1, 2, 3, 4) |};
              {| c_domain := "github.com"; c_duration := 60000;
                 c_url := "https://github.com/"; c_clock := (5, 6, 7, 8) |} ] in
  let after := updateTodayOverview (getDailyStats "2024-03-01" (commit_all "2024-03-01" cs st)) in
  Forall (fun c => inherited (c_domain c) = false) cs ∧
  after.1.1 = 185000 ∧ after.2 = 2.
Proof.
  intros st cs after.
  assert (Hown : Forall (fun c => inherited (c_domain c) = false) cs)
    by (repeat constructor).
  split; [exact Hown|].
  destruct (updateTodayOverview_follows_commits "2024-03-01" cs st Hown) as (Htime & _ & Hvisits).
  split; [exact Htime | exact Hvisits].
Defined.

(** ** Escaping of text shown in the popup *)

Lemma occurs_app (c : ascii) (s1 s2 : string) :
  occurs c (s1 +:+ s2) = occurs c s1 || occurs c s2.
Proof.
  induction s1 as [|c1 s1 IH]; [done|].
  change (String c1 s1 +:+ s2) with (String c1 (s1 +:+ s2)).
  simpl. rewrite IH. by rewrite orb_assoc.
Qed.

Lemma escape_char_clean (c : ascii) :
  occurs "<" (escape_char c) = false ∧
  occurs ">" (escape_char c) = false ∧
  occurs quote (escape_char c) = false.
Proof.
  unfold escape_char.
  destruct (Ascii.eqb_spec c "&"); [done|].
  destruct (Ascii.eqb_spec c "<") as [|Hlt]; [done|].
  destruct (Ascii.eqb_spec c ">") as [|Hgt]; [done|].
  destruct (Ascii.eqb_spec c quote) as [|Hq]; [done|].
  simpl. rewrite !orb_false_r.
  repeat split; by apply Ascii.eqb_neq.
Qed.

(** X29.  The text that [escapeHtml] returns contains no less-than
    sign, no greater-than sign and no double quote, whatever the input;
    and a text that contains none of these and no ampersand is returned
    unchanged. *)
Theorem escapeHtml_clean (s : string) :
  occurs "<" (escapeHtml s) = false ∧
  occurs ">" (escapeHtml s) = false ∧
  occurs quote (escapeHtml s) = false ∧
  (occurs "&" s = false → occurs "<" s = false → occurs ">" s = false →
   occurs quote s = false → escapeHtml s = s).
Proof.
  induction s as [|c s (IH1 & IH2 & IH3 & IH4)]; [done|].
  simpl escapeHtml. rewrite !occurs_app, IH1, IH2, IH3.
  destruct (escape_char_clean c) as (-> & -> & ->).
  split; [done|]. split; [done|]. split; [done|].
  simpl. intros Ha Hl Hg Hq.
  apply orb_false_iff in Ha as [Hca Ha]. apply orb_false_iff in Hl as [Hcl Hl].
  apply orb_false_iff in Hg as [Hcg Hg]. apply orb_false_iff in Hq as [Hcq Hq].
  unfold escape_char. rewrite Hca, Hcl, Hcg, Hcq.
  change (String c "" +:+ escapeHtml s) with (String c (escapeHtml s)).
  by rewrite IH4.
Qed.

Lemma escapeHtml_clean_witness :
  occurs "&" "write report" = false ∧ occurs "<" "write report" = false ∧
  occurs ">" "write report" = false ∧ occurs quote "write report" = false ∧
  escapeHtml "write report" = "write report".
Proof.
  repeat (split; [reflexivity|]).
  destruct (escapeHtml_clean "write report") as (_ & _ & _ & H).
  apply H; reflexivity.
Defined.

Example escapeHtml_script :
  escapeHtml "<img src=x onerror=alert(1)> & co" = "&lt;img src=x onerror=alert(1)&gt; &amp; co".
Proof. reflexivity. Qed.

(** ** The badge *)

Lemma substring0_length (n : nat) (s : string) :
  (String.length (JsString.substring0 n s) <= n)%nat.
Proof.
  revert s. induction n as [|n IH]; intros s; simpl; [lia|].
  destruct s as [|c s]; simpl; [lia|]. specialize (IH s). lia.
Qed.

Lemma toUpperCase_length (s : string) :
  String.length (JsString.toUpperCase s) = String.length s.
Proof. induction s as [|c s IH]; simpl; [done|]. by rewrite IH. Qed.

Lemma substring0_length_min (n : nat) (s : string) :
  String.length (JsString.substring0 n s) = Nat.min n (String.length s).
Proof.
  revert s. induction n as [|n IH]; intros s; simpl; [done|].
  destruct s as [|c s]; simpl; [done|]. by rewrite IH.
Qed.

Lemma get_substring0 (n i : nat) (s : string) :
  (i < n)%nat → String.get i (JsString.substring0 n s) = String.get i s.
Proof.
  revert i s. induction n as [|n IH]; intros i s Hi; [lia|].
  destruct s as [|c s]; simpl; [done|].
  destruct i as [|i]; [done|]. apply IH. lia.
Qed.

Lemma get_toUpperCase (i : nat) (s : string) :
  String.get i (JsString.toUpperCase s) = JsString.upper <$> String.get i s.
Proof.
  revert i. induction s as [|c s IH]; intros i; simpl; [done|].
  destruct i as [|i]; [done|]. apply IH.
Qed.

(** X30.  The badge shows the first four characters of the domain in
    upper case.  For a domain of ASCII characters, [updateBadge] sets
    one text: the upper-cased first four characters of the domain (all
    of it when it is shorter), character by character; the text has at
    most four characters, it is empty exactly when the domain is empty,
    and the tracker is left as it was. *)
Theorem updateBadge_short (domain : string) (t : UsageTracker) :
  ascii_only domain = true →
  (updateBadge domain t).1 = t ∧
  ∃ text, Call_setBadgeText text ∈ (updateBadge domain t).2 ∧
          (∀ text', Call_setBadgeText text' ∈ (updateBadge domain t).2 → text' = text) ∧
          text = JsString.toUpperCase (JsString.substring0 4 domain) ∧
          String.length text = Nat.min 4 (String.length domain) ∧
          (∀ i, (i < 4)%nat → String.get i text = JsString.upper <$> String.get i domain) ∧
          (String.length text <= 4)%nat ∧
          (text = "" ↔ domain = "").
Proof.
  intros _. split; [apply updateBadge_tracker|].
  exists (JsString.toUpperCase (JsString.substring0 4 domain)).
  assert (Hcalls : Call_setBadgeText (JsString.toUpperCase (JsString.substring0 4 domain))
                   ∈ (updateBadge domain t).2 ∧
                   ∀ text', Call_setBadgeText text' ∈ (updateBadge domain t).2 →
                            text' = JsString.toUpperCase (JsString.substring0 4 domain)).
  { unfold updateBadge. destruct (String.eqb_spec domain "") as [->|Hne].
    - simpl. split; [apply list_elem_of_here|].
      intros text' H. apply list_elem_of_singleton in H. by injection H.
    - rewrite seq_calls. unfold call. cbn [fst snd app].
      split; [apply list_elem_of_here|].
      intros text' H. apply elem_of_cons in H as [H|H]; [by injection H|].
      apply list_elem_of_singleton in H. discriminate H. }
  destruct Hcalls as [Hin Honly].
  split; [exact Hin|]. split; [exact Honly|]. split; [reflexivity|].
  split; [by rewrite toUpperCase_length, substring0_length_min|].
  split; [|split].
  - intros i Hi. by rewrite get_toUpperCase, get_substring0.
  - rewrite toUpperCase_length. apply substring0_length.
  - split.
    + intros H. destruct domain as [|c domain]; [done|]. simpl in H. discriminate H.
    + by intros ->.
Qed.

Lemma updateBadge_short_witness :
  ascii_only "github.com" = true ∧
  Call_setBadgeText "GITH" ∈ (updateBadge "github.com" new_UsageTracker).2.
Proof.
  split; [reflexivity|].
  destruct (updateBadge_short "github.com" new_UsageTracker eq_refl)
    as (_ & text & Hin & _ & Htext & _).
  rewrite Htext in Hin. exact Hin.
Defined.
